(** * Reddit sentiment monitor: record store, call gateway and approval workflow

    A shallow embedding of the monitoring core of the repository:

    - [storage/comment_db.py]   the SQLite-backed [CommentDatabase];
    - [utils/rate_limiting.py]  the [throttle] and [with_retry] decorators;
    - [workflows/sentiment_workflow.py]  the workflow nodes, the state
      manager, [process_comment] and [resume_workflow_after_approval];
    - [monitoring.py]           [RedditMonitor].

    Python [str] values are [string]s, [float]s are exact rationals [Q],
    [None]-able values are [option]s, dictionaries keyed by strings are
    [gmap string _], and the SQLite table is the list of its rows in rowid
    order.  External collaborators (classifier, drafter, mailer, clock, uuid
    source, graph runtime on resume) are explicit arguments. *)

From Stdlib Require Import String Ascii List ZArith QArith Bool Lia Lqa.
From Stdlib Require Import Sorted Permutation OrderedTypeEx.
From stdpp Require Import gmap strings pretty.
From Equations Require Import Equations.
Import ListNotations.

Local Open Scope string_scope.

(** ** Python string operations used by the sources *)

Module Text.

(** [s.startswith(p)] *)
Definition startswith (p s : string) : bool := String.prefix p s.

(** [s[n:]] *)
Fixpoint drop (n : nat) (s : string) : string :=
  match n, s with
  | O, _ => s
  | S _, EmptyString => EmptyString
  | S n', String _ s' => drop n' s'
  end.

(** [s[:n]] *)
Fixpoint take (n : nat) (s : string) : string :=
  match n, s with
  | O, _ => EmptyString
  | S _, EmptyString => EmptyString
  | S n', String c s' => String c (take n' s')
  end.

(** Truth value of a string: [bool(s)]. *)
Definition truthy (s : string) : bool :=
  match s with EmptyString => false | String _ _ => true end.

(** Truth value of an optional string ([None] and [""] are false). *)
Definition truthy_opt (o : option string) : bool :=
  match o with None => false | Some s => truthy s end.

(** ASCII case folding: [A]..[Z] go to [a]..[z], the rest is kept. *)
Definition lower_ascii (c : ascii) : ascii :=
  let n := nat_of_ascii c in
  if (65 <=? n)%nat && (n <=? 90)%nat then ascii_of_nat (n + 32) else c.

(** [s.lower()] on ASCII text. *)
Fixpoint lower (s : string) : string :=
  match s with
  | EmptyString => EmptyString
  | String c s' => String (lower_ascii c) (lower s')
  end.

(** [needle in hay] *)
Fixpoint contains (needle hay : string) : bool :=
  String.prefix needle hay
  || match hay with
     | EmptyString => false
     | String _ hay' => contains needle hay'
     end.

(** [some_suffix f t]: [f] accepts [t] or one of its proper suffixes. *)
Fixpoint some_suffix (f : string -> bool) (t : string) : bool :=
  f t
  || match t with
     | EmptyString => false
     | String _ t' => some_suffix f t'
     end.

(** SQLite's [text LIKE pattern] (no ESCAPE clause): [%] matches any run
    of characters, [_] matches exactly one, every other character matches
    itself up to ASCII case. *)
Fixpoint like (pattern text : string) : bool :=
  match pattern with
  | EmptyString =>
      match text with EmptyString => true | String _ _ => false end
  | String p pattern' =>
      if Ascii.eqb p "%"%char then some_suffix (like pattern') text
      else
        match text with
        | EmptyString => false
        | String c text' =>
            (Ascii.eqb p "_"%char
             || Ascii.eqb (lower_ascii p) (lower_ascii c))
            && like pattern' text'
        end
  end.

End Text.

(** ** Floating point

    A number the program holds as a float is modelled by the rational it
    stands for.  What is kept of floating point is its range: a power, or
    the conversion of an [int], whose exact value reaches [float_limit] in
    magnitude does not round to a float, and Python raises [OverflowError]
    for it. *)

Module Floats.

Definition float_limit : Z := 2 ^ 1024 - 2 ^ 970.

Definition float_overflows (x : Q) : bool :=
  Qle_bool (inject_Z float_limit) x || Qle_bool x (inject_Z (- float_limit)).

End Floats.

(** ** utils/rate_limiting.py

    The two decorators.  A decorated call is described by what it does, in
    order: invocations of the wrapped function, sleeps and log lines for
    [with_retry]; clock readings and the registry for [throttle]. *)

Module RateLimiting.

(** An exception, as far as [with_retry] inspects it: the value of
    [e.response.status_code] when both attributes exist, and [str(e)]. *)
Record exn := mk_exn {
  response_status_code : option Z;
  message : string
}.

(** The outcome of one invocation of the wrapped function. *)
Inductive outcome (A : Type) :=
| Return (a : A)
| Raise (e : exn).
Arguments Return {A} a.
Arguments Raise {A} e.

(** How a decorated call ends.  [RaisesTypeError] is Python's answer to
    [raise None], reached when the loop body never ran.  [Escapes e]: an
    exception raised inside the [except] handler, by the arithmetic of the
    delay or by [time.sleep], is not caught there and leaves the wrapper at
    once, past the code after the loop. *)
Inductive finished (A : Type) :=
| Returns (a : A)
| Raises (e : exn)
| RaisesTypeError
| Escapes (e : exn).
Arguments Returns {A} a.
Arguments Raises {A} e.
Arguments RaisesTypeError {A}.
Arguments Escapes {A} e.

(** The [OverflowError] of a float power out of range, and the one of an
    [int] too large for a float. *)
Definition power_out_of_range : exn :=
  mk_exn None "(34, 'Numerical result out of range')".

Definition int_too_large : exn :=
  mk_exn None "int too large to convert to float".

(** What the wrapper does, in order. *)
Inductive event :=
| Called                                              (* the wrapped call *)
| Warned (rate_limit : bool) (delay : Q) (attempt : Z)  (* logger.warning *)
| Slept (delay : Q)                                   (* time.sleep(delay) *)
| LoggedFailure.                                      (* logger.error *)

Definition is_rate_limit (e : exn) : bool :=
  match response_status_code e with
  | Some code => Z.eqb code 429
  | None =>
      Text.contains "429" (message e)
      || Text.contains "rate limit" (Text.lower (message e))
  end.

Definition inspect {B : Type} (b : B) : {x : B | b = x} := exist _ b eq_refl.

Section WithRetry.
Context {A : Type}.
(** [func n] is how the wrapped function ends when it is invoked for the
    [n]-th time (counting from 0) with the wrapper's arguments. *)
Variable func : nat -> outcome A.
(** [time_sleep d] is what [time.sleep(d)] does: it returns ([None]) or it
    raises, a [ValueError] for a negative length and an error of the
    platform for a length its clock cannot take. *)
Variable time_sleep : Q -> option exn.
Variables (max_retries : Z) (base_delay backoff_factor : Q).

(** The code after the [while] loop. *)
Definition all_retries_failed (last_exception : option exn) : finished A :=
  match last_exception with
  | Some e => Raises e
  | None => RaisesTypeError
  end.

(** The [while retries <= max_retries] loop; [calls] counts the
    invocations made so far. *)
Equations? retry_loop (retries : Z) (last_exception : option exn) (calls : nat)
    : finished A * list event
    by wf (Z.to_nat (max_retries + 1 - retries)) lt :=
retry_loop retries last_exception calls
    with inspect (retries <=? max_retries)%Z := {
  | exist _ false _ => (all_retries_failed last_exception, [LoggedFailure])
  | exist _ true _ with func calls := {
    | Return a => (Returns a, [Called])
    | Raise e with inspect (retries + 1 >? max_retries)%Z := {
      | exist _ true _ => (all_retries_failed (Some e), [Called; LoggedFailure])
      | exist _ false _ =>
          let power := (backoff_factor ^ (retries + 1 - 1))%Q in
          if Floats.float_overflows power then (Escapes power_out_of_range, [Called])
          else
            let delay := (base_delay * power)%Q in
            match time_sleep delay with
            | Some error =>
                (Escapes error,
                 [Called; Warned (is_rate_limit e) delay (retries + 1)])
            | None =>
                let rest := retry_loop (retries + 1)%Z (Some e) (S calls) in
                (fst rest,
                 Called :: Warned (is_rate_limit e) delay (retries + 1)
                        :: Slept delay :: snd rest)
            end } } }.
Proof. lia. Qed.

(** The decorated function: the way it ends, and what it did. *)
Definition with_retry : finished A * list event :=
  retry_loop 0%Z None 0%nat.

(** The timetable the specification gives for a call that keeps failing:
    attempt, wait [base_delay * backoff_factor ^ (attempt - 1)], attempt,
    ..., with [n] waits from attempt number [attempt] on. *)
Fixpoint backoff_timetable (n : nat) (attempt : Z) : list event :=
  match n with
  | O => [Called]
  | S k =>
      Called :: Slept (base_delay * backoff_factor ^ (attempt - 1))%Q
             :: backoff_timetable k (attempt + 1)%Z
  end.

(** Every pause of the timetable goes through: for the retries numbered 1
    to [n], the power stays in the range of floats and [time.sleep] takes
    the delay. *)
Definition pauses_go_through (n : Z) : Prop :=
  forall retries : Z,
    (1 <= retries <= n)%Z ->
    Floats.float_overflows (backoff_factor ^ (retries - 1)) = false
    /\ time_sleep (base_delay * backoff_factor ^ (retries - 1))%Q = None.
End WithRetry.

(** [time.sleep] on the lengths a platform clock takes: it refuses a
    negative one. *)
Definition sleep_length_must_be_non_negative : exn :=
  mk_exn None "sleep length must be non-negative".

Definition sleep_checking_sign (d : Q) : option exn :=
  if Qlt_le_dec d 0 then Some sleep_length_must_be_non_negative else None.

(** Invocations and waits, without the log lines. *)
Definition is_log (ev : event) : bool :=
  match ev with
  | Warned _ _ _ | LoggedFailure => true
  | Called | Slept _ => false
  end.

Definition actions (trace : list event) : list event :=
  List.filter (fun ev => negb (is_log ev)) trace.

Definition attempts (trace : list event) : nat :=
  List.length (List.filter (fun ev => match ev with Called => true | _ => false end) trace).

(** *** throttle *)

(** The clock and the module-level registry [_last_api_call_times]. *)
Record gateway := mk_gateway {
  clock : Q;
  last_api_call_times : gmap string Q
}.

(** Time that passes, unasked, around the steps of one throttled call:
    before the clock is first read, beyond the requested sleep, between
    the sleep and the second reading, and while the wrapped function
    runs. *)
Record latency := mk_latency {
  before_check : Q;
  oversleep : Q;
  before_record : Q;
  call_duration : Q
}.

Definition elapse (d : Q) (w : gateway) : gateway :=
  mk_gateway (clock w + d)%Q (last_api_call_times w).

(** [time.sleep(d)]: at least [d] goes by. *)
Definition sleep (d extra : Q) (w : gateway) : gateway := elapse (d + extra)%Q w.

(** [key or func.__name__] *)
Definition throttle_key (key : option string) (name : string) : string :=
  match key with
  | Some k => if Text.truthy k then k else name
  | None => name
  end.

(** One call of the wrapper built by [throttle(min_interval, key)] around a
    function named [name].  The result is the moment at which the wrapped
    function is invoked (the time just written to the registry) and the
    gateway after it has returned. *)
Definition throttle (min_interval : Q) (key : option string) (name : string)
    (lat : latency) (w : gateway) : Q * gateway :=
  let throttle_key := throttle_key key name in
  let last_call_time := default 0%Q (last_api_call_times w !! throttle_key) in
  let w := elapse (before_check lat) w in
  let current_time := clock w in
  let elapsed := (current_time - last_call_time)%Q in
  let w :=
    if Qlt_le_dec elapsed min_interval
    then sleep (min_interval - elapsed)%Q (oversleep lat) w
    else w in
  let w := elapse (before_record lat) w in
  let w := mk_gateway (clock w) (<[throttle_key := clock w]> (last_api_call_times w)) in
  (clock w, elapse (call_duration lat) w).

(** A sequence of calls through the same wrapper; the result lists the
    moments at which the wrapped function was invoked. *)
Fixpoint throttled_calls (min_interval : Q) (key : option string) (name : string)
    (lats : list latency) (w : gateway) : list Q * gateway :=
  match lats with
  | [] => ([], w)
  | lat :: rest =>
      let r := throttle min_interval key name lat w in
      let rs := throttled_calls min_interval key name rest (snd r) in
      (fst r :: fst rs, snd rs)
  end.

(** Time does not run backwards. *)
Definition nonnegative (lat : latency) : Prop :=
  (0 <= before_check lat /\ 0 <= oversleep lat
   /\ 0 <= before_record lat /\ 0 <= call_duration lat)%Q.

(** Consecutive moments are at least [gap] apart. *)
Fixpoint spaced (gap : Q) (moments : list Q) : Prop :=
  match moments with
  | [] => True
  | t1 :: rest =>
      match rest with
      | [] => True
      | t2 :: _ => (t1 + gap <= t2)%Q
      end /\ spaced gap rest
  end.

(** One decorated call: the arguments of its [throttle] decorator, the name
    of the function it wraps, and the time that passes around it. *)
Record throttled_call := mk_throttled_call {
  tc_min_interval : Q;
  tc_key : option string;
  tc_name : string;
  tc_latency : latency
}.

(** Calls through any of the wrappers, one after the other, all sharing the
    registry; the result lists, in order, the registry key of each call and
    the moment the wrapped function was invoked. *)
Fixpoint gateway_calls (calls : list throttled_call) (w : gateway)
    : list (string * Q) * gateway :=
  match calls with
  | [] => ([], w)
  | c :: rest =>
      let r := throttle (tc_min_interval c) (tc_key c) (tc_name c) (tc_latency c) w in
      let rs := gateway_calls rest (snd r) in
      ((throttle_key (tc_key c) (tc_name c), fst r) :: fst rs, snd rs)
  end.

(** The moments of the calls made under one registry key. *)
Definition starts_under (key : string) (log : list (string * Q)) : list Q :=
  map snd (List.filter (fun e => String.eqb (fst e) key) log).

End RateLimiting.

(** ** utils.py

    [backoff_retry], the older retry helper.  Its two log lines per failure
    are left out; what is kept is each invocation and each sleep. *)

Module Utils.
Import RateLimiting.

(** How [backoff_retry] ends: with the function's value, with its last
    exception, or by falling off the end, which returns [None]. *)
Inductive backoff_finished (A : Type) :=
| BackoffReturns (a : A)
| BackoffRaises (e : exn)
| BackoffReturnsNone
| BackoffEscapes (e : exn).    (* raised inside the handler, not caught *)
Arguments BackoffReturns {A} a.
Arguments BackoffRaises {A} e.
Arguments BackoffReturnsNone {A}.
Arguments BackoffEscapes {A} e.

Inductive step :=
| Invoked
| Waited (delay : Q).

Section BackoffRetry.
Context {A : Type}.
(** [func n]: how the function ends when it is invoked for the [n]-th time. *)
Variable func : nat -> outcome A.
(** [time_sleep d]: what [time.sleep(d)] does, as for [with_retry]. *)
Variable time_sleep : Q -> option exn.
Variable base_delay : Q.

(** The [for retry in range(max_retries)] loop with [remaining] rounds to
    go, followed by the code after it.  In [base_delay * (2**retry)] the
    power is an [int], converted to a float for the product. *)
Fixpoint backoff_loop (remaining : nat) (retry : Z) (last_exception : option exn)
    (calls : nat) : backoff_finished A * list step :=
  match remaining with
  | O =>
      (match last_exception with
       | Some e => BackoffRaises e
       | None => BackoffReturnsNone
       end, [])
  | S remaining' =>
      match func calls with
      | Return a => (BackoffReturns a, [Invoked])
      | Raise e =>
          if Floats.float_overflows (inject_Z (2 ^ retry))
          then (BackoffEscapes int_too_large, [Invoked])
          else
            let delay := (base_delay * inject_Z (2 ^ retry))%Q in
            match time_sleep delay with
            | Some error => (BackoffEscapes error, [Invoked])
            | None =>
                let rest :=
                  backoff_loop remaining' (retry + 1)%Z (Some e) (S calls) in
                (fst rest, Invoked :: Waited delay :: snd rest)
            end
      end
  end.

(** [backoff_retry(func, max_retries, base_delay)]; [range] of a negative
    number is empty. *)
Definition backoff_retry (max_retries : Z) : backoff_finished A * list step :=
  backoff_loop (Z.to_nat max_retries) 0%Z None 0%nat.

(** Every pause of the first [n] rounds goes through. *)
Definition waits_go_through (n : nat) : Prop :=
  forall i : nat,
    (i < n)%nat ->
    Floats.float_overflows (inject_Z (2 ^ Z.of_nat i)) = false
    /\ time_sleep (base_delay * inject_Z (2 ^ Z.of_nat i))%Q = None.
End BackoffRetry.

Definition invocations (trace : list step) : nat :=
  List.length (List.filter (fun st => match st with Invoked => true | _ => false end) trace).

Definition waits (trace : list step) : list Q :=
  flat_map (fun st => match st with Waited d => [d] | Invoked => [] end) trace.

End Utils.

(** ** storage/comment_db.py

    The [comments] table with the statements the class sends to it.  A
    statement fails on a constraint or on a column the table does not have;
    failures of SQLite itself (a locked or unreadable file) are left out.
    Every method opens its own connection and commits, so a method is a
    function from the table to its result and the new table. *)

Module CommentDb.

(** A value stored in a column or bound to a [?] placeholder. *)
Inductive sqlval :=
| NULL
| TEXT (s : string)
| REAL (q : Q)
| INTEGER (z : Z).

(** One row of the [comments] table created by [_init_db]. *)
Record row := mk_row {
  col_id : sqlval;              (* id TEXT PRIMARY KEY *)
  col_comment_id : sqlval;      (* comment_id TEXT UNIQUE *)
  col_subreddit : sqlval;
  col_author : sqlval;
  col_body : sqlval;
  col_created_utc : sqlval;
  col_permalink : sqlval;
  col_key_term : sqlval;
  col_sentiment : sqlval;
  col_confidence : sqlval;
  col_ai_response : sqlval;
  col_status : sqlval;
  col_email_sent : sqlval;
  col_email_recipient : sqlval;
  col_timestamp : sqlval
}.

(** The table, in rowid (insertion) order. *)
Definition table := list row.

(** The column names of [_init_db]'s CREATE TABLE, each with its reader
    and its writer. *)
Definition columns : list (string * ((row -> sqlval) * (sqlval -> row -> row))) :=
  [ ("id", (col_id, fun v r =>
      mk_row v (col_comment_id r) (col_subreddit r) (col_author r) (col_body r)
        (col_created_utc r) (col_permalink r) (col_key_term r) (col_sentiment r)
        (col_confidence r) (col_ai_response r) (col_status r) (col_email_sent r)
        (col_email_recipient r) (col_timestamp r)));
    ("comment_id", (col_comment_id, fun v r =>
      mk_row (col_id r) v (col_subreddit r) (col_author r) (col_body r)
        (col_created_utc r) (col_permalink r) (col_key_term r) (col_sentiment r)
        (col_confidence r) (col_ai_response r) (col_status r) (col_email_sent r)
        (col_email_recipient r) (col_timestamp r)));
    ("subreddit", (col_subreddit, fun v r =>
      mk_row (col_id r) (col_comment_id r) v (col_author r) (col_body r)
        (col_created_utc r) (col_permalink r) (col_key_term r) (col_sentiment r)
        (col_confidence r) (col_ai_response r) (col_status r) (col_email_sent r)
        (col_email_recipient r) (col_timestamp r)));
    ("author", (col_author, fun v r =>
      mk_row (col_id r) (col_comment_id r) (col_subreddit r) v (col_body r)
        (col_created_utc r) (col_permalink r) (col_key_term r) (col_sentiment r)
        (col_confidence r) (col_ai_response r) (col_status r) (col_email_sent r)
        (col_email_recipient r) (col_timestamp r)));
    ("body", (col_body, fun v r =>
      mk_row (col_id r) (col_comment_id r) (col_subreddit r) (col_author r) v
        (col_created_utc r) (col_permalink r) (col_key_term r) (col_sentiment r)
        (col_confidence r) (col_ai_response r) (col_status r) (col_email_sent r)
        (col_email_recipient r) (col_timestamp r)));
    ("created_utc", (col_created_utc, fun v r =>
      mk_row (col_id r) (col_comment_id r) (col_subreddit r) (col_author r) (col_body r)
        v (col_permalink r) (col_key_term r) (col_sentiment r)
        (col_confidence r) (col_ai_response r) (col_status r) (col_email_sent r)
        (col_email_recipient r) (col_timestamp r)));
    ("permalink", (col_permalink, fun v r =>
      mk_row (col_id r) (col_comment_id r) (col_subreddit r) (col_author r) (col_body r)
        (col_created_utc r) v (col_key_term r) (col_sentiment r)
        (col_confidence r) (col_ai_response r) (col_status r) (col_email_sent r)
        (col_email_recipient r) (col_timestamp r)));
    ("key_term", (col_key_term, fun v r =>
      mk_row (col_id r) (col_comment_id r) (col_subreddit r) (col_author r) (col_body r)
        (col_created_utc r) (col_permalink r) v (col_sentiment r)
        (col_confidence r) (col_ai_response r) (col_status r) (col_email_sent r)
        (col_email_recipient r) (col_timestamp r)));
    ("sentiment", (col_sentiment, fun v r =>
      mk_row (col_id r) (col_comment_id r) (col_subreddit r) (col_author r) (col_body r)
        (col_created_utc r) (col_permalink r) (col_key_term r) v
        (col_confidence r) (col_ai_response r) (col_status r) (col_email_sent r)
        (col_email_recipient r) (col_timestamp r)));
    ("confidence", (col_confidence, fun v r =>
      mk_row (col_id r) (col_comment_id r) (col_subreddit r) (col_author r) (col_body r)
        (col_created_utc r) (col_permalink r) (col_key_term r) (col_sentiment r)
        v (col_ai_response r) (col_status r) (col_email_sent r)
        (col_email_recipient r) (col_timestamp r)));
    ("ai_response", (col_ai_response, fun v r =>
      mk_row (col_id r) (col_comment_id r) (col_subreddit r) (col_author r) (col_body r)
        (col_created_utc r) (col_permalink r) (col_key_term r) (col_sentiment r)
        (col_confidence r) v (col_status r) (col_email_sent r)
        (col_email_recipient r) (col_timestamp r)));
    ("status", (col_status, fun v r =>
      mk_row (col_id r) (col_comment_id r) (col_subreddit r) (col_author r) (col_body r)
        (col_created_utc r) (col_permalink r) (col_key_term r) (col_sentiment r)
        (col_confidence r) (col_ai_response r) v (col_email_sent r)
        (col_email_recipient r) (col_timestamp r)));
    ("email_sent", (col_email_sent, fun v r =>
      mk_row (col_id r) (col_comment_id r) (col_subreddit r) (col_author r) (col_body r)
        (col_created_utc r) (col_permalink r) (col_key_term r) (col_sentiment r)
        (col_confidence r) (col_ai_response r) (col_status r) v
        (col_email_recipient r) (col_timestamp r)));
    ("email_recipient", (col_email_recipient, fun v r =>
      mk_row (col_id r) (col_comment_id r) (col_subreddit r) (col_author r) (col_body r)
        (col_created_utc r) (col_permalink r) (col_key_term r) (col_sentiment r)
        (col_confidence r) (col_ai_response r) (col_status r) (col_email_sent r)
        v (col_timestamp r)));
    ("timestamp", (col_timestamp, fun v r =>
      mk_row (col_id r) (col_comment_id r) (col_subreddit r) (col_author r) (col_body r)
        (col_created_utc r) (col_permalink r) (col_key_term r) (col_sentiment r)
        (col_confidence r) (col_ai_response r) (col_status r) (col_email_sent r)
        (col_email_recipient r) v)) ].

Definition schema : list string := map fst columns.

Definition column (c : string) :=
  snd <$> List.find (fun e => String.eqb (fst e) c) columns.

Definition get_column (c : string) (r : row) : option sqlval :=
  (fun rw => fst rw r) <$> column c.

Definition set_column (c : string) (v : sqlval) (r : row) : option row :=
  (fun rw => snd rw v r) <$> column c.

(** What a statement can raise. *)
Inductive db_error :=
| IntegrityError                      (* a UNIQUE or PRIMARY KEY conflict *)
| OperationalError (msg : string)     (* e.g. "no such column: c" *)
| OverflowError.                      (* a number out of range, see below *)

Inductive db_result (A : Type) :=
| Returned (a : A)
| Raised (e : db_error).
Arguments Returned {A} a.
Arguments Raised {A} e.

(** The truth of [a = b] in a WHERE clause: NULL equals nothing, text is
    compared bytewise, numbers by value. *)
Definition sql_eq (a b : sqlval) : bool :=
  match a, b with
  | TEXT x, TEXT y => String.eqb x y
  | INTEGER x, INTEGER y => Z.eqb x y
  | REAL x, REAL y => Qeq_bool x y
  | INTEGER x, REAL y => Qeq_bool (inject_Z x) y
  | REAL x, INTEGER y => Qeq_bool x (inject_Z y)
  | _, _ => false
  end.

(** The truth of [a LIKE pattern]. *)
Definition sql_like (a : sqlval) (pattern : string) : bool :=
  match a with
  | TEXT x => Text.like pattern x
  | _ => false
  end.

(** Truth value of a fetched cell, as in [if row["ai_response"]]. *)
Definition cell_truthy (v : sqlval) : bool :=
  match v with
  | NULL => false
  | TEXT s => Text.truthy s
  | REAL q => negb (Qeq_bool q 0)
  | INTEGER z => negb (Z.eqb z 0)
  end.

Definition no_such_column (cs : list string) : option string :=
  List.find (fun c => match column c with None => true | Some _ => false end) cs.

(** [SELECT ... FROM comments WHERE wcol = ?], all matching rows. *)
Definition SELECT_WHERE (cols : list string) (wcol : string) (wval : sqlval)
    (db : table) : db_result (list row) :=
  match no_such_column (cols ++ [wcol])%list with
  | Some c => Raised (OperationalError ("no such column: " ++ c))
  | None =>
      Returned (List.filter
        (fun r => match get_column wcol r with
                  | Some v => sql_eq v wval
                  | None => false
                  end) db)
  end.

(** [SELECT ... FROM comments WHERE wcol LIKE ?]. *)
Definition SELECT_LIKE (cols : list string) (wcol : string) (pattern : string)
    (db : table) : db_result (list row) :=
  match no_such_column (cols ++ [wcol])%list with
  | Some c => Raised (OperationalError ("no such column: " ++ c))
  | None =>
      Returned (List.filter
        (fun r => match get_column wcol r with
                  | Some v => sql_like v pattern
                  | None => false
                  end) db)
  end.

(** [cursor.fetchone()] *)
Definition fetchone (rows : list row) : option row := List.head rows.

Definition assign (sets : list (string * sqlval)) (r : row) : row :=
  fold_left (fun acc cv => default acc (set_column (fst cv) (snd cv) acc)) sets r.

(** [UPDATE comments SET c1 = ?, ... WHERE wcol = ?]; the result is the
    new table and [cursor.rowcount]. *)
Definition UPDATE (sets : list (string * sqlval)) (wcol : string) (wval : sqlval)
    (db : table) : db_result (table * nat) :=
  match no_such_column (map fst sets ++ [wcol])%list with
  | Some c => Raised (OperationalError ("no such column: " ++ c))
  | None =>
      let hit r := match get_column wcol r with
                   | Some v => sql_eq v wval
                   | None => false
                   end in
      Returned (map (fun r => if hit r then assign sets r else r) db,
                List.length (List.filter hit db))
  end.

(** [INSERT INTO comments (...) VALUES (...)] under the table's two
    constraints. *)
Definition conflicts (new old : row) : bool :=
  sql_eq (col_id old) (col_id new)
  || sql_eq (col_comment_id old) (col_comment_id new).

Definition INSERT (r : row) (db : table) : db_result table :=
  if existsb (conflicts r) db then Raised IntegrityError
  else Returned (db ++ [r])%list.

Definition bind {A B} (m : db_result A) (k : A -> db_result B) : db_result B :=
  match m with
  | Returned a => k a
  | Raised e => Raised e
  end.

Notation "'try!' x := m 'in' k" := (bind m (fun x => k))
  (at level 10, x name, m at level 100, k at level 200).

Definition opt_text (o : option string) : sqlval :=
  match o with
  | None => NULL
  | Some s => TEXT s
  end.

(** The comment dictionary handed over by the collector; it always carries
    these six keys ([reddit_client.get_recent_comments]). *)
Record comment_data := mk_comment {
  cd_id : string;
  cd_subreddit : string;
  cd_author : string;
  cd_body : string;
  cd_created_utc : Q;
  cd_permalink : string
}.

(** The arguments of one [add_comment] call, with the two values the call
    draws from its environment: [uuid.uuid4()] and [time.time()] (read once
    for the INSERT and once more if the UPDATE branch runs). *)
Record add_args := mk_add {
  a_uuid4 : string;
  a_time_insert : Q;
  a_time_update : Q;
  a_comment : comment_data;
  a_key_term : string;
  a_sentiment : string;
  a_confidence : Q;
  a_ai_response : option string;
  a_status : string;
  a_email_sent : bool;
  a_email_recipient : option string
}.

Definition new_row (a : add_args) : row :=
  mk_row (TEXT (a_uuid4 a))
         (TEXT (cd_id (a_comment a)))
         (TEXT (cd_subreddit (a_comment a)))
         (TEXT (cd_author (a_comment a)))
         (TEXT (cd_body (a_comment a)))
         (REAL (cd_created_utc (a_comment a)))
         (TEXT (cd_permalink (a_comment a)))
         (TEXT (a_key_term a))
         (TEXT (a_sentiment a))
         (REAL (a_confidence a))
         (opt_text (a_ai_response a))
         (TEXT (a_status a))
         (INTEGER (if a_email_sent a then 1 else 0))
         (opt_text (a_email_recipient a))
         (REAL (a_time_insert a)).

Definition mutable_fields (a : add_args) : list (string * sqlval) :=
  [ ("subreddit", TEXT (cd_subreddit (a_comment a)));
    ("author", TEXT (cd_author (a_comment a)));
    ("body", TEXT (cd_body (a_comment a)));
    ("created_utc", REAL (cd_created_utc (a_comment a)));
    ("permalink", TEXT (cd_permalink (a_comment a)));
    ("key_term", TEXT (a_key_term a));
    ("sentiment", TEXT (a_sentiment a));
    ("confidence", REAL (a_confidence a));
    ("ai_response", opt_text (a_ai_response a));
    ("status", TEXT (a_status a));
    ("email_sent", INTEGER (if a_email_sent a then 1 else 0));
    ("email_recipient", opt_text (a_email_recipient a));
    ("timestamp", REAL (a_time_update a)) ].

(** [CommentDatabase.add_comment]: returns the id it reports and the new
    table. *)
Definition add_comment (a : add_args) (db : table) : db_result (sqlval * table) :=
  let comment_id := cd_id (a_comment a) in
  let id := TEXT (a_uuid4 a) in
  match INSERT (new_row a) db with
  | Returned db' => Returned (id, db')
  | Raised IntegrityError =>
      (* Comment already exists, update instead *)
      try! upd := UPDATE (mutable_fields a) "comment_id" (TEXT comment_id) db in
      let db' := fst upd in
      try! rows := SELECT_WHERE ["id"] "comment_id" (TEXT comment_id) db' in
      match fetchone rows with
      | Some result => Returned (col_id result, db')
      | None => Returned (id, db')
      end
  | Raised e => Raised e
  end.

(** [CommentDatabase.update_comment_status] *)
Definition update_comment_status (comment_id status : string) (db : table)
    : db_result (bool * table) :=
  try! upd := UPDATE [("status", TEXT status)] "id" (TEXT comment_id) db in
  Returned ((0 <? snd upd)%nat, fst upd).

(** [CommentDatabase.update_comment_approval] *)
Definition update_comment_approval (comment_id : string) (approved : bool)
    (final_response : option string) (db : table) : db_result (bool * table) :=
  let status := if approved then "approved" else "rejected" in
  try! upd :=
    (if approved then
       try! response_to_use :=
         (if negb (Text.truthy_opt final_response) then
            try! rows := SELECT_WHERE ["ai_response"] "id" (TEXT comment_id) db in
            match fetchone rows with
            | Some r =>
                if cell_truthy (col_ai_response r)
                then Returned (col_ai_response r)
                else Returned (opt_text final_response)
            | None => Returned (opt_text final_response)
            end
          else Returned (opt_text final_response)) in
       if cell_truthy response_to_use then
         UPDATE [("status", TEXT status); ("human_approved", INTEGER 1);
                 ("final_response", response_to_use)]
                "id" (TEXT comment_id) db
       else
         UPDATE [("status", TEXT status); ("human_approved", INTEGER 1)]
                "id" (TEXT comment_id) db
     else
       UPDATE [("status", TEXT status); ("human_approved", INTEGER 0)]
              "id" (TEXT comment_id) db) in
  Returned ((0 <? snd upd)%nat, fst upd).

(** [CommentDatabase.mark_email_sent] *)
Definition mark_email_sent (comment_id email_recipient : string) (db : table)
    : db_result (bool * table) :=
  try! upd := UPDATE [("email_sent", INTEGER 1); ("email_recipient", TEXT email_recipient)]
                "id" (TEXT comment_id) db in
  Returned ((0 <? snd upd)%nat, fst upd).

(** [CommentDatabase.get_comment] *)
Definition get_comment (comment_id : string) (db : table) : db_result (option row) :=
  try! rows := SELECT_WHERE schema "id" (TEXT comment_id) db in
  Returned (fetchone rows).

Definition found (q : db_result (list row)) : db_result bool :=
  try! rows := q in
  Returned (match fetchone rows with Some _ => true | None => false end).

(** [CommentDatabase.comment_exists].  The closing SELECT of the five most
    recent ids only feeds a log line and is left out. *)
Definition comment_exists (reddit_comment_id : string) (db : table) : db_result bool :=
  if negb (Text.truthy reddit_comment_id) then Returned false
  else
    let prefixed_id :=
      if Text.startswith "t1_" reddit_comment_id then reddit_comment_id
      else "t1_" ++ reddit_comment_id in
    let stripped_id :=
      if Text.startswith "t1_" reddit_comment_id then Text.drop 3 reddit_comment_id
      else reddit_comment_id in
    try! exact := found (SELECT_WHERE ["id"; "comment_id"] "comment_id"
                      (TEXT reddit_comment_id) db) in
    if exact then Returned true
    else
      try! with_prefix :=
        (if negb (String.eqb reddit_comment_id prefixed_id) then
           found (SELECT_WHERE ["id"; "comment_id"] "comment_id" (TEXT prefixed_id) db)
         else Returned false) in
      if with_prefix then Returned true
      else
        try! without_prefix :=
          (if negb (String.eqb reddit_comment_id stripped_id) then
             found (SELECT_WHERE ["id"; "comment_id"] "comment_id" (TEXT stripped_id) db)
           else Returned false) in
        if without_prefix then Returned true
        else
          found (SELECT_LIKE ["id"; "comment_id"] "comment_id"
                   ("%" ++ stripped_id ++ "%") db).

(** The dedup gate of [RedditMonitor.check_for_new_comments] followed by
    the store call of [RedditMonitor.process_comment]: an item is stored
    only when [comment_exists] denies it. *)
Definition ingest (a : add_args) (db : table) : db_result table :=
  try! exists_in_db := comment_exists (cd_id (a_comment a)) db in
  if exists_in_db then Returned db
  else
    try! r := add_comment a db in
    Returned (snd r).

Fixpoint ingest_all (items : list add_args) (db : table) : db_result table :=
  match items with
  | [] => Returned db
  | a :: rest =>
      try! db' := ingest a db in
      ingest_all rest db'
  end.

(** The two accepted spellings of one natural id: bare, or carrying the
    [t1_] type prefix. *)
Definition variant (a b : string) : Prop :=
  a = b \/ a = "t1_" ++ b \/ b = "t1_" ++ a.

Definition variantb (a b : string) : bool :=
  String.eqb a b || String.eqb a ("t1_" ++ b) || String.eqb b ("t1_" ++ a).

(** Number of records whose natural id is a spelling of [natural_id]. *)
Definition records_for (natural_id : string) (db : table) : nat :=
  List.length (List.filter
    (fun r => match col_comment_id r with
              | TEXT s => variantb s natural_id
              | _ => false
              end) db).

(** Some row carries the natural id [s]. *)
Definition stored (s : string) (db : table) : bool :=
  existsb (fun r => sql_eq (col_comment_id r) (TEXT s)) db.

(** Some row carries the internal id [comment_id]. *)
Definition has_id (comment_id : string) (db : table) : bool :=
  existsb (fun r => sql_eq (col_id r) (TEXT comment_id)) db.

(** The WHERE clause of [add_comment]'s UPDATE and SELECT. *)
Definition same_natural_id (a : add_args) (r : row) : bool :=
  sql_eq (col_comment_id r) (TEXT (cd_id (a_comment a))).

(** A row after [add_comment]'s UPDATE: every column but [id] and
    [comment_id] is overwritten. *)
Definition refreshed (a : add_args) (r : row) : row :=
  mk_row (col_id r) (col_comment_id r)
         (TEXT (cd_subreddit (a_comment a)))
         (TEXT (cd_author (a_comment a)))
         (TEXT (cd_body (a_comment a)))
         (REAL (cd_created_utc (a_comment a)))
         (TEXT (cd_permalink (a_comment a)))
         (TEXT (a_key_term a))
         (TEXT (a_sentiment a))
         (REAL (a_confidence a))
         (opt_text (a_ai_response a))
         (TEXT (a_status a))
         (INTEGER (if a_email_sent a then 1 else 0))
         (opt_text (a_email_recipient a))
         (REAL (a_time_update a)).

(** The table constraints: no two rows share a non-NULL [comment_id]
    (UNIQUE) or a non-NULL [id] (PRIMARY KEY). *)
Fixpoint constraints_hold (db : table) : Prop :=
  match db with
  | [] => True
  | r :: rest =>
      (forall r', In r' rest ->
         sql_eq (col_id r) (col_id r') = false
         /\ sql_eq (col_comment_id r) (col_comment_id r') = false)
      /\ constraints_hold rest
  end.

(** [CommentDatabase.update_ai_response] *)
Definition update_ai_response (comment_id ai_response : string) (db : table)
    : db_result (bool * table) :=
  try! upd := UPDATE [("ai_response", TEXT ai_response)] "id" (TEXT comment_id) db in
  Returned ((0 <? snd upd)%nat, fst upd).

(** The spelling [get_comment_by_reddit_id] tries when the one it was given
    is not found: without the [t1_] prefix if it has one, with it if not. *)
Definition other_spelling (reddit_comment_id : string) : string :=
  if Text.startswith "t1_" reddit_comment_id then Text.drop 3 reddit_comment_id
  else "t1_" ++ reddit_comment_id.

(** [CommentDatabase.get_comment_by_reddit_id] *)
Definition get_comment_by_reddit_id (reddit_comment_id : string) (db : table)
    : db_result (option row) :=
  if Text.startswith "t1_" reddit_comment_id then
    (* Try with the prefix *)
    try! rows := SELECT_WHERE schema "comment_id" (TEXT reddit_comment_id) db in
    match fetchone rows with
    | Some row => Returned (Some row)
    | None =>
        (* If not found, try without the prefix *)
        let stripped_id := Text.drop 3 reddit_comment_id in
        try! rows := SELECT_WHERE schema "comment_id" (TEXT stripped_id) db in
        Returned (fetchone rows)
    end
  else
    (* Try without the prefix *)
    try! rows := SELECT_WHERE schema "comment_id" (TEXT reddit_comment_id) db in
    match fetchone rows with
    | Some row => Returned (Some row)
    | None =>
        (* If not found, try with the prefix *)
        let prefixed_id := "t1_" ++ reddit_comment_id in
        try! rows := SELECT_WHERE schema "comment_id" (TEXT prefixed_id) db in
        Returned (fetchone rows)
    end.

(** The order of two values under ORDER BY: NULL first, then numbers by
    value, then text bytewise. *)
Definition sql_compare (a b : sqlval) : comparison :=
  match a, b with
  | NULL, NULL => Eq
  | NULL, _ => Lt
  | _, NULL => Gt
  | INTEGER x, INTEGER y => Z.compare x y
  | INTEGER x, REAL y => Qcompare (inject_Z x) y
  | REAL x, INTEGER y => Qcompare x (inject_Z y)
  | REAL x, REAL y => Qcompare x y
  | TEXT x, TEXT y => String.compare x y
  | TEXT _, _ => Gt
  | _, TEXT _ => Lt
  end.

(** The truth of [a > b] in a WHERE clause; a comparison with NULL is not
    true. *)
Definition sql_gt (a b : sqlval) : bool :=
  match a, b with
  | NULL, _ | _, NULL => false
  | _, _ => match sql_compare a b with Gt => true | _ => false end
  end.

(** [ORDER BY timestamp DESC].  Rows with equal timestamps, whose order
    SQLite leaves open, are kept in rowid order. *)
Fixpoint insert_by_timestamp (r : row) (sorted : list row) : list row :=
  match sorted with
  | [] => [r]
  | x :: rest =>
      match sql_compare (col_timestamp r) (col_timestamp x) with
      | Lt => x :: insert_by_timestamp r rest
      | _ => r :: x :: rest
      end
  end.

Definition ORDER_BY_timestamp_DESC (rows : list row) : list row :=
  fold_right insert_by_timestamp [] rows.

(** An [int] that SQLite can hold: 64 bits, signed.  Binding another one
    to a [?] makes [execute] raise [OverflowError]. *)
Definition sqlite_integer (n : Z) : bool :=
  (- 2 ^ 63 <=? n)%Z && (n <=? 2 ^ 63 - 1)%Z.

(** [LIMIT ?] with an [int] bound to it: a negative bound is no bound. *)
Definition LIMIT (n : Z) (rows : list row) : db_result (list row) :=
  if sqlite_integer n
  then Returned (if (n <? 0)%Z then rows else firstn (Z.to_nat n) rows)
  else Raised OverflowError.

(** [CommentDatabase.get_all_comments] *)
Definition get_all_comments (limit : Z) (db : table) : db_result (list row) :=
  LIMIT limit (ORDER_BY_timestamp_DESC db).

(** [CommentDatabase.get_comments_by_sentiment] *)
Definition get_comments_by_sentiment (sentiment : string) (limit : Z) (db : table)
    : db_result (list row) :=
  try! rows := SELECT_WHERE schema "sentiment" (TEXT sentiment) db in
  LIMIT limit (ORDER_BY_timestamp_DESC rows).

(** [CommentDatabase.get_comments_by_status] *)
Definition get_comments_by_status (status : string) (limit : Z) (db : table)
    : db_result (list row) :=
  try! rows := SELECT_WHERE schema "status" (TEXT status) db in
  LIMIT limit (ORDER_BY_timestamp_DESC rows).

(** [CommentDatabase.get_comments_by_key_term] *)
Definition get_comments_by_key_term (key_term : string) (limit : Z) (db : table)
    : db_result (list row) :=
  try! rows := SELECT_WHERE schema "key_term" (TEXT key_term) db in
  LIMIT limit (ORDER_BY_timestamp_DESC rows).

(** [CommentDatabase.get_recent_comments]; [now] is [time.time()].  In
    [time.time() - (hours * 3600)] the product is an [int], converted to a
    float for the difference: Python raises [OverflowError] when it is too
    large for one. *)
Definition get_recent_comments (now : Q) (hours limit : Z) (db : table)
    : db_result (list row) :=
  if Floats.float_overflows (inject_Z (hours * 3600)) then Raised OverflowError
  else
    let cutoff_time := (now - inject_Z (hours * 3600))%Q in
    LIMIT limit (ORDER_BY_timestamp_DESC
      (List.filter (fun r => sql_gt (col_timestamp r) (REAL cutoff_time)) db)).

(** [a] does not come after [b] under [ORDER BY timestamp DESC]. *)
Definition not_older (a b : row) : Prop :=
  sql_compare (col_timestamp a) (col_timestamp b) <> Lt.

(** [rows] answers a listing query whose WHERE clause selects the rows
    [hit] and whose bound is [limit]: the selected rows, arranged newest
    first, cut after [limit] of them (not cut when [limit] is negative). *)
Definition lists (hit : row -> bool) (limit : Z) (db : table) (rows : list row)
    : Prop :=
  exists arranged,
    Permutation arranged (List.filter hit db)
    /\ StronglySorted not_older arranged
    /\ rows = if (limit <? 0)%Z then arranged else firstn (Z.to_nat limit) arranged.

(** Two rows agree on every column but the listed ones. *)
Definition same_except (cols : list string) (r r' : row) : Prop :=
  forall c, ~ In c cols -> get_column c r' = get_column c r.

End CommentDb.

(** ** workflows/sentiment_workflow.py

    The nodes, the graph and the two entry points.  The directory of pickled
    states is a map from comment id to state; reading and writing it does
    not fail.  The graph runtime is a library outside the repository: the
    first run of the graph follows the edges of [create_sentiment_workflow],
    and the run on resume, which passes an extra [dataflow] argument, is
    taken as a given function of the reloaded state. *)

Module SentimentWorkflow.
Import CommentDb.

(** The dictionary kept in [CommentState.sentiment_result], with the keys of
    [SentimentResult]. *)
Record SentimentResult := mk_sentiment {
  sentiment : string;
  confidence : Q;
  explanation : option string
}.

Record CommentState := mk_state {
  comment_id : string;
  comment_text : string;
  subreddit : string;
  author : string;
  permalink : string;
  sentiment_result : option SentimentResult;
  response_draft : option string;
  human_approved : option bool;
  final_response : option string;
  created_at : Q;
  analyzed_at : option Q
}.

Definition set_analysis (r : SentimentResult) (now : Q) (s : CommentState) : CommentState :=
  mk_state (comment_id s) (comment_text s) (subreddit s) (author s) (permalink s)
           (Some r) (response_draft s) (human_approved s) (final_response s)
           (created_at s) (Some now).

Definition set_response_draft (d : option string) (s : CommentState) : CommentState :=
  mk_state (comment_id s) (comment_text s) (subreddit s) (author s) (permalink s)
           (sentiment_result s) d (human_approved s) (final_response s)
           (created_at s) (analyzed_at s).

Definition set_human_approved (a : option bool) (s : CommentState) : CommentState :=
  mk_state (comment_id s) (comment_text s) (subreddit s) (author s) (permalink s)
           (sentiment_result s) (response_draft s) a (final_response s)
           (created_at s) (analyzed_at s).

Definition set_final_response (f : option string) (s : CommentState) : CommentState :=
  mk_state (comment_id s) (comment_text s) (subreddit s) (author s) (permalink s)
           (sentiment_result s) (response_draft s) (human_approved s) f
           (created_at s) (analyzed_at s).

(** A call to a collaborator either yields a value or raises; an
    exception is kept as its text [str(e)]. *)
Inductive call (A : Type) :=
| Ok (a : A)
| Fails (error : string).
Arguments Ok {A} a.
Arguments Fails {A} error.

(** What the classifier chain hands back: a dictionary from which the log
    line of [analyze_sentiment] can be formatted, or anything else
    ([Malformed], with the text of the exception the formatting raises). *)
Inductive reply :=
| Parsed (sentiment : string) (confidence : Q) (explanation : option string)
| Malformed (error : string).

(** The classifier: building the client may raise, and so may the call. *)
Record classifier := mk_classifier {
  llm_init : option string;
  chain_invoke : string -> call reply
}.

(** The drafter ([ResponseGenerator]), a function of the state it is
    given. *)
Definition drafter := CommentState -> call (option string).

(** [s[:100]] followed by the three dots of the fallback messages. *)
Definition clipped (error : string) : string := Text.take 100 error ++ "...".

Definition degraded (why error : string) : SentimentResult :=
  mk_sentiment "neutral" (1 # 2) (Some (why ++ clipped error)).

(** [analyze_sentiment]; [now] is the value of [time.time()]. *)
Definition analyze_sentiment (cl : classifier) (now : Q) (state : CommentState)
    : CommentState :=
  match llm_init cl with
  | Some error =>
      set_analysis (degraded "Failed to analyze due to error: " error) now state
  | None =>
      let result :=
        match chain_invoke cl (comment_text state) with
        | Ok r => r
        | Fails api_error =>
            Parsed "neutral" (1 # 2)
              (Some ("Failed to analyze due to API error: " ++ clipped api_error))
        end in
      match result with
      | Parsed s c e => set_analysis (mk_sentiment s c e) now state
      | Malformed error =>
          set_analysis (degraded "Failed to analyze due to error: " error) now state
      end
  end.

(** What a node hands to the graph runtime: a state, or the [END] marker. *)
Inductive node_return :=
| Continue (s : CommentState)
| END.

Definition boilerplate : string :=
  "I noticed your concerns and would like to help. Please contact our customer service team for assistance.".

(** [generate_response] *)
Definition generate_response (dr : drafter) (state : CommentState) : node_return :=
  match sentiment_result state with
  | None => END
  | Some r =>
      if negb (String.eqb (sentiment r) "negative") then END
      else
        match dr state with
        | Ok response => Continue (set_response_draft response state)
        | Fails _ => Continue (set_response_draft (Some boilerplate) state)
        end
  end.

(** [human_approval] *)
Definition human_approval (state : CommentState) : node_return :=
  if negb (Text.truthy_opt (response_draft state)) then END
  else Continue (set_human_approved None state).

(** [finalize_response] *)
Definition finalize_response (state : CommentState) : CommentState :=
  match human_approved state with
  | Some true => set_final_response (response_draft state) state
  | _ => state
  end.

(** How a run of the compiled graph ends. *)
Inductive invocation :=
| Final (final_state : CommentState)
| InvokeRaises (error : string).

(** The error of the graph runtime when a node returns [END] instead of a
    state; [tests/test_workflow_end.py] and the handler in
    [process_comment] fix the two markers it carries. *)
Definition invalid_node_return : string :=
  "Expected dict, got __end__ (INVALID_GRAPH_NODE_RETURN_VALUE)".

(** [app.ainvoke(initial_state)] on the graph of [create_sentiment_workflow]:
    analyze, generate, approve, finalize. *)
Definition ainvoke (cl : classifier) (dr : drafter) (now : Q) (s : CommentState)
    : invocation :=
  match generate_response dr (analyze_sentiment cl now s) with
  | END => InvokeRaises invalid_node_return
  | Continue drafted =>
      match human_approval drafted with
      | END => InvokeRaises invalid_node_return
      | Continue awaiting => Final (finalize_response awaiting)
      end
  end.

(** The dictionary returned by [process_comment] and by
    [resume_workflow_after_approval]. *)
Record workflow_result := mk_result {
  res_comment_id : string;
  res_sentiment : option SentimentResult;
  res_response_draft : option string;
  res_human_approved : option bool;
  res_final_response : option string;
  res_analyzed_at : option Q;
  res_error : option string
}.

(** [WorkflowStateManager]: the directory of pickled states, one file per
    comment id. *)
Definition save_state (comment_id : string) (state : CommentState)
    (dir : gmap string CommentState) : gmap string CommentState :=
  <[comment_id := state]> dir.

Definition load_state (comment_id : string) (dir : gmap string CommentState)
    : option CommentState :=
  dir !! comment_id.

Definition delete_state (comment_id : string) (dir : gmap string CommentState)
    : bool * gmap string CommentState :=
  match dir !! comment_id with
  | None => (false, dir)
  | Some _ => (true, delete comment_id dir)
  end.

Definition initial_state (comment : comment_data) : CommentState :=
  mk_state (cd_id comment) (cd_body comment) (cd_subreddit comment)
           (cd_author comment) (cd_permalink comment)
           None None None None (cd_created_utc comment) None.

(** [process_comment]; [now] is read by the analysis, [later] by the
    handlers.  The source reads the final state as an object or as a
    dictionary; both readings take the same fields.  What goes on file is
    [initial_state], the state built from the comment. *)
Definition process_comment (cl : classifier) (dr : drafter) (now later : Q)
    (comment : comment_data) (dir : gmap string CommentState)
    : workflow_result * gmap string CommentState :=
  let initial_state := initial_state comment in
  match ainvoke cl dr now initial_state with
  | Final final_state =>
      let response_draft := response_draft final_state in
      let human_approved := human_approved final_state in
      (mk_result (comment_id final_state) (sentiment_result final_state)
                  response_draft human_approved (final_response final_state)
                  (analyzed_at final_state) None,
       match human_approved with
       | None =>
           if Text.truthy_opt response_draft
           then save_state (cd_id comment) initial_state dir
           else dir
       | Some _ => dir
       end)
  | InvokeRaises e =>
      if Text.contains "INVALID_GRAPH_NODE_RETURN_VALUE" e
         && Text.contains "Expected dict, got __end__" e
      then
        (mk_result (cd_id comment)
           (Some (mk_sentiment "non-negative" 0
                    (Some "Comment was determined to be non-negative")))
           None None None (Some later) None,
         dir)
      else
        (mk_result (cd_id comment)
           (Some (mk_sentiment "unknown" 0 (Some ("Error: " ++ e))))
           (Some boilerplate) None None (Some later) (Some e),
         dir)
  end.

(** The run the code asks for on resume,
    [app.ainvoke(state, dataflow="finalize")].  The runtime's [ainvoke]
    hands the keywords it does not know to [astream], which takes none
    called [dataflow]: the call raises a [TypeError] before any node runs,
    whatever the state. *)
Definition unexpected_keyword : string :=
  "Pregel.astream() got an unexpected keyword argument 'dataflow'".

Definition ainvoke_dataflow (state : CommentState) : invocation :=
  InvokeRaises unexpected_keyword.

(** The approval the specification measures the resume path against: the
    graph going on in memory from the state that waits for the decision,
    that is, [finalize_response] on the state the first run reached, with
    the decision filled in. *)
Definition uninterrupted_approval (cl : classifier) (dr : drafter) (now : Q)
    (comment : comment_data) (approved : bool) : option CommentState :=
  match generate_response dr (analyze_sentiment cl now (initial_state comment)) with
  | END => None
  | Continue drafted =>
      match human_approval drafted with
      | END => None
      | Continue awaiting =>
          Some (finalize_response (set_human_approved (Some approved) awaiting))
      end
  end.

(** [resume_workflow_after_approval].  [resume_invoke] is the run of the
    graph runtime on the reloaded state; the code's is [ainvoke_dataflow].
    The state is deleted at the end of the [try] block only; the handler of
    the block returns the reloaded state's fields and leaves the file. *)
Definition resume_workflow_after_approval (resume_invoke : CommentState -> invocation)
    (later : Q) (comment_id : string) (approved : bool)
    (dir : gmap string CommentState)
    : option workflow_result * gmap string CommentState :=
  match load_state comment_id dir with
  | None => (None, dir)
  | Some state =>
      let state := set_human_approved (Some approved) state in
      match resume_invoke state with
      | Final final_state =>
          (Some (mk_result comment_id (sentiment_result final_state)
                   (response_draft final_state) (human_approved final_state)
                   (final_response final_state) (analyzed_at final_state) None),
           snd (delete_state comment_id dir))
      | InvokeRaises e =>
          (Some (mk_result comment_id (sentiment_result state)
                   (response_draft state) (Some approved)
                   (if approved then response_draft state else None)
                   (Some later) (Some e)),
           dir)
      end
  end.

End SentimentWorkflow.

(** ** monitoring.py

    [RedditMonitor] on top of the store and the workflow.  The calls it
    makes to the mailer and to the poster are recorded in the world. *)

Module Monitoring.
Import CommentDb SentimentWorkflow.

(** One call of [EmailService.send_alert]. *)
Record alert := mk_alert {
  alert_recipient : string;
  alert_comment : comment_data;
  alert_sentiment : SentimentResult;
  alert_suggested_response : string
}.

(** One call of [DataCollector.post_response]. *)
Record post := mk_post {
  post_comment_id : sqlval;
  post_response_text : string
}.

(** What lasts: the comments table, the directory of workflow states, and
    the calls made so far to the mailer and to the poster. *)
Record world := mk_world {
  comments : table;
  workflow_states : gmap string CommentState;
  alerts : list alert;
  posts : list post
}.

(** What lives in the running process only: the results the monitor holds
    and the gateway's registry of last call times. *)
Record memory := mk_memory {
  processed_comments : list workflow_result;
  api_call_times : gmap string Q
}.

Record process := mk_process {
  durable : world;
  in_memory : memory
}.

(** Stopping the process and starting it again. *)
Definition restart (p : process) : process :=
  mk_process (durable p) (mk_memory [] ∅).

(** The collaborators of one [RedditMonitor] and the values it draws from
    its environment while it handles one comment. *)
Record services := mk_services {
  the_classifier : classifier;
  the_drafter : drafter;
  send_alert : alert -> call bool;
  resume_invoke : CommentState -> invocation;
  uuid4 : string;
  time_analysis : Q;
  time_handler : Q;
  time_insert : Q;
  time_update : Q
}.

Record RedditMonitor := mk_monitor {
  key_term : string;
  email : string
}.

(** What [RedditMonitor.process_comment] returns: the workflow's result, or
    the comment itself when there was none. *)
Inductive processed :=
| Analysed (result : workflow_result)
| Unanalysed.

(** [RedditMonitor.process_comment] *)
Definition process_comment (sv : services) (self : RedditMonitor)
    (comment : comment_data) (w : world) : processed * world :=
  let run := SentimentWorkflow.process_comment (the_classifier sv) (the_drafter sv)
               (time_analysis sv) (time_handler sv) comment (workflow_states w) in
  let result := fst run in
  let w := mk_world (comments w) (snd run) (alerts w) (posts w) in
  match res_sentiment result with
  | None => (Unanalysed, w)
  | Some analysis =>
      let response_draft := res_response_draft result in
      (* Store results in database *)
      let w :=
        match add_comment
                (mk_add (uuid4 sv) (time_insert sv) (time_update sv) comment
                   (key_term self) (sentiment analysis) (confidence analysis)
                   response_draft "pending_approval" false None)
                (comments w) with
        | Returned r => mk_world (snd r) (workflow_states w) (alerts w) (posts w)
        | Raised _ => w
        end in
      (* Send email for negative comments *)
      let w :=
        match response_draft with
        | Some draft =>
            if String.eqb (sentiment analysis) "negative" && Text.truthy draft then
              let request := mk_alert (email self) comment analysis draft in
              let w := mk_world (comments w) (workflow_states w)
                         (alerts w ++ [request])%list (posts w) in
              match send_alert sv request with
              | Ok true =>
                  match mark_email_sent (cd_id comment) (email self) (comments w) with
                  | Returned r =>
                      mk_world (snd r) (workflow_states w) (alerts w) (posts w)
                  | Raised _ => w
                  end
              | Ok false => w
              | Fails _ => w
              end
            else w
        | None => w
        end in
      (Analysed result, w)
  end.

(** [RedditMonitor.handle_response_approval] *)
Definition handle_response_approval (sv : services) (comment_id : string)
    (approved : bool) (w : world) : bool * world :=
  let resumed := resume_workflow_after_approval (resume_invoke sv) (time_handler sv)
                   comment_id approved (workflow_states w) in
  match fst resumed with
  | None => (false, w)
  | Some final_state =>
      let w := mk_world (comments w) (snd resumed) (alerts w) (posts w) in
      let final_response := res_final_response final_state in
      (* Update the comment in the database *)
      let w :=
        match update_comment_approval comment_id approved
                (if approved then final_response else None) (comments w) with
        | Returned r => mk_world (snd r) (workflow_states w) (alerts w) (posts w)
        | Raised _ => w
        end in
      if approved then
        match final_response with
        | Some text =>
            if Text.truthy text then
              (* Post the response to Reddit *)
              match get_comment comment_id (comments w) with
              | Returned (Some comment_data) =>
                  (true,
                   mk_world (comments w) (workflow_states w) (alerts w)
                     (posts w ++ [mk_post (col_comment_id comment_data) text])%list)
              | Returned None => (true, w)
              | Raised _ => (false, w)
              end
            else (true, w)
        | None => (true, w)
        end
      else (true, w)
  end.

(** The approval path run inside a process: it reads and writes what
    lasts, and leaves the memory alone. *)
Definition approve_in (sv : services) (comment_id : string) (approved : bool)
    (p : process) : option workflow_result * process :=
  let resumed := resume_workflow_after_approval (resume_invoke sv) (time_handler sv)
                   comment_id approved (workflow_states (durable p)) in
  (fst resumed,
   mk_process
     (mk_world (comments (durable p)) (snd resumed)
               (alerts (durable p)) (posts (durable p)))
     (in_memory p)).

(** The monitor handling one comment inside a process: the result is also
    kept in memory. *)
Definition process_in (sv : services) (self : RedditMonitor)
    (comment : comment_data) (p : process) : process :=
  let r := process_comment sv self comment (durable p) in
  mk_process (snd r)
    (mk_memory
       (match fst r with
        | Analysed result => (processed_comments (in_memory p) ++ [result])%list
        | Unanalysed => processed_comments (in_memory p)
        end)
       (api_call_times (in_memory p))).

(** The ways the analysis stage can meet an exception with text [error]:
    building the client raises, the call raises, or the reply cannot be
    formatted into the log line. *)
Definition classifier_fails (cl : classifier) (state : CommentState)
    (error : string) : Prop :=
  llm_init cl = Some error
  \/ (llm_init cl = None
      /\ (chain_invoke cl (comment_text state) = Fails error
          \/ chain_invoke cl (comment_text state) = Ok (Malformed error))).

(** The sentiment the analysis stage assigns to a comment. *)
Definition classified (sv : services) (comment : comment_data) : option string :=
  sentiment <$> sentiment_result
    (analyze_sentiment (the_classifier sv) (time_analysis sv) (initial_state comment)).

(** The loop of [RedditMonitor.check_for_new_comments] over the collected
    comments.  Each comment comes with the collaborators and the
    environment values in force while it is handled.  An exception of the
    existence check leaves the [try] block: the handler returns the empty
    list, and what was written before stays written. *)
Fixpoint process_batch (self : RedditMonitor)
    (collected : list (services * comment_data))
    (processed_comments : list processed) (w : world) : list processed * world :=
  match collected with
  | [] => (processed_comments, w)
  | (sv, comment) :: rest =>
      match comment_exists (cd_id comment) (comments w) with
      | Returned false =>
          let r := process_comment sv self comment w in
          process_batch self rest (processed_comments ++ [fst r])%list (snd r)
      | Returned true => process_batch self rest processed_comments w
      | Raised _ => ([], w)
      end
  end.

(** [RedditMonitor.check_for_new_comments]; [connectivity] is the answer of
    [check_internet_connectivity], [collected] what
    [collector.get_new_comments] returned. *)
Definition check_for_new_comments (self : RedditMonitor) (connectivity : bool)
    (collected : list (services * comment_data)) (w : world)
    : list processed * world :=
  if negb connectivity then ([], w)
  else
    match collected with
    | [] => ([], w)
    | _ => process_batch self collected [] w
    end.

End Monitoring.

(** ** The collector *)

Module Collector.
Import CommentDb SentimentWorkflow.

(** [get_subreddit_comments], the inner function of [get_new_comments];
    [fetch] is [reddit_client.get_recent_comments] with the look-back time
    and the bound of 50.  An exception of it is logged and yields no
    comments. *)
Definition get_subreddit_comments (fetch : string -> call (list comment_data))
    (subreddit_name : string) : list comment_data :=
  match fetch subreddit_name with
  | Ok comments => comments
  | Fails _ => []
  end.

(** [key_term.lower() in comment["body"].lower()].  [lower] is
    [str.lower], which folds every cased letter, not only [A] to [Z]; a
    text is held as the bytes of its UTF-8 encoding, in which a text occurs
    exactly where its characters do. *)
Definition mentions (lower : string -> string) (key_term : string)
    (comment : comment_data) : bool :=
  Text.contains (lower key_term) (lower (cd_body comment)).

(** [sort(key=lambda x: x["created_utc"], reverse=True)]: a stable sort,
    comments of equal age keep their order. *)
Fixpoint insert_newest (c : comment_data) (sorted : list comment_data)
    : list comment_data :=
  match sorted with
  | [] => [c]
  | x :: rest =>
      if Qlt_le_dec (cd_created_utc c) (cd_created_utc x)
      then x :: insert_newest c rest
      else c :: x :: rest
  end.

Definition sort_newest_first (l : list comment_data) : list comment_data :=
  fold_right insert_newest [] l.

(** [DataCollector.get_new_comments] *)
Definition get_new_comments (fetch : string -> call (list comment_data))
    (lower : string -> string) (key_term : string) (subreddits : list string)
    : list comment_data :=
  let all_matching_comments :=
    flat_map (fun subreddit =>
                List.filter (mentions lower key_term)
                  (get_subreddit_comments fetch subreddit))
             subreddits in
  sort_newest_first all_matching_comments.

(** [a] was created no earlier than [b]. *)
Definition no_earlier (a b : comment_data) : Prop :=
  (cd_created_utc b <= cd_created_utc a)%Q.

End Collector.

(** ** The session label of the interface *)

Module Gui.

Inductive unit_of_time := Day | Hour | Minute.

Definition seconds_in (u : unit_of_time) : Z :=
  match u with
  | Day => 86400
  | Hour => 3600
  | Minute => 60
  end.

Definition name_of (u : unit_of_time) : string :=
  match u with
  | Day => "day"
  | Hour => "hour"
  | Minute => "minute"
  end.

(** One entry of [parts]: [f"{n} {'day' if n == 1 else 'days'}"] and the
    like. *)
Definition render (p : Z * unit_of_time) : string :=
  pretty (fst p) ++ " "
  ++ (if (fst p =? 1)%Z then name_of (snd p) else name_of (snd p) ++ "s").

(** The entries [format_duration] collects for a duration of
    [total_seconds], 60 or more. *)
Definition duration_parts (total_seconds : Z) : list (Z * unit_of_time) :=
  let days := (total_seconds / 86400)%Z in
  let remainder := (total_seconds mod 86400)%Z in
  let hours := (remainder / 3600)%Z in
  let remainder := (remainder mod 3600)%Z in
  let minutes := (remainder / 60)%Z in
  ((if (0 <? days)%Z then [(days, Day)] else [])
   ++ (if (0 <? hours)%Z then [(hours, Hour)] else [])
   ++ (if (0 <? minutes)%Z && (days =? 0)%Z then [(minutes, Minute)] else [])
   ++ (if (0 <? days)%Z && (hours =? 0)%Z && (0 <? minutes)%Z
       then [(minutes, Minute)] else []))%list.

(** [format_duration]; [total_seconds] is [int(duration.total_seconds())]. *)
Definition format_duration (total_seconds : Z) : string :=
  if (total_seconds <? 60)%Z then "Just started"
  else
    match duration_parts total_seconds with
    | [] => "Just started"
    | parts => String.concat ", " (map render parts)
    end.

(** The time the entries stand for. *)
Definition seconds_shown (parts : list (Z * unit_of_time)) : Z :=
  fold_right (fun p acc => (fst p * seconds_in (snd p) + acc)%Z) 0%Z parts.

End Gui.

(** ** Sample data *)

Module Samples.
Import CommentDb RateLimiting SentimentWorkflow Monitoring.

Definition sample_comment (natural_id : string) : comment_data :=
  mk_comment natural_id "smallbusiness" "alice" "Your product broke" 1700000000 "/r/x/1".

Definition sample_add (uuid natural_id status : string) : add_args :=
  mk_add uuid 10 11 (sample_comment natural_id) "acme" "negative" (9 # 10)
         (Some "We are sorry to hear that.") status false None.

Definition rate_limited : exn := mk_exn (Some 429%Z) "Too Many Requests".

Definition quick : latency := mk_latency 0 0 0 (1 # 2).
Definition slow : latency := mk_latency 3 (1 # 10) 0 1.

(** Scenario A and Scenario B of the specification. *)
Definition scenario_a : comment_data :=
  mk_comment "abc123" "smallbusiness" "alice"
    "Your product broke and support ignored me" 1700000000 "/r/smallbusiness/c/abc123".

Definition scenario_b : comment_data :=
  mk_comment "xyz" "smallbusiness" "bob"
    "Great service, very happy" 1700000100 "/r/smallbusiness/c/xyz".

Definition keyword_classifier : classifier :=
  mk_classifier None
    (fun text =>
       if Text.contains "broke" text
       then Ok (Parsed "negative" (9 # 10) (Some "a complaint"))
       else Ok (Parsed "positive" (8 # 10) (Some "praise"))).

Definition failing_classifier : classifier :=
  mk_classifier None (fun _ => Fails "timeout").

Definition draft_text : string := "We are sorry to hear that; please write to support.".

Definition canned_drafter : drafter := fun _ => Ok (Some draft_text).

Definition sample_services : services :=
  mk_services keyword_classifier canned_drafter (fun _ => Ok true) ainvoke_dataflow
              "uuid-1" 100 101 102 103.

(** The same collaborators in a later run: another uuid, later clock
    readings. *)
Definition later_services : services :=
  mk_services keyword_classifier canned_drafter (fun _ => Ok true) ainvoke_dataflow
              "uuid-2" 200 201 202 203.

Definition acme : RedditMonitor := mk_monitor "acme" "ops@example.com".

Definition empty_world : world := mk_world [] ∅ [] [].

Definition fresh_process : process := mk_process empty_world (mk_memory [] ∅).

(** A drafter that raises, one that returns nothing, and the services
    around them. *)
Definition failing_drafter : drafter := fun _ => Fails "model unavailable".

Definition silent_drafter : drafter := fun _ => Ok None.

Definition unlucky_services : services :=
  mk_services keyword_classifier failing_drafter (fun _ => Fails "smtp down")
              ainvoke_dataflow "uuid-3" 300 301 302 303.

Definition silent_services : services :=
  mk_services keyword_classifier silent_drafter (fun _ => Ok true) ainvoke_dataflow
              "uuid-4" 400 401 402 403.

(** A world in which an approval does post: a state that carries a draft
    is on file under the id that a row has as its internal id. *)
Definition posting_world : world :=
  mk_world [new_row (sample_add "abc123" "t1_abc123" "pending_approval")]
           (<["abc123" := set_response_draft (Some draft_text)
                            (initial_state scenario_a)]> ∅)
           [] [].

(** [str.lower] on the letters [A] to [Z]. *)
Definition lower_sample : string -> string := Text.lower.

(** What the Reddit client hands over for two subreddits, the second of
    which cannot be read. *)
Definition sample_fetch (subreddit : string) : call (list comment_data) :=
  if String.eqb subreddit "smallbusiness" then
    Ok [ mk_comment "c1" "smallbusiness" "alice" "I like ACME a lot" 100 "/r/s/c1";
         mk_comment "c2" "smallbusiness" "bob" "nothing to see" 200 "/r/s/c2";
         mk_comment "c3" "smallbusiness" "carol" "acme broke again" 300 "/r/s/c3" ]
  else Fails "received 403 HTTP response".

End Samples.

(** ** Facts about the string operations *)

Module TextFacts.
Import Text.

Lemma startswith_app (p s : string) : startswith p (p ++ s) = true.
Proof.
  unfold startswith. induction p as [|c p IH]; simpl.
  - now destruct s.
  - destruct (ascii_dec c c); [exact IH | congruence].
Qed.

Lemma startswith_split (p s : string) :
  startswith p s = true -> s = p ++ drop (String.length p) s.
Proof.
  unfold startswith. revert s. induction p as [|c p IH]; intros s H; simpl in *.
  - reflexivity.
  - destruct s as [|d s]; simpl in H; [discriminate|].
    destruct (ascii_dec c d) as [->|]; [|discriminate].
    exact (f_equal (String d) (IH s H)).
Qed.

Lemma truthy_nonempty (s : string) : truthy s = true <-> s <> "".
Proof. destruct s; simpl; split; intros; congruence. Qed.

Lemma some_suffix_here (f : string -> bool) (t : string) :
  f t = true -> some_suffix f t = true.
Proof. intros H. destruct t; simpl; now rewrite H. Qed.

Lemma some_suffix_app (f : string -> bool) (a t : string) :
  f t = true -> some_suffix f (a ++ t) = true.
Proof.
  intros H. induction a as [|c a IH].
  - now apply some_suffix_here.
  - change (String c a ++ t) with (String c (a ++ t)).
    cbn [some_suffix]. rewrite IH. apply orb_true_r.
Qed.

Lemma like_percent_any (t : string) : like "%" t = true.
Proof.
  cbn [like]. rewrite Ascii.eqb_refl.
  induction t as [|c t IH]; [reflexivity|].
  cbn [some_suffix]. rewrite IH. apply orb_true_r.
Qed.

(** A pattern matches its own text when it is followed by [%]. *)
Lemma like_self_prefix (x b : string) : like (x ++ "%") (x ++ b) = true.
Proof.
  induction x as [|c x IH].
  - apply like_percent_any.
  - change (String c x ++ "%") with (String c (x ++ "%")).
    change (String c x ++ b) with (String c (x ++ b)).
    cbn [like]. destruct (Ascii.eqb c "%"%char).
    + cbn [some_suffix]. rewrite (some_suffix_here _ _ IH). apply orb_true_r.
    + rewrite IH, Ascii.eqb_refl. now rewrite orb_true_r.
Qed.

(** A leading [%] lets the match start anywhere. *)
Lemma like_skip (p a t : string) :
  like p t = true -> like ("%" ++ p) (a ++ t) = true.
Proof.
  intros H. change ("%" ++ p) with (String "%"%char p).
  cbn [like]. rewrite Ascii.eqb_refl. now apply some_suffix_app.
Qed.

Lemma like_infix (x a b : string) :
  like ("%" ++ x ++ "%") (a ++ x ++ b) = true.
Proof. apply like_skip, like_self_prefix. Qed.

End TextFacts.

(** ** Facts about the record store *)

Module CommentDbFacts.
Import CommentDb TextFacts.

Lemma sql_eq_text (v : sqlval) (s : string) :
  sql_eq v (TEXT s) = true <-> v = TEXT s.
Proof.
  destruct v; simpl; split; intros H; try discriminate.
  - apply String.eqb_eq in H. now subst.
  - injection H as ->. apply String.eqb_refl.
Qed.

Lemma stored_iff (s : string) (db : table) :
  stored s db = true <-> exists x, In x db /\ col_comment_id x = TEXT s.
Proof.
  unfold stored. rewrite existsb_exists.
  split; intros [x [Hin Hx]]; exists x; split; auto; now apply sql_eq_text.
Qed.

Lemma fetchone_filter (p : row -> bool) (db : table) :
  match fetchone (List.filter p db) with Some _ => true | None => false end
  = existsb p db.
Proof.
  induction db as [|r db IH]; [reflexivity|].
  simpl. destruct (p r); [reflexivity | exact IH].
Qed.

Lemma found_select (s : string) (db : table) :
  found (SELECT_WHERE ["id"; "comment_id"] "comment_id" (TEXT s) db)
  = Returned (stored s db).
Proof.
  unfold found, stored.
  change (SELECT_WHERE ["id"; "comment_id"] "comment_id" (TEXT s) db)
    with (Returned (List.filter (fun r => sql_eq (col_comment_id r) (TEXT s)) db)).
  cbn [bind]. now rewrite fetchone_filter.
Qed.

Lemma found_like (pattern : string) (db : table) :
  found (SELECT_LIKE ["id"; "comment_id"] "comment_id" pattern db)
  = Returned (existsb (fun r => sql_like (col_comment_id r) pattern) db).
Proof.
  unfold found.
  change (SELECT_LIKE ["id"; "comment_id"] "comment_id" pattern db)
    with (Returned (List.filter (fun r => sql_like (col_comment_id r) pattern) db)).
  cbn [bind]. now rewrite fetchone_filter.
Qed.

(** The dedup check as a boolean formula over the four probes. *)
Lemma comment_exists_probes (r : string) (db : table) :
  comment_exists r db =
  Returned
    (Text.truthy r
     && (stored r db
         || (if Text.startswith "t1_" r
             then negb (String.eqb r (Text.drop 3 r)) && stored (Text.drop 3 r) db
             else negb (String.eqb r ("t1_" ++ r)) && stored ("t1_" ++ r) db)
         || existsb
              (fun x => sql_like (col_comment_id x)
                 ("%" ++ (if Text.startswith "t1_" r then Text.drop 3 r else r) ++ "%"))
              db)).
Proof.
  unfold comment_exists.
  destruct (Text.truthy r); [|reflexivity].
  cbn [negb andb]. rewrite !found_select, found_like. cbn [bind].
  destruct (stored r db); [reflexivity|]. cbn [orb].
  destruct (Text.startswith "t1_" r).
  - rewrite String.eqb_refl. cbn [negb bind].
    destruct (String.eqb r (Text.drop 3 r)); cbn [negb andb bind orb].
    + reflexivity.
    + destruct (stored (Text.drop 3 r) db); reflexivity.
  - destruct (String.eqb r ("t1_" ++ r)); cbn [negb andb bind orb].
    + rewrite String.eqb_refl. reflexivity.
    + destruct (stored ("t1_" ++ r) db); [reflexivity|].
      cbn [bind]. rewrite String.eqb_refl. reflexivity.
Qed.

Lemma comment_exists_returns (r : string) (db : table) :
  exists b, comment_exists r db = Returned b.
Proof. rewrite comment_exists_probes. eauto. Qed.

Lemma append_empty_r (s : string) : s ++ "" = s.
Proof.
  induction s as [|c s IH]; [reflexivity|].
  change (String c s ++ "") with (String c (s ++ "")). now rewrite IH.
Qed.

(** Every non-empty spelling of a stored natural id is reported present. *)
Lemma comment_exists_variant (db : table) (s r : string) :
  stored s db = true -> variant r s -> r <> "" ->
  comment_exists r db = Returned true.
Proof.
  intros Hs Hv Hne. rewrite comment_exists_probes.
  apply truthy_nonempty in Hne. rewrite Hne. cbn [andb]. f_equal.
  destruct (stored r db) eqn:Hr; [reflexivity|]. cbn [orb].
  destruct Hv as [-> | [-> | ->]].
  - congruence.
  - rewrite startswith_app.
    change (Text.drop 3 ("t1_" ++ s)) with s. rewrite Hs.
    destruct (String.eqb ("t1_" ++ s) s) eqn:E; [|reflexivity].
    apply String.eqb_eq in E. rewrite E in Hr. congruence.
  - destruct (Text.startswith "t1_" r) eqn:P.
    + apply orb_true_iff. right.
      apply stored_iff in Hs. destruct Hs as [x [Hin Hx]].
      apply existsb_exists. exists x. split; [exact Hin|].
      rewrite Hx. cbn [sql_like].
      apply startswith_split in P. cbn [String.length] in P.
      rewrite P at 2.
      change ("t1_" ++ "t1_" ++ Text.drop 3 r) with ("t1_t1_" ++ Text.drop 3 r).
      rewrite <- (append_empty_r (Text.drop 3 r)) at 2.
      apply like_infix.
    + rewrite Hs.
      destruct (String.eqb r ("t1_" ++ r)) eqn:E; [|reflexivity].
      apply String.eqb_eq in E. rewrite <- E in Hs. congruence.
Qed.

(** *** [add_comment] *)

Lemma assign_mutable_fields (a : add_args) (r : row) :
  assign (mutable_fields a) r = refreshed a r.
Proof. reflexivity. Qed.

Lemma add_comment_inserts (a : add_args) (db : table) :
  existsb (conflicts (new_row a)) db = false ->
  add_comment a db = Returned (TEXT (a_uuid4 a), (db ++ [new_row a])%list).
Proof. intros H. unfold add_comment, INSERT. now rewrite H. Qed.

Lemma fetchone_filter_map (p : row -> bool) (f : row -> row) (db : table) :
  (forall r, p (f r) = p r) ->
  fetchone (List.filter p (map (fun r => if p r then f r else r) db))
  = f <$> List.find p db.
Proof.
  intros Hp. induction db as [|r db IH]; [reflexivity|].
  cbn [map List.filter List.find].
  destruct (p r) eqn:E.
  - now rewrite Hp, E.
  - rewrite E. exact IH.
Qed.

Lemma add_comment_updates (a : add_args) (db : table) :
  existsb (conflicts (new_row a)) db = true ->
  add_comment a db =
  Returned
    (match List.find (same_natural_id a) db with
     | Some r => col_id r
     | None => TEXT (a_uuid4 a)
     end,
     map (fun r => if same_natural_id a r then refreshed a r else r) db).
Proof.
  intros H. unfold add_comment, INSERT. rewrite H.
  change (UPDATE (mutable_fields a) "comment_id" (TEXT (cd_id (a_comment a))) db)
    with (Returned
            (map (fun r => if same_natural_id a r
                           then assign (mutable_fields a) r else r) db,
             List.length (List.filter (same_natural_id a) db))).
  cbn [bind fst].
  change (SELECT_WHERE ["id"] "comment_id" (TEXT (cd_id (a_comment a))) ?t)
    with (Returned (List.filter (same_natural_id a) t)).
  cbn [bind].
  rewrite (fetchone_filter_map (same_natural_id a) (refreshed a)) by reflexivity.
  destruct (List.find (same_natural_id a) db); reflexivity.
Qed.

Lemma add_comment_returns (a : add_args) (db : table) :
  exists i db', add_comment a db = Returned (i, db').
Proof.
  destruct (existsb (conflicts (new_row a)) db) eqn:E.
  - rewrite add_comment_updates by exact E. eauto.
  - rewrite add_comment_inserts by exact E. eauto.
Qed.

Lemma stored_conflicts (a : add_args) (db : table) :
  stored (cd_id (a_comment a)) db = true ->
  existsb (conflicts (new_row a)) db = true.
Proof.
  unfold stored. rewrite !existsb_exists. intros [x [Hin Hx]].
  exists x. split; [exact Hin|]. unfold conflicts. cbn [new_row col_comment_id].
  rewrite Hx. apply orb_true_r.
Qed.

(** Under the UNIQUE constraint the row found for a natural id is the
    only row that carries it. *)
Lemma find_unique (a : add_args) (db : table) (x : row) :
  constraints_hold db -> In x db -> same_natural_id a x = true ->
  List.find (same_natural_id a) db = Some x.
Proof.
  induction db as [|r db IH]; intros Hc Hin Hx; [contradiction|].
  cbn [List.find]. destruct Hc as [Hr Hc]. destruct Hin as [-> | Hin].
  - now rewrite Hx.
  - destruct (same_natural_id a r) eqn:E; [|now apply IH].
    exfalso. destruct (Hr x Hin) as [_ Hne].
    unfold same_natural_id in *.
    apply sql_eq_text in E. apply sql_eq_text in Hx.
    rewrite E, Hx in Hne. cbn in Hne. now rewrite String.eqb_refl in Hne.
Qed.

Lemma constraints_app (db : table) (r : row) :
  constraints_hold db -> existsb (conflicts r) db = false ->
  constraints_hold (db ++ [r])%list.
Proof.
  induction db as [|x db IH]; intros Hc He.
  - cbn. split; [intros ? []|exact I].
  - cbn in He. apply orb_false_iff in He. destruct He as [Hx He].
    destruct Hc as [Hr Hc]. cbn. split; [|now apply IH].
    intros r' Hin. apply in_app_or in Hin. destruct Hin as [Hin | [<- | []]].
    + now apply Hr.
    + unfold conflicts in Hx. now apply orb_false_iff in Hx.
Qed.

Lemma constraints_map (f : row -> row) (db : table) :
  (forall r, col_id (f r) = col_id r /\ col_comment_id (f r) = col_comment_id r) ->
  constraints_hold db -> constraints_hold (map f db).
Proof.
  intros Hf. induction db as [|x db IH]; intros Hc; [exact I|].
  destruct Hc as [Hr Hc]. cbn. split; [|now apply IH].
  intros r' Hin. apply in_map_iff in Hin. destruct Hin as [y [<- Hy]].
  destruct (Hf x) as [-> ->]. destruct (Hf y) as [-> ->]. now apply Hr.
Qed.

(** [add_comment] keeps the table's constraints. *)
Lemma add_comment_constraints (a : add_args) (db db' : table) (i : sqlval) :
  constraints_hold db -> add_comment a db = Returned (i, db') ->
  constraints_hold db'.
Proof.
  intros Hc H. destruct (existsb (conflicts (new_row a)) db) eqn:E.
  - rewrite add_comment_updates in H by exact E. injection H as _ <-.
    apply constraints_map; [|exact Hc].
    intros r. destruct (same_natural_id a r); auto.
  - rewrite add_comment_inserts in H by exact E. injection H as _ <-.
    now apply constraints_app.
Qed.

(** *** Ingestion *)

Lemma variantb_spec (a b : string) : variantb a b = true <-> variant a b.
Proof.
  unfold variantb, variant. rewrite !orb_true_iff, !String.eqb_eq. tauto.
Qed.

Lemma variant_sym (a b : string) : variant a b -> variant b a.
Proof. unfold variant. intuition auto. Qed.

Lemma stored_app (s : string) (db : table) (r : row) :
  stored s (db ++ [r])%list = stored s db || sql_eq (col_comment_id r) (TEXT s).
Proof. unfold stored. rewrite existsb_app. cbn. now rewrite orb_false_r. Qed.

Lemma ingest_known (a : add_args) (db : table) :
  comment_exists (cd_id (a_comment a)) db = Returned true ->
  ingest a db = Returned db.
Proof. intros H. unfold ingest. now rewrite H. Qed.

Lemma ingest_all_known (items : list add_args) (db : table) :
  Forall (fun a => comment_exists (cd_id (a_comment a)) db = Returned true) items ->
  ingest_all items db = Returned db.
Proof.
  induction 1 as [|a items Ha _ IH]; [reflexivity|].
  cbn [ingest_all]. rewrite (ingest_known _ _ Ha). exact IH.
Qed.

(** A store the dedup check clears for [s] holds no spelling of [s]. *)
Lemma records_for_unknown (s : string) (db : table) :
  s <> "" -> comment_exists s db = Returned false -> records_for s db = 0%nat.
Proof.
  intros Hne Hfalse. unfold records_for.
  destruct (List.filter _ db) as [|x l] eqn:E; [reflexivity|]. exfalso.
  assert (Hin : In x (List.filter
    (fun r => match col_comment_id r with
              | TEXT s0 => variantb s0 s
              | _ => false
              end) db)) by (rewrite E; now left).
  apply filter_In in Hin. destruct Hin as [Hin Hx].
  destruct (col_comment_id x) as [|s'| |] eqn:Ec; try discriminate.
  apply variantb_spec, variant_sym in Hx.
  assert (Hs : stored s' db = true) by (apply stored_iff; eauto).
  rewrite (comment_exists_variant db s' s Hs Hx Hne) in Hfalse. discriminate.
Qed.

Lemma records_for_app (s : string) (db : table) (r : row) :
  records_for s (db ++ [r])%list
  = (records_for s db
     + match col_comment_id r with
       | TEXT s0 => if variantb s0 s then 1 else 0
       | _ => 0
       end)%nat.
Proof.
  unfold records_for. rewrite List.filter_app, List.length_app. f_equal.
  cbn. destruct (col_comment_id r); try reflexivity.
  now destruct (variantb s0 s).
Qed.

(** *** The targeted mutations *)

Lemma rowcount_positive (p : row -> bool) (db : table) :
  (0 <? List.length (List.filter p db))%nat = existsb p db.
Proof.
  induction db as [|r db IH]; [reflexivity|].
  cbn. destruct (p r); [reflexivity | exact IH].
Qed.

(** [update_comment_status] returns, and reports whether a row with that
    internal id exists. *)
Lemma update_comment_status_affected (comment_id status : string) (db : table) :
  exists db', update_comment_status comment_id status db
              = Returned (has_id comment_id db, db')
              /\ List.length db' = List.length db.
Proof.
  unfold update_comment_status, has_id.
  change (UPDATE [("status", TEXT status)] "id" (TEXT comment_id) db)
    with (Returned
            (map (fun r => if sql_eq (col_id r) (TEXT comment_id)
                           then assign [("status", TEXT status)] r else r) db,
             List.length (List.filter (fun r => sql_eq (col_id r) (TEXT comment_id)) db))).
  cbn [bind fst snd]. rewrite rowcount_positive.
  eexists. split; [reflexivity|]. apply length_map.
Qed.

(** [mark_email_sent] returns, and reports whether a row with that internal
    id exists. *)
Lemma mark_email_sent_affected (comment_id recipient : string) (db : table) :
  exists db', mark_email_sent comment_id recipient db
              = Returned (has_id comment_id db, db')
              /\ List.length db' = List.length db.
Proof.
  unfold mark_email_sent, has_id.
  change (UPDATE [("email_sent", INTEGER 1); ("email_recipient", TEXT recipient)]
                 "id" (TEXT comment_id) db)
    with (Returned
            (map (fun r => if sql_eq (col_id r) (TEXT comment_id)
                           then assign [("email_sent", INTEGER 1);
                                        ("email_recipient", TEXT recipient)] r
                           else r) db,
             List.length (List.filter (fun r => sql_eq (col_id r) (TEXT comment_id)) db))).
  cbn [bind fst snd]. rewrite rowcount_positive.
  eexists. split; [reflexivity|]. apply length_map.
Qed.

Lemma update_with_human_approved (sets : list (string * sqlval))
    (comment_id : string) (v : sqlval) (s : string) (db : table) :
  UPDATE (("status", TEXT s) :: ("human_approved", v) :: sets)
         "id" (TEXT comment_id) db
  = Raised (OperationalError "no such column: human_approved").
Proof. reflexivity. Qed.

(** Each UPDATE of [update_comment_approval] names [human_approved]. *)
Lemma update_comment_approval_no_such_column (comment_id : string) (approved : bool)
    (final_response : option string) (db : table) :
  update_comment_approval comment_id approved final_response db
  = Raised (OperationalError "no such column: human_approved").
Proof.
  unfold update_comment_approval. destruct approved.
  - change (SELECT_WHERE ["ai_response"] "id" (TEXT comment_id) db)
      with (Returned (List.filter (fun r => sql_eq (col_id r) (TEXT comment_id)) db)).
    destruct (negb (Text.truthy_opt final_response)); cbn [bind].
    + destruct (fetchone _) as [r|]; [destruct (cell_truthy (col_ai_response r))|];
        cbn [bind];
        match goal with
        | |- context [if ?c then _ else _] => destruct c
        end; now rewrite update_with_human_approved.
    + destruct (cell_truthy (opt_text final_response));
        now rewrite update_with_human_approved.
  - now rewrite update_with_human_approved.
Qed.

End CommentDbFacts.

Import CommentDb CommentDbFacts Samples.

(** C9 (defect).  [update_comment_approval] never returns a boolean: each of
    its three UPDATE statements names the column [human_approved], which the
    table created by [_init_db] does not have, so the call raises
    [OperationalError] whether or not a row with that id exists. *)
Theorem update_comment_approval_raises :
  forall (comment_id : string) (approved : bool) (final_response : option string)
         (db : table),
    update_comment_approval comment_id approved final_response db
    = Raised (OperationalError "no such column: human_approved").
Proof. exact update_comment_approval_no_such_column. Qed.

(** C10.  When the natural id of the comment already has a record,
    [add_comment] reports that record's internal id, whatever uuid it has
    just drawn, and every record keeps its internal id; the record itself is
    overwritten in place. *)
Theorem add_comment_existing_returns_id :
  forall (a : add_args) (db : table) (x : row),
    constraints_hold db ->
    In x db ->
    col_comment_id x = TEXT (cd_id (a_comment a)) ->
    exists db',
      add_comment a db = Returned (col_id x, db')
      /\ map col_id db' = map col_id db
      /\ map col_comment_id db' = map col_comment_id db
      /\ In (refreshed a x) db'.
Proof.
  intros a db x Hc Hin Hx.
  assert (Hm : same_natural_id a x = true) by (now apply sql_eq_text).
  assert (Hs : stored (cd_id (a_comment a)) db = true) by (apply stored_iff; eauto).
  rewrite (add_comment_updates a db (stored_conflicts a db Hs)).
  rewrite (find_unique a db x Hc Hin Hm).
  eexists. split; [reflexivity|]. repeat split.
  - rewrite map_map. apply map_ext. intros r. now destruct (same_natural_id a r).
  - rewrite map_map. apply map_ext. intros r. now destruct (same_natural_id a r).
  - apply in_map_iff. exists x. now rewrite Hm.
Qed.

Lemma add_comment_existing_returns_id_witness :
  exists db',
    add_comment (sample_add "uuid-2" "abc123" "pending_approval")
                [new_row (sample_add "uuid-1" "abc123" "new")]
    = Returned (TEXT "uuid-1", db')
    /\ map col_id db' = [TEXT "uuid-1"]
    /\ map col_comment_id db' = [TEXT "abc123"]
    /\ In (refreshed (sample_add "uuid-2" "abc123" "pending_approval")
                     (new_row (sample_add "uuid-1" "abc123" "new"))) db'.
Proof.
  apply (add_comment_existing_returns_id
           (sample_add "uuid-2" "abc123" "pending_approval")
           [new_row (sample_add "uuid-1" "abc123" "new")]
           (new_row (sample_add "uuid-1" "abc123" "new"))).
  - cbn. split; [intros ? []|exact I].
  - now left.
  - reflexivity.
Defined.

(** C1 (amended).  Ingestion is idempotent for non-empty natural ids.
    (a) From a store in which the dedup check does not report the item's id,
    ingesting the item and then any further presentations of it, each under
    a non-empty spelling of the same id (bare or with [t1_]), stores the one
    row of the first presentation and nothing else: exactly one record holds
    a spelling of the id.  (b) [add_comment] on a natural id that is already
    stored rewrites the matching row in place and adds none.  (c)
    [comment_exists] answers true for every non-empty spelling of a stored
    id. *)
Theorem ingestion_is_idempotent :
  forall (db : table) (first : add_args) (rest : list add_args)
         (held : table) (again : add_args) (s r : string),
    cd_id (a_comment first) <> "" ->
    (forall x, In x db -> sql_eq (col_id x) (TEXT (a_uuid4 first)) = false) ->
    comment_exists (cd_id (a_comment first)) db = Returned false ->
    Forall (fun a => cd_id (a_comment a) <> ""
                     /\ variant (cd_id (a_comment a)) (cd_id (a_comment first))) rest ->
    stored (cd_id (a_comment again)) held = true ->
    stored s held = true ->
    variant r s ->
    r <> "" ->
    (ingest_all (first :: rest) db = Returned (db ++ [new_row first])%list
     /\ records_for (cd_id (a_comment first)) (db ++ [new_row first])%list = 1%nat)
    /\ (exists i,
          add_comment again held
          = Returned (i, map (fun x => if same_natural_id again x
                                       then refreshed again x else x) held))
    /\ comment_exists r held = Returned true.
Proof.
  intros db first rest held again s r Hne Hfresh Hnew Hrest Hagain Hs Hv Hr.
  split; [|split].
  - assert (Hunstored : stored (cd_id (a_comment first)) db = false).
    { destruct (stored (cd_id (a_comment first)) db) eqn:E; [|reflexivity].
      rewrite (comment_exists_variant db _ _ E (or_introl eq_refl) Hne) in Hnew.
      discriminate. }
    assert (Hfree : existsb (conflicts (new_row first)) db = false).
    { apply not_true_is_false. intros H. apply existsb_exists in H.
      destruct H as [x [Hin Hx]]. unfold conflicts in Hx.
      cbn [new_row col_id col_comment_id] in Hx.
      rewrite (Hfresh x Hin) in Hx. cbn [orb] in Hx.
      assert (stored (cd_id (a_comment first)) db = true)
        by (apply existsb_exists; eauto).
      congruence. }
    split.
    + cbn [ingest_all]. unfold ingest at 1. rewrite Hnew. cbn [bind].
      rewrite (add_comment_inserts first db Hfree). cbn [bind snd].
      apply ingest_all_known.
      eapply List.Forall_impl; [|exact Hrest]. intros a [Ha Hva].
      apply (comment_exists_variant _ (cd_id (a_comment first))); auto.
      rewrite stored_app. cbn [new_row col_comment_id sql_eq].
      rewrite String.eqb_refl. apply orb_true_r.
    + rewrite records_for_app, (records_for_unknown _ _ Hne Hnew).
      cbn [new_row col_comment_id]. unfold variantb.
      now rewrite String.eqb_refl.
  - rewrite (add_comment_updates again held (stored_conflicts again held Hagain)).
    eauto.
  - now apply (comment_exists_variant held s r).
Qed.

Lemma ingestion_is_idempotent_witness :
  (ingest_all [sample_add "uuid-1" "abc123" "pending_approval";
               sample_add "uuid-2" "t1_abc123" "pending_approval";
               sample_add "uuid-3" "abc123" "pending_approval"] []
   = Returned [new_row (sample_add "uuid-1" "abc123" "pending_approval")]
   /\ records_for "abc123" [new_row (sample_add "uuid-1" "abc123" "pending_approval")]
      = 1%nat)
  /\ (exists i,
        add_comment (sample_add "uuid-9" "t1_abc123" "new")
                    [new_row (sample_add "uuid-4" "t1_abc123" "pending_approval")]
        = Returned (i, [refreshed (sample_add "uuid-9" "t1_abc123" "new")
                          (new_row (sample_add "uuid-4" "t1_abc123" "pending_approval"))]))
  /\ comment_exists "abc123" [new_row (sample_add "uuid-4" "t1_abc123" "pending_approval")]
     = Returned true.
Proof.
  apply (ingestion_is_idempotent []
           (sample_add "uuid-1" "abc123" "pending_approval")
           [sample_add "uuid-2" "t1_abc123" "pending_approval";
            sample_add "uuid-3" "abc123" "pending_approval"]
           [new_row (sample_add "uuid-4" "t1_abc123" "pending_approval")]
           (sample_add "uuid-9" "t1_abc123" "new")
           "t1_abc123" "abc123").
  - discriminate.
  - intros x [].
  - reflexivity.
  - constructor; [split; [discriminate | right; left; reflexivity]|].
    constructor; [split; [discriminate | left; reflexivity]|].
    constructor.
  - reflexivity.
  - reflexivity.
  - right. right. reflexivity.
  - discriminate.
Defined.

(** C1 as stated fails in two places.  A new item whose id occurs inside a
    stored id is taken for a duplicate by the LIKE probe, so presenting it
    twice leaves no record for it; and the guard on the empty id makes
    [comment_exists] deny an id that is stored. *)
Lemma ingestion_counterexample :
  (try! db := ingest_all [sample_add "uuid-1" "abc123x" "pending_approval";
                          sample_add "uuid-2" "abc123" "pending_approval";
                          sample_add "uuid-3" "abc123" "pending_approval"] [] in
   Returned (records_for "abc123" db, List.length db))
  = Returned (0%nat, 1%nat)
  /\ (try! r := add_comment (sample_add "uuid-1" "" "pending_approval") [] in
      try! b := comment_exists "" (snd r) in
      Returned (stored "" (snd r), b))
     = Returned (true, false).
Proof. split; reflexivity. Qed.

(** ** Facts about the call gateway *)

Module RateLimitingFacts.
Import RateLimiting.

Section WithRetry.
Context {A : Type}.
Variable func : nat -> outcome A.
Variable time_sleep : Q -> option exn.
Variables (max_retries : Z) (base_delay backoff_factor : Q).

(** The loop, one iteration unfolded. *)
Lemma retry_loop_unfold (retries : Z) (last_exception : option exn) (calls : nat) :
  retry_loop func time_sleep max_retries base_delay backoff_factor
    retries last_exception calls =
  if (retries <=? max_retries)%Z then
    match func calls with
    | Return a => (Returns a, [Called])
    | Raise e =>
        if (retries + 1 >? max_retries)%Z
        then (all_retries_failed (Some e), [Called; LoggedFailure])
        else
          let power := (backoff_factor ^ (retries + 1 - 1))%Q in
          if Floats.float_overflows power then (Escapes power_out_of_range, [Called])
          else
            let delay := (base_delay * power)%Q in
            match time_sleep delay with
            | Some error =>
                (Escapes error,
                 [Called; Warned (is_rate_limit e) delay (retries + 1)])
            | None =>
                let rest :=
                  retry_loop func time_sleep max_retries base_delay backoff_factor
                    (retries + 1)%Z (Some e) (S calls) in
                (fst rest,
                 Called :: Warned (is_rate_limit e) delay (retries + 1)
                        :: Slept delay :: snd rest)
            end
    end
  else (all_retries_failed last_exception, [LoggedFailure]).
Proof.
  funelim (retry_loop func time_sleep max_retries base_delay backoff_factor
             retries last_exception calls);
    repeat match goal with
           | E : (_ <=? _)%Z = _ |- _ => rewrite E
           | E : (_ >? _)%Z = _ |- _ => rewrite E
           | E : func _ = _ |- _ => rewrite E
           end;
    reflexivity.
Qed.

(** One retry whose pause goes through. *)
Lemma retry_loop_retries (retries : Z) (last_exception : option exn) (calls : nat)
    (e : exn) (n : Z) :
  (retries + 1 <= max_retries)%Z ->
  (0 <= retries)%Z ->
  (retries + 1 <= n)%Z ->
  pauses_go_through time_sleep base_delay backoff_factor n ->
  func calls = Raise e ->
  retry_loop func time_sleep max_retries base_delay backoff_factor
    retries last_exception calls
  = (fst (retry_loop func time_sleep max_retries base_delay backoff_factor
            (retries + 1)%Z (Some e) (S calls)),
     Called
       :: Warned (is_rate_limit e) (base_delay * backoff_factor ^ (retries + 1 - 1))%Q
            (retries + 1)
       :: Slept (base_delay * backoff_factor ^ (retries + 1 - 1))%Q
       :: snd (retry_loop func time_sleep max_retries base_delay backoff_factor
                 (retries + 1)%Z (Some e) (S calls))).
Proof.
  intros Hle H0 Hn Hquiet Hcall. rewrite retry_loop_unfold at 1. rewrite Hcall.
  replace (retries <=? max_retries)%Z with true by (symmetry; lia).
  replace (retries + 1 >? max_retries)%Z with false by (symmetry; lia).
  destruct (Hquiet (retries + 1)%Z ltac:(lia)) as [Hp Hs].
  cbv zeta. now rewrite Hp, Hs.
Qed.

(** A call that fails every time: [k] more retries are left. *)
Lemma retry_loop_always_failing (errors : nat -> exn) :
  (forall n, func n = Raise (errors n)) ->
  pauses_go_through time_sleep base_delay backoff_factor max_retries ->
  forall (k : nat) (retries : Z) (last_exception : option exn) (calls : nat),
    (0 <= retries)%Z ->
    max_retries = (retries + Z.of_nat k)%Z ->
    let run := retry_loop func time_sleep max_retries base_delay backoff_factor
                 retries last_exception calls in
    fst run = Raises (errors (calls + k)%nat)
    /\ attempts (snd run) = S k
    /\ actions (snd run)
       = backoff_timetable base_delay backoff_factor k (retries + 1)%Z.
Proof.
  intros Hfail Hquiet k. induction k as [|k IH];
    intros retries last calls H0 Hmax run; subst run.
  - rewrite retry_loop_unfold, Hfail.
    replace (retries <=? max_retries)%Z with true by (symmetry; lia).
    replace (retries + 1 >? max_retries)%Z with true by (symmetry; lia).
    rewrite Nat.add_0_r. repeat split.
  - rewrite (retry_loop_retries retries last calls (errors calls) max_retries);
      [|lia|exact H0|lia|exact Hquiet|apply Hfail].
    destruct (IH (retries + 1)%Z (Some (errors calls)) (S calls)) as [Hr [Ha Ht]];
      [lia|lia|].
    cbn [fst snd]. repeat split.
    + rewrite Hr. f_equal. f_equal. lia.
    + unfold attempts in *. cbn. now rewrite Ha.
    + unfold actions in *. cbn. now rewrite Ht.
Qed.
End WithRetry.

(** *** throttle *)

Lemma throttle_records (min_interval : Q) (key : option string) (name : string)
    (lat : latency) (w : gateway) :
  nonnegative lat ->
  let r := throttle min_interval key name lat w in
  last_api_call_times (snd r) !! throttle_key key name = Some (fst r)
  /\ (default 0 (last_api_call_times w !! throttle_key key name) + min_interval
      <= fst r)%Q
  /\ (clock w <= fst r)%Q.
Proof.
  intros (H1 & H2 & H3 & H4). unfold throttle.
  destruct (Qlt_le_dec _ _) as [Hlt | Hge]; cbn in *;
    (split; [apply lookup_insert_eq|]);
    set (last := default 0%Q (last_api_call_times w !! throttle_key key name)) in *;
    split; lra.
Qed.

Lemma throttled_calls_spaced (min_interval : Q) (key : option string) (name : string)
    (lats : list latency) :
  Forall nonnegative lats ->
  forall w : gateway,
    let starts := fst (throttled_calls min_interval key name lats w) in
    spaced min_interval starts
    /\ match starts with
       | [] => True
       | s :: _ =>
           (default 0 (last_api_call_times w !! throttle_key key name)
            + min_interval <= s)%Q
       end.
Proof.
  induction 1 as [|lat lats Hlat _ IH]; intros w; [now split|].
  cbn [throttled_calls fst snd].
  destruct (throttle_records min_interval key name lat w Hlat) as (Hreg & Hgap & _).
  destruct (IH (snd (throttle min_interval key name lat w))) as [Hsp Hhd].
  rewrite Hreg in Hhd. cbn [default] in Hhd.
  split; [|exact Hgap].
  cbn [spaced]. split; [|exact Hsp].
  destruct (fst (throttled_calls _ _ _ lats _)); [exact I | exact Hhd].
Qed.

End RateLimitingFacts.

Import RateLimiting RateLimitingFacts.

(** C5.  A wrapped call that raises on every invocation is invoked exactly
    [max_retries + 1] times; between attempts number [n] and [n + 1] the
    wrapper sleeps [base_delay * backoff_factor ^ (n - 1)]; the last error is
    re-raised.  Calls and sleeps follow the timetable whatever the errors
    are: the rate-limit test only chooses the wording of the log line.
    This supposes that every pause of the timetable goes through, the power
    within the range of floats and the delay one that [time.sleep] takes:
    an exception of the pause leaves the wrapper at once. *)
Theorem with_retry_always_failing :
  forall (A : Type) (func : nat -> outcome A) (time_sleep : Q -> option exn)
         (errors : nat -> exn) (max_retries : Z) (base_delay backoff_factor : Q),
    (0 <= max_retries)%Z ->
    (forall n, func n = Raise (errors n)) ->
    pauses_go_through time_sleep base_delay backoff_factor max_retries ->
    let run := with_retry func time_sleep max_retries base_delay backoff_factor in
    fst run = Raises (errors (Z.to_nat max_retries))
    /\ attempts (snd run) = S (Z.to_nat max_retries)
    /\ actions (snd run)
       = backoff_timetable base_delay backoff_factor (Z.to_nat max_retries) 1.
Proof.
  intros A func time_sleep errors max_retries base_delay backoff_factor
         Hmax Hfail Hquiet.
  apply (retry_loop_always_failing func time_sleep max_retries base_delay
           backoff_factor errors Hfail Hquiet (Z.to_nat max_retries) 0%Z None 0%nat);
    lia.
Qed.

Lemma with_retry_always_failing_witness :
  let run := with_retry (fun _ => @Raise nat rate_limited) sleep_checking_sign 3 2 2 in
  fst run = Raises rate_limited
  /\ attempts (snd run) = 4%nat
  /\ actions (snd run)
     = [Called; Slept 2; Called; Slept 4; Called; Slept 8; Called].
Proof.
  apply (with_retry_always_failing nat (fun _ => Raise rate_limited)
           sleep_checking_sign (fun _ => rate_limited) 3 2 2).
  - lia.
  - reflexivity.
  - intros retries Hr.
    assert (H : retries = 1%Z \/ retries = 2%Z \/ retries = 3%Z) by lia.
    destruct H as [-> | [-> | ->]]; split; reflexivity.
Defined.

(** With a negative [base_delay] the first pause does not go through:
    [time.sleep] raises after one invocation, and the wrapped function is
    not invoked again. *)
Example with_retry_negative_delay :
  with_retry (fun _ => @Raise nat rate_limited) sleep_checking_sign 3 (-1) 2
  = (Escapes sleep_length_must_be_non_negative, [Called; Warned true (-1) 1]).
Proof. reflexivity. Qed.

(** C6.  Calls made one after the other through [throttle] under one key
    start at least [min_interval] apart, provided time does not run
    backwards and [time.sleep] sleeps at least as long as asked; a call
    starts at the time the wrapper writes to the registry under that key
    just before it invokes the wrapped function, and that time is no
    earlier than [min_interval] after the time it found there. *)
Theorem throttle_spacing :
  forall (min_interval : Q) (key : option string) (name : string)
         (lats : list latency) (lat : latency) (w : gateway),
    Forall nonnegative lats ->
    nonnegative lat ->
    spaced min_interval (fst (throttled_calls min_interval key name lats w))
    /\ (let r := throttle min_interval key name lat w in
        last_api_call_times (snd r) !! throttle_key key name = Some (fst r)
        /\ (default 0 (last_api_call_times w !! throttle_key key name)
            + min_interval <= fst r)%Q).
Proof.
  intros min_interval key name lats lat w Hlats Hlat. split.
  - apply (throttled_calls_spaced min_interval key name lats Hlats w).
  - destruct (throttle_records min_interval key name lat w Hlat) as (H1 & H2 & _).
    now split.
Qed.

Lemma nonnegative_quick : nonnegative quick.
Proof. unfold nonnegative, quick; cbn; repeat split; unfold Qle; cbn; lia. Defined.

Lemma throttle_spacing_witness :
  spaced 2 (fst (throttled_calls 2 (Some "reddit_comments") "get_recent_comments"
                   [quick; quick; slow; quick] (mk_gateway 1000 ∅)))
  /\ (let r := throttle 2 (Some "reddit_comments") "get_recent_comments" quick
                 (mk_gateway 1000 ∅) in
      last_api_call_times (snd r) !! "reddit_comments" = Some (fst r)
      /\ (default 0 ((∅ : gmap string Q) !! "reddit_comments") + 2 <= fst r)%Q).
Proof.
  apply (throttle_spacing 2 (Some "reddit_comments") "get_recent_comments"
           [quick; quick; slow; quick] quick (mk_gateway 1000 ∅)).
  - repeat constructor; cbn; unfold Qle; cbn; lia.
  - exact nonnegative_quick.
Defined.

Example throttled_calls_example :
  map Qred (fst (throttled_calls 2 (Some "reddit_comments") "get_recent_comments"
                   [quick; quick; slow; quick] (mk_gateway 1000 ∅)))
  = [1000; 1002; 2011 # 2; 2015 # 2]%Q.
Proof. vm_compute. reflexivity. Qed.


(** ** Facts about the workflow and the monitor *)

Module WorkflowFacts.
Import SentimentWorkflow Monitoring.

Lemma analyze_sentiment_sets (cl : classifier) (now : Q) (state : CommentState) :
  exists r, analyze_sentiment cl now state = set_analysis r now state.
Proof.
  unfold analyze_sentiment. destruct (llm_init cl); [eauto|].
  destruct (chain_invoke cl (comment_text state)) as [[s c e | error] | error];
    eauto.
Qed.

(** A comment that is not classified negative makes [generate_response]
    return [END], which the runtime rejects. *)
Lemma ainvoke_not_negative (cl : classifier) (dr : drafter) (now : Q)
    (state : CommentState) :
  sentiment <$> sentiment_result (analyze_sentiment cl now state) <> Some "negative" ->
  ainvoke cl dr now state = InvokeRaises invalid_node_return.
Proof.
  intros H. unfold ainvoke, generate_response.
  destruct (sentiment_result (analyze_sentiment cl now state)) as [r|]; [|reflexivity].
  destruct (String.eqb (sentiment r) "negative") eqn:E; [|reflexivity].
  apply String.eqb_eq in E. cbn in H. congruence.
Qed.

Lemma process_comment_not_negative (cl : classifier) (dr : drafter) (now later : Q)
    (comment : comment_data) (dir : gmap string CommentState) :
  sentiment <$> sentiment_result (analyze_sentiment cl now (initial_state comment))
    <> Some "negative" ->
  SentimentWorkflow.process_comment cl dr now later comment dir
  = (mk_result (cd_id comment)
       (Some (mk_sentiment "non-negative" 0
                (Some "Comment was determined to be non-negative")))
       None None None (Some later) None,
     dir).
Proof.
  intros H. unfold SentimentWorkflow.process_comment.
  now rewrite (ainvoke_not_negative cl dr now _ H).
Qed.

(** A comment classified negative, for which the drafter returns a non-empty
    text, leaves its initial state on file under its natural id, and the
    draft in the result. *)
Lemma process_comment_persists (cl : classifier) (dr : drafter) (now later : Q)
    (comment : comment_data) (dir : gmap string CommentState) (draft : string) :
  sentiment <$> sentiment_result (analyze_sentiment cl now (initial_state comment))
    = Some "negative" ->
  dr (analyze_sentiment cl now (initial_state comment)) = Ok (Some draft) ->
  Text.truthy draft = true ->
  let r := SentimentWorkflow.process_comment cl dr now later comment dir in
  res_response_draft (fst r) = Some draft
  /\ res_human_approved (fst r) = None
  /\ snd r = save_state (cd_id comment) (initial_state comment) dir.
Proof.
  intros Hneg Hdraft Htruthy.
  unfold SentimentWorkflow.process_comment, ainvoke, generate_response.
  destruct (sentiment_result (analyze_sentiment cl now (initial_state comment)))
    as [analysis|]; [|discriminate].
  injection Hneg as Hneg. rewrite Hneg, Hdraft, String.eqb_refl. cbn [negb].
  unfold human_approval. cbn [response_draft set_response_draft Text.truthy_opt].
  rewrite Htruthy. cbn [negb]. unfold finalize_response.
  cbn [human_approved set_human_approved response_draft fst snd
       res_response_draft res_human_approved Text.truthy_opt].
  change (response_draft (set_response_draft (Some draft) _)) with (Some draft).
  cbn [Text.truthy_opt]. now rewrite Htruthy.
Qed.

(** After [add_comment] with an unused uuid the table holds a row for the
    comment, with the status and the draft that were passed. *)
Lemma add_comment_writes (a : add_args) (db : table) :
  (forall x, In x db -> sql_eq (col_id x) (TEXT (a_uuid4 a)) = false) ->
  exists i db' row,
    add_comment a db = Returned (i, db')
    /\ In row db'
    /\ col_comment_id row = TEXT (cd_id (a_comment a))
    /\ col_status row = TEXT (a_status a)
    /\ col_ai_response row = opt_text (a_ai_response a).
Proof.
  intros Hfresh. destruct (existsb (conflicts (new_row a)) db) eqn:E.
  - rewrite (add_comment_updates a db E).
    apply existsb_exists in E. destruct E as [x [Hin Hx]].
    unfold conflicts in Hx. cbn [new_row col_id col_comment_id] in Hx.
    rewrite (Hfresh x Hin) in Hx. cbn [orb] in Hx.
    do 2 eexists. exists (refreshed a x). split; [reflexivity|]. split.
    + apply in_map_iff. exists x. unfold same_natural_id. now rewrite Hx.
    + cbn. apply sql_eq_text in Hx. auto.
  - rewrite (add_comment_inserts a db E).
    do 2 eexists. exists (new_row a). split; [reflexivity|]. split.
    + apply in_or_app. right. now left.
    + cbn. auto.
Qed.

Lemma resume_not_found (run : CommentState -> invocation) (later : Q)
    (comment_id : string) (approved : bool) (dir : gmap string CommentState) :
  dir !! comment_id = None ->
  resume_workflow_after_approval run later comment_id approved dir = (None, dir).
Proof.
  intros Hdir. unfold resume_workflow_after_approval, load_state. now rewrite Hdir.
Qed.

(** The monitor changes the directory of states only through the workflow. *)
Lemma process_comment_states (sv : services) (self : RedditMonitor)
    (comment : comment_data) (w : world) :
  workflow_states (snd (process_comment sv self comment w))
  = snd (SentimentWorkflow.process_comment (the_classifier sv) (the_drafter sv)
           (time_analysis sv) (time_handler sv) comment (workflow_states w)).
Proof.
  unfold process_comment.
  destruct (res_sentiment _) as [analysis|]; [|reflexivity].
  destruct (add_comment _ _) as [[i db']|e]; cbn [snd workflow_states comments];
    (destruct (res_response_draft _) as [draft|]; [|reflexivity]);
    (destruct (_ && _); [|reflexivity]);
    (destruct (send_alert sv _) as [[|]|]; [|reflexivity|reflexivity]);
    cbn [comments workflow_states];
    destruct (mark_email_sent _ _ _); reflexivity.
Qed.

(** The approval handler leaves the comments table as it found it. *)
Lemma handle_response_approval_comments (sv : services) (comment_id : string)
    (approved : bool) (w : world) :
  comments (snd (handle_response_approval sv comment_id approved w)) = comments w.
Proof.
  unfold handle_response_approval.
  destruct (fst (resume_workflow_after_approval _ _ _ _ _)) as [final_state|];
    [|reflexivity].
  rewrite update_comment_approval_no_such_column. cbn [comments].
  destruct approved; [|reflexivity].
  destruct (res_final_response final_state) as [text|]; [|reflexivity].
  destruct (Text.truthy text); [|reflexivity].
  destruct (get_comment comment_id (comments w)) as [[row|]|]; reflexivity.
Qed.

End WorkflowFacts.

Import SentimentWorkflow Monitoring WorkflowFacts Samples.

(** C7 (amended).  Whatever exception the analysis stage meets, it returns a
    state whose result is [neutral] with confidence 0.5 (not 0) and an
    explanation made of a fixed prefix, the first 100 characters of the
    error text and three dots; the stage always returns a state carrying a
    result and the time of analysis. *)
Theorem analyze_sentiment_degrades :
  forall (cl : classifier) (now : Q) (state : CommentState) (error : string),
    classifier_fails cl state error ->
    exists why,
      sentiment_result (analyze_sentiment cl now state)
      = Some (mk_sentiment "neutral" (1 # 2)
                (Some (why ++ Text.take 100 error ++ "...")))
      /\ (why = "Failed to analyze due to API error: "
          \/ why = "Failed to analyze due to error: ")
      /\ analyzed_at (analyze_sentiment cl now state) = Some now.
Proof.
  intros cl now state error [Hinit | [Hinit [Hcall | Hcall]]];
    unfold analyze_sentiment; rewrite Hinit; try rewrite Hcall.
  - exists "Failed to analyze due to error: ". repeat split. now right.
  - exists "Failed to analyze due to API error: ". repeat split. now left.
  - exists "Failed to analyze due to error: ". repeat split. now right.
Qed.

Lemma analyze_sentiment_degrades_witness :
  exists why,
    sentiment_result (analyze_sentiment failing_classifier 5 (initial_state scenario_a))
    = Some (mk_sentiment "neutral" (1 # 2)
              (Some (why ++ Text.take 100 "timeout" ++ "...")))
    /\ (why = "Failed to analyze due to API error: "
        \/ why = "Failed to analyze due to error: ")
    /\ analyzed_at (analyze_sentiment failing_classifier 5 (initial_state scenario_a))
       = Some 5%Q.
Proof.
  apply (analyze_sentiment_degrades failing_classifier 5 (initial_state scenario_a)
           "timeout").
  right. split; [reflexivity|]. left. reflexivity.
Defined.

(** C7 as stated fails: with a classifier that raises "timeout" the degraded
    result has confidence 0.5 and a longer explanation, not
    {neutral, 0, "timeout"}. *)
Lemma analyze_sentiment_counterexample :
  sentiment_result (analyze_sentiment failing_classifier 5 (initial_state scenario_a))
  = Some (mk_sentiment "neutral" (1 # 2)
            (Some "Failed to analyze due to API error: timeout..."))
  /\ ~ (1 # 2 == 0)%Q
  /\ sentiment_result (analyze_sentiment failing_classifier 5 (initial_state scenario_a))
     <> Some (mk_sentiment "neutral" 0 (Some "timeout")).
Proof.
  split; [reflexivity|]. split; [discriminate|]. discriminate.
Qed.

(** C2 (amended).  For a comment that the analysis does not classify as
    negative, the monitor produces no draft, leaves the directory of
    workflow states alone and does not call the mailer; it still writes the
    comment's record, with a NULL draft and with the status
    [pending_approval] that every stored comment receives. *)
Theorem non_negative_comment_is_only_recorded :
  forall (sv : services) (self : RedditMonitor) (comment : comment_data) (w : world),
    classified sv comment <> Some "negative" ->
    (forall x, In x (comments w) -> sql_eq (col_id x) (TEXT (uuid4 sv)) = false) ->
    let r := process_comment sv self comment w in
    (exists result, fst r = Analysed result /\ res_response_draft result = None)
    /\ workflow_states (snd r) = workflow_states w
    /\ alerts (snd r) = alerts w
    /\ (exists row,
          In row (comments (snd r))
          /\ col_comment_id row = TEXT (cd_id comment)
          /\ col_status row = TEXT "pending_approval"
          /\ col_ai_response row = NULL).
Proof.
  intros sv self comment w Hclass Hfresh r. subst r.
  unfold process_comment.
  rewrite (process_comment_not_negative _ _ _ _ _ _ Hclass). cbn [fst snd res_sentiment].
  cbn [res_response_draft sentiment confidence].
  match goal with
  | |- context [add_comment ?a ?db] =>
      destruct (add_comment_writes a db Hfresh) as (i & db' & row & Hadd & Hrow)
  end.
  cbn [comments] in *. rewrite Hadd. cbn [fst snd workflow_states alerts comments].
  split; [eauto|]. split; [reflexivity|]. split; [reflexivity|].
  exists row. exact Hrow.
Qed.

Lemma non_negative_comment_is_only_recorded_witness :
  let r := process_comment sample_services acme scenario_b empty_world in
  (exists result, fst r = Analysed result /\ res_response_draft result = None)
  /\ workflow_states (snd r) = workflow_states empty_world
  /\ alerts (snd r) = alerts empty_world
  /\ (exists row,
        In row (comments (snd r))
        /\ col_comment_id row = TEXT (cd_id scenario_b)
        /\ col_status row = TEXT "pending_approval"
        /\ col_ai_response row = NULL).
Proof.
  apply (non_negative_comment_is_only_recorded sample_services acme scenario_b
           empty_world).
  - discriminate.
  - intros x [].
Defined.

(** C2 as stated fails on the status: the record written for the positive
    comment of Scenario B carries [pending_approval], the very status
    written for the negative comment of Scenario A that awaits a decision. *)
Lemma non_negative_status_counterexample :
  classified sample_services scenario_b = Some "positive"
  /\ map col_status
       (comments (snd (process_comment sample_services acme scenario_b empty_world)))
     = [TEXT "pending_approval"]
  /\ map col_status
       (comments (snd (process_comment sample_services acme scenario_a empty_world)))
     = [TEXT "pending_approval"].
Proof. repeat split. Qed.

(** C3 (defect).  The state is never removed.  The run the code asks for
    on resume raises whatever the state, so the [try] block of
    [resume_workflow_after_approval] never reaches [delete_state]: with a
    state on file, the call returns a result that carries the error and
    the decision, the directory is what it was, and a second resume for
    the same id, whatever its decision, finds the state again and returns
    a result again instead of [None]. *)
Theorem resume_keeps_state :
  forall (later later' : Q) (comment_id : string) (approved approved' : bool)
         (dir : gmap string CommentState) (state : CommentState),
    load_state comment_id dir = Some state ->
    let first :=
      resume_workflow_after_approval ainvoke_dataflow later comment_id approved dir in
    let second :=
      resume_workflow_after_approval ainvoke_dataflow later' comment_id approved'
        (snd first) in
    (exists result,
       fst first = Some result
       /\ is_Some (res_error result)
       /\ res_human_approved result = Some approved)
    /\ snd first = dir
    /\ load_state comment_id (snd first) = Some state
    /\ (exists again,
          fst second = Some again /\ res_human_approved again = Some approved')
    /\ snd second = dir.
Proof.
  intros later later' comment_id approved approved' dir state Hdir first second.
  subst first second.
  unfold resume_workflow_after_approval, ainvoke_dataflow. rewrite Hdir.
  cbn [fst snd]. rewrite Hdir. cbn [fst snd res_error res_human_approved].
  repeat split; eauto.
Qed.

Lemma resume_keeps_state_witness :
  let dir := workflow_states
               (snd (process_comment sample_services acme scenario_a empty_world)) in
  let first := resume_workflow_after_approval ainvoke_dataflow 201 "abc123" true dir in
  let second :=
    resume_workflow_after_approval ainvoke_dataflow 301 "abc123" false (snd first) in
  (exists result,
     fst first = Some result
     /\ is_Some (res_error result)
     /\ res_human_approved result = Some true)
  /\ snd first = dir
  /\ load_state "abc123" (snd first) = Some (initial_state scenario_a)
  /\ (exists again, fst second = Some again /\ res_human_approved again = Some false)
  /\ snd second = dir.
Proof.
  apply (resume_keeps_state 201 301 "abc123" true false
           (workflow_states
              (snd (process_comment sample_services acme scenario_a empty_world)))
           (initial_state scenario_a)).
  reflexivity.
Defined.

(** C8 (defect).  The resume path does not give the final response of an
    uninterrupted approval.  For a comment classified negative with a
    non-empty draft, the graph going on in memory under an approval ends
    with the draft as its final response.  What is put on file is the state
    built from the comment, which has no draft, and the run asked for on
    resume raises; so an approval resumed after a restart, from the file
    alone, returns no final response and no draft, with the error.  The
    same approval made in the process that handled the comment returns
    none either: the loss is not the restart's. *)
Theorem resume_after_restart_loses_the_draft :
  forall (sv sv' : services) (self : RedditMonitor) (comment : comment_data)
         (p : process) (draft : string),
    classified sv comment = Some "negative" ->
    the_drafter sv
      (analyze_sentiment (the_classifier sv) (time_analysis sv) (initial_state comment))
    = Ok (Some draft) ->
    Text.truthy draft = true ->
    (forall s, resume_invoke sv' s = ainvoke_dataflow s) ->
    let waiting := process_in sv self comment p in
    final_response
      <$> uninterrupted_approval (the_classifier sv) (the_drafter sv)
            (time_analysis sv) comment true
    = Some (Some draft)
    /\ load_state (cd_id comment) (workflow_states (durable waiting))
       = Some (initial_state comment)
    /\ (exists resumed,
          fst (approve_in sv' (cd_id comment) true (restart waiting)) = Some resumed
          /\ res_final_response resumed = None
          /\ res_response_draft resumed = None
          /\ is_Some (res_error resumed))
    /\ (exists resumed,
          fst (approve_in sv' (cd_id comment) true waiting) = Some resumed
          /\ res_final_response resumed = None).
Proof.
  intros sv sv' self comment p draft Hneg Hdraft Htruthy Hrun waiting.
  assert (Hfile : load_state (cd_id comment) (workflow_states (durable waiting))
                  = Some (initial_state comment)).
  { subst waiting. unfold process_in. cbn [durable]. rewrite process_comment_states.
    destruct (process_comment_persists _ _ _ (time_handler sv) comment
                (workflow_states (durable p)) draft Hneg Hdraft Htruthy)
      as (_ & _ & ->).
    apply lookup_insert_eq. }
  split; [|split; [exact Hfile|split]].
  - unfold uninterrupted_approval, generate_response. unfold classified in Hneg.
    destruct (sentiment_result
                (analyze_sentiment (the_classifier sv) (time_analysis sv)
                   (initial_state comment))) as [analysis|]; [|discriminate].
    injection Hneg as Hneg. rewrite Hneg, Hdraft, String.eqb_refl. cbn [negb].
    unfold human_approval. cbn [response_draft set_response_draft Text.truthy_opt].
    rewrite Htruthy. reflexivity.
  - unfold approve_in, resume_workflow_after_approval. cbn [restart durable].
    rewrite Hfile, Hrun. unfold ainvoke_dataflow. cbn. eauto 6.
  - unfold approve_in, resume_workflow_after_approval.
    rewrite Hfile, Hrun. unfold ainvoke_dataflow. cbn. eauto.
Qed.

Lemma resume_after_restart_loses_the_draft_witness :
  let waiting := process_in sample_services acme scenario_a fresh_process in
  final_response
    <$> uninterrupted_approval (the_classifier sample_services)
          (the_drafter sample_services) (time_analysis sample_services) scenario_a true
  = Some (Some draft_text)
  /\ load_state (cd_id scenario_a) (workflow_states (durable waiting))
     = Some (initial_state scenario_a)
  /\ (exists resumed,
        fst (approve_in later_services (cd_id scenario_a) true (restart waiting))
        = Some resumed
        /\ res_final_response resumed = None
        /\ res_response_draft resumed = None
        /\ is_Some (res_error resumed))
  /\ (exists resumed,
        fst (approve_in later_services (cd_id scenario_a) true waiting) = Some resumed
        /\ res_final_response resumed = None).
Proof.
  apply (resume_after_restart_loses_the_draft sample_services later_services acme
           scenario_a fresh_process draft_text).
  - reflexivity.
  - reflexivity.
  - reflexivity.
  - reflexivity.
Defined.

(** C4 (defect).  A decision never reaches the record: the approval handler
    calls [update_comment_approval], which raises on the table of [_init_db]
    (see C9), logs the error and goes on, so the comments table, and with
    it the record's status, is what it was before. *)
Theorem approval_leaves_record_unchanged :
  forall (sv : services) (comment_id : string) (approved : bool) (w : world),
    comments (snd (handle_response_approval sv comment_id approved w)) = comments w.
Proof. exact handle_response_approval_comments. Qed.

(** Scenario A up to the approval: the handler reports success, the state is
    still on file (see C3), and the record is still [pending_approval]. *)
Example scenario_a_stays_pending :
  let w := snd (process_comment sample_services acme scenario_a empty_world) in
  let r := handle_response_approval later_services "abc123" true w in
  fst r = true
  /\ load_state "abc123" (workflow_states (snd r)) = Some (initial_state scenario_a)
  /\ map col_status (comments (snd r)) = [TEXT "pending_approval"].
Proof. repeat split. Qed.

(** * Further properties *)

(** ** The call gateway *)

Module GatewayFacts.
Import RateLimiting RateLimitingFacts Utils.

Section WithRetry.
Context {A : Type}.
Variable func : nat -> outcome A.
Variable time_sleep : Q -> option exn.
Variables (max_retries : Z) (base_delay backoff_factor : Q).

(** The wrapped function fails [k] times from invocation [calls] on and then
    returns. *)
Lemma retry_loop_recovers (a : A) :
  forall (k : nat) (retries : Z) (last_exception : option exn) (calls : nat),
    (forall n, (n < k)%nat -> exists e, func (calls + n)%nat = Raise e) ->
    func (calls + k)%nat = Return a ->
    (0 <= retries)%Z ->
    (retries + Z.of_nat k <= max_retries)%Z ->
    pauses_go_through time_sleep base_delay backoff_factor (retries + Z.of_nat k) ->
    let run := retry_loop func time_sleep max_retries base_delay backoff_factor
                 retries last_exception calls in
    fst run = Returns a
    /\ attempts (snd run) = S k
    /\ actions (snd run)
       = backoff_timetable base_delay backoff_factor k (retries + 1)%Z.
Proof.
  induction k as [|k IH]; intros retries last calls Hfail Hret H0 Hmax Hquiet run;
    subst run.
  - rewrite retry_loop_unfold.
    replace (retries <=? max_retries)%Z with true by (symmetry; lia).
    rewrite Nat.add_0_r in Hret. rewrite Hret. repeat split.
  - destruct (Hfail 0%nat ltac:(lia)) as [e0 He0]. rewrite Nat.add_0_r in He0.
    rewrite (retry_loop_retries func time_sleep max_retries base_delay backoff_factor
               retries last calls e0 (retries + Z.of_nat (S k)));
      [|lia|exact H0|lia|exact Hquiet|exact He0].
    destruct (IH (retries + 1)%Z (Some e0) (S calls)) as [Hr [Ha Ht]].
    + intros n Hn. replace (S calls + n)%nat with (calls + S n)%nat by lia.
      apply Hfail. lia.
    + replace (S calls + k)%nat with (calls + S k)%nat by lia. exact Hret.
    + lia.
    + lia.
    + replace (retries + 1 + Z.of_nat k)%Z with (retries + Z.of_nat (S k))%Z by lia.
      exact Hquiet.
    + cbn [fst snd]. repeat split.
      * exact Hr.
      * unfold attempts in *. cbn. now rewrite Ha.
      * unfold actions in *. cbn. now rewrite Ht.
Qed.

(** Whatever the wrapped function and [time.sleep] do, with [k] retries
    left the loop returns after at most [k + 1] invocations, or raises the
    error of invocation number [k + 1], or lets the exception of a pause
    escape, right after the failed invocation that called for it. *)
Lemma retry_loop_bounded :
  forall (k : nat) (retries : Z) (last_exception : option exn) (calls : nat),
    max_retries = (retries + Z.of_nat k)%Z ->
    let run := retry_loop func time_sleep max_retries base_delay backoff_factor
                 retries last_exception calls in
    (1 <= attempts (snd run) <= S k)%nat
    /\ match fst run with
       | Returns a => func (calls + attempts (snd run) - 1)%nat = Return a
       | Raises e => attempts (snd run) = S k /\ func (calls + k)%nat = Raise e
       | RaisesTypeError => False
       | Escapes e =>
           (attempts (snd run) <= k)%nat
           /\ (exists e0, func (calls + attempts (snd run) - 1)%nat = Raise e0)
           /\ let power :=
                (backoff_factor ^ (retries + Z.of_nat (attempts (snd run)) - 1))%Q in
              (Floats.float_overflows power = true /\ e = power_out_of_range)
              \/ (Floats.float_overflows power = false
                  /\ time_sleep (base_delay * power)%Q = Some e)
       end.
Proof.
  induction k as [|k IH]; intros retries last calls Hmax run; subst run;
    rewrite retry_loop_unfold;
    replace (retries <=? max_retries)%Z with true by (symmetry; lia);
    destruct (func calls) as [a|e] eqn:Hcall.
  - cbn. split; [lia|]. now replace (calls + 1 - 1)%nat with calls by lia.
  - replace (retries + 1 >? max_retries)%Z with true by (symmetry; lia).
    cbn. split; [lia|]. split; [reflexivity|]. now rewrite Nat.add_0_r.
  - cbn. split; [lia|]. now replace (calls + 1 - 1)%nat with calls by lia.
  - replace (retries + 1 >? max_retries)%Z with false by (symmetry; lia).
    cbv zeta.
    destruct (Floats.float_overflows (backoff_factor ^ (retries + 1 - 1))) eqn:Hp.
    { cbn. split; [lia|]. split; [lia|]. split.
      - exists e. now replace (calls + 1 - 1)%nat with calls by lia.
      - left. split; [|reflexivity].
        now replace (retries + 1 - 1)%Z with (retries + 1 - 1)%Z by lia. }
    destruct (time_sleep (base_delay * backoff_factor ^ (retries + 1 - 1))) as [err|]
      eqn:Hs.
    { cbn. split; [lia|]. split; [lia|]. split.
      - exists e. now replace (calls + 1 - 1)%nat with calls by lia.
      - right. split; assumption. }
    destruct (IH (retries + 1)%Z (Some e) (S calls)) as [Hle Hres]; [lia|].
    cbn [fst snd]. unfold attempts in *. cbn [List.filter List.length].
    set (n := List.length _) in *.
    split; [lia|].
    destruct (fst (retry_loop _ _ _ _ _ _ _ _)) as [a' | e' | | e'].
    + replace (calls + S n - 1)%nat with (S calls + n - 1)%nat by lia. exact Hres.
    + destruct Hres as [Hn Hf]. split; [lia|].
      now replace (calls + S k)%nat with (S calls + k)%nat by lia.
    + exact Hres.
    + destruct Hres as [Hn [Hf Hpause]]. split; [lia|]. split.
      * replace (calls + S n - 1)%nat with (S calls + n - 1)%nat by lia. exact Hf.
      * cbv zeta in *.
        replace (retries + Z.of_nat (S n) - 1)%Z
          with (retries + 1 + Z.of_nat n - 1)%Z by lia.
        exact Hpause.
Qed.
End WithRetry.

(** *** throttle *)

Lemma throttle_other_key (min_interval : Q) (key : option string) (name : string)
    (lat : latency) (w : gateway) (other : string) :
  throttle_key key name <> other ->
  last_api_call_times (snd (throttle min_interval key name lat w)) !! other
  = last_api_call_times w !! other.
Proof.
  intros Hne. unfold throttle.
  destruct (Qlt_le_dec _ _); cbn; now rewrite lookup_insert_ne.
Qed.

Lemma gateway_calls_spaced (key : string) (gap : Q) (calls : list throttled_call) :
  Forall (fun c => nonnegative (tc_latency c)) calls ->
  Forall (fun c => throttle_key (tc_key c) (tc_name c) = key ->
                   tc_min_interval c = gap) calls ->
  forall w : gateway,
    let starts := starts_under key (fst (gateway_calls calls w)) in
    spaced gap starts
    /\ match starts with
       | [] => True
       | s :: _ => (default 0 (last_api_call_times w !! key) + gap <= s)%Q
       end.
Proof.
  induction calls as [|c calls IH]; intros Hlat Hgap w; [now split|].
  inversion Hlat as [|? ? Hc Hlat']; subst.
  inversion Hgap as [|? ? Hg Hgap']; subst.
  cbn [gateway_calls fst snd]. unfold starts_under. cbn [List.filter fst].
  destruct (IH Hlat' Hgap'
              (snd (throttle (tc_min_interval c) (tc_key c) (tc_name c) (tc_latency c) w)))
    as [Hsp Hhd].
  unfold starts_under in Hsp, Hhd.
  destruct (String.eqb (throttle_key (tc_key c) (tc_name c)) key) eqn:E.
  - apply String.eqb_eq in E. specialize (Hg E).
    destruct (throttle_records (tc_min_interval c) (tc_key c) (tc_name c)
                (tc_latency c) w Hc) as (Hreg & Hfirst & _).
    rewrite E in Hreg, Hfirst. rewrite Hg in *.
    rewrite Hreg in Hhd. cbn [default] in Hhd. cbn [map snd].
    split; [|exact Hfirst]. cbn [spaced]. split; [|exact Hsp].
    destruct (map snd _); [exact I | exact Hhd].
  - apply String.eqb_neq in E.
    rewrite (throttle_other_key _ _ _ _ _ key E) in Hhd. now split.
Qed.

Lemma last_cons (t : Q) (l : list Q) (d : Q) : List.last (t :: l) d = List.last l t.
Proof.
  revert t d. induction l as [|x l IH]; intros t d; [reflexivity|].
  change (List.last (t :: x :: l) d) with (List.last (x :: l) d).
  now rewrite !IH.
Qed.

(** The entry of a key is the start of the last call made under it, and
    calls under other keys leave it alone. *)
Lemma gateway_calls_registry (key : string) (calls : list throttled_call) :
  forall w : gateway,
    default 0%Q (last_api_call_times (snd (gateway_calls calls w)) !! key)
    = List.last (starts_under key (fst (gateway_calls calls w)))
                (default 0%Q (last_api_call_times w !! key)).
Proof.
  induction calls as [|c calls IH]; intros w; [reflexivity|].
  cbn [gateway_calls fst snd]. rewrite IH. unfold starts_under.
  cbn [List.filter fst].
  destruct (String.eqb (throttle_key (tc_key c) (tc_name c)) key) eqn:E.
  - apply String.eqb_eq in E. cbn [map snd]. rewrite last_cons. f_equal.
    rewrite <- E. unfold throttle.
    destruct (Qlt_le_dec _ _); cbn; now rewrite lookup_insert_eq.
  - apply String.eqb_neq in E. f_equal.
    now rewrite (throttle_other_key _ _ _ _ _ key E).
Qed.

(** *** backoff_retry *)

Lemma backoff_loop_always_failing {A : Type} (func : nat -> outcome A)
    (time_sleep : Q -> option exn) (base_delay : Q) (errors : nat -> exn) :
  (forall n, func n = Raise (errors n)) ->
  forall (remaining : nat) (retry : nat) (last_exception : option exn) (calls : nat),
    waits_go_through time_sleep base_delay (retry + remaining) ->
    let run := backoff_loop func time_sleep base_delay remaining (Z.of_nat retry)
                 last_exception calls in
    fst run = match remaining with
              | O => match last_exception with
                     | Some e => BackoffRaises e
                     | None => BackoffReturnsNone
                     end
              | S k => BackoffRaises (errors (calls + k)%nat)
              end
    /\ invocations (snd run) = remaining
    /\ waits (snd run)
       = map (fun i : nat => (base_delay * inject_Z (2 ^ Z.of_nat (retry + i)))%Q)
             (seq 0 remaining).
Proof.
  intros Hfail remaining. induction remaining as [|k IH];
    intros retry last calls Hquiet run; subst run.
  - now cbn.
  - cbn [backoff_loop]. rewrite Hfail.
    destruct (Hquiet retry ltac:(lia)) as [Hp Hs]. rewrite Hp, Hs.
    cbn [fst snd].
    destruct (IH (S retry) (Some (errors calls)) (S calls)) as (Hr & Hi & Hw).
    { intros i Hi. apply Hquiet. lia. }
    replace (Z.of_nat retry + 1)%Z with (Z.of_nat (S retry)) by lia.
    repeat split.
    + rewrite Hr. destruct k; [now rewrite Nat.add_0_r|].
      f_equal. f_equal. lia.
    + unfold invocations in *. cbn. now rewrite Hi.
    + unfold waits in *. cbn [flat_map app seq map]. rewrite Hw.
      rewrite Nat.add_0_r. f_equal.
      rewrite <- seq_shift, map_map. apply map_ext. intros i.
      do 4 f_equal. lia.
Qed.

End GatewayFacts.

Import Utils GatewayFacts.

(** X1.  [with_retry] recovers: when the wrapped function raises on its
    first [k] invocations and returns on the next, with [k] within the retry
    budget, and the [k] pauses in between go through (the power within the
    range of floats, the delay one that [time.sleep] takes), the decorated
    call returns that value after [k + 1] invocations and the first [k]
    waits of the backoff timetable. *)
Theorem with_retry_recovers :
  forall (A : Type) (func : nat -> outcome A) (time_sleep : Q -> option exn)
         (a : A) (k : nat) (max_retries : Z) (base_delay backoff_factor : Q),
    (Z.of_nat k <= max_retries)%Z ->
    (forall n, (n < k)%nat -> exists e, func n = Raise e) ->
    func k = Return a ->
    pauses_go_through time_sleep base_delay backoff_factor (Z.of_nat k) ->
    let run := with_retry func time_sleep max_retries base_delay backoff_factor in
    fst run = Returns a
    /\ attempts (snd run) = S k
    /\ actions (snd run) = backoff_timetable base_delay backoff_factor k 1.
Proof.
  intros A func time_sleep a k max_retries base_delay backoff_factor
         Hk Hfail Hret Hquiet.
  apply (retry_loop_recovers func time_sleep max_retries base_delay backoff_factor
           a k 0%Z None 0%nat).
  - exact Hfail.
  - exact Hret.
  - lia.
  - lia.
  - exact Hquiet.
Qed.

Lemma with_retry_recovers_witness :
  let run := with_retry (fun n => if (n <? 2)%nat then Raise rate_limited else Return n)
               sleep_checking_sign 3 2 2 in
  fst run = Returns 2%nat
  /\ attempts (snd run) = 3%nat
  /\ actions (snd run) = [Called; Slept 2; Called; Slept 4; Called].
Proof.
  apply (with_retry_recovers nat
           (fun n => if (n <? 2)%nat then Raise rate_limited else Return n)
           sleep_checking_sign 2%nat 2%nat 3 2 2).
  - lia.
  - intros n Hn. exists rate_limited.
    destruct n as [|[|n]]; [reflexivity | reflexivity | lia].
  - reflexivity.
  - intros retries Hr.
    assert (H : retries = 1%Z \/ retries = 2%Z) by lia.
    destruct H as [-> | ->]; split; reflexivity.
Defined.

(** X2.  With a negative [max_retries] the decorated call never invokes the
    wrapped function: the loop body does not run and [raise last_exception]
    raises a [TypeError], [last_exception] still being [None]. *)
Theorem with_retry_negative_budget :
  forall (A : Type) (func : nat -> outcome A) (time_sleep : Q -> option exn)
         (max_retries : Z) (base_delay backoff_factor : Q),
    (max_retries < 0)%Z ->
    with_retry func time_sleep max_retries base_delay backoff_factor
    = (RaisesTypeError, [LoggedFailure]).
Proof.
  intros A func time_sleep max_retries base_delay backoff_factor Hneg.
  unfold with_retry. rewrite retry_loop_unfold.
  now replace (0 <=? max_retries)%Z with false by (symmetry; lia).
Qed.

Lemma with_retry_negative_budget_witness :
  with_retry (fun n => Return n) sleep_checking_sign (-1) 2 2
  = (RaisesTypeError, [LoggedFailure]).
Proof.
  apply (with_retry_negative_budget nat (fun n => Return n) sleep_checking_sign
           (-1) 2 2).
  lia.
Defined.

(** X3.  Whatever the wrapped function and [time.sleep] do, [with_retry]
    with a non-negative [max_retries] invokes the function at least once
    and at most [max_retries + 1] times, and ends in one of three ways.  It
    returns the value of its last invocation.  Or it raises the error of
    the last invocation, and then only after exactly [max_retries + 1]
    invocations.  Or the pause after a failed invocation, a retry still
    being due, does not go through, and its exception leaves the wrapper:
    the [OverflowError] of a power beyond the range of floats, or what
    [time.sleep] raised for the delay. *)
Theorem with_retry_gives_up_only_at_the_bound :
  forall (A : Type) (func : nat -> outcome A) (time_sleep : Q -> option exn)
         (max_retries : Z) (base_delay backoff_factor : Q),
    (0 <= max_retries)%Z ->
    let run := with_retry func time_sleep max_retries base_delay backoff_factor in
    (1 <= attempts (snd run) <= S (Z.to_nat max_retries))%nat
    /\ match fst run with
       | Returns a => func (attempts (snd run) - 1)%nat = Return a
       | Raises e =>
           attempts (snd run) = S (Z.to_nat max_retries)
           /\ func (Z.to_nat max_retries) = Raise e
       | RaisesTypeError => False
       | Escapes e =>
           (attempts (snd run) <= Z.to_nat max_retries)%nat
           /\ (exists e0, func (attempts (snd run) - 1)%nat = Raise e0)
           /\ let power :=
                (backoff_factor ^ (Z.of_nat (attempts (snd run)) - 1))%Q in
              (Floats.float_overflows power = true /\ e = power_out_of_range)
              \/ (Floats.float_overflows power = false
                  /\ time_sleep (base_delay * power)%Q = Some e)
       end.
Proof.
  intros A func time_sleep max_retries base_delay backoff_factor Hmax.
  apply (retry_loop_bounded func time_sleep max_retries base_delay backoff_factor
           (Z.to_nat max_retries) 0%Z None 0%nat).
  lia.
Qed.

Lemma with_retry_gives_up_only_at_the_bound_witness :
  let func := fun n : nat => @Raise nat rate_limited in
  let run := with_retry func sleep_checking_sign 3 (-1) 2 in
  (1 <= attempts (snd run) <= 4)%nat
  /\ match fst run with
     | Returns a => func (attempts (snd run) - 1)%nat = Return a
     | Raises e => attempts (snd run) = 4%nat /\ func 3%nat = Raise e
     | RaisesTypeError => False
     | Escapes e =>
         (attempts (snd run) <= 3)%nat
         /\ (exists e0, func (attempts (snd run) - 1)%nat = Raise e0)
         /\ let power := (2 ^ (Z.of_nat (attempts (snd run)) - 1))%Q in
            (Floats.float_overflows power = true /\ e = power_out_of_range)
            \/ (Floats.float_overflows power = false
                /\ sleep_checking_sign (-1 * power)%Q = Some e)
     end.
Proof.
  apply (with_retry_gives_up_only_at_the_bound nat
           (fun _ => Raise rate_limited) sleep_checking_sign 3 (-1) 2).
  lia.
Defined.

(** X4.  A throttled call that arrives at least [min_interval] after the
    time recorded under its key is not put to sleep: the wrapped function
    starts as soon as the two clock readings are done. *)
Theorem throttle_does_not_delay_late_call :
  forall (min_interval : Q) (key : option string) (name : string)
         (lat : latency) (w : gateway),
    (min_interval
     <= clock w + before_check lat
        - default 0 (last_api_call_times w !! throttle_key key name))%Q ->
    fst (throttle min_interval key name lat w)
    = (clock w + before_check lat + before_record lat)%Q.
Proof.
  intros min_interval key name lat w Hlate. unfold throttle.
  destruct (Qlt_le_dec _ _) as [Hlt | Hge]; [|reflexivity].
  cbn in Hlt. exfalso. lra.
Qed.

Lemma throttle_does_not_delay_late_call_witness :
  fst (throttle 2 (Some "reddit_comments") "get_recent_comments" quick
         (mk_gateway 1000 (<["reddit_comments" := 997%Q]> ∅)))
  = (1000 + 0 + 0)%Q.
Proof.
  apply (throttle_does_not_delay_late_call 2 (Some "reddit_comments")
           "get_recent_comments" quick
           (mk_gateway 1000 (<["reddit_comments" := 997%Q]> ∅))).
  vm_compute. discriminate.
Defined.

(** X5.  A throttled call that arrives too early waits for the remainder and
    no longer: with no time lost around the steps it starts exactly
    [min_interval] after the time recorded under its key. *)
Theorem throttle_waits_the_remainder :
  forall (min_interval : Q) (key : option string) (name : string)
         (duration : Q) (w : gateway),
    (clock w - default 0 (last_api_call_times w !! throttle_key key name)
     < min_interval)%Q ->
    (fst (throttle min_interval key name (mk_latency 0 0 0 duration) w)
     == default 0 (last_api_call_times w !! throttle_key key name) + min_interval)%Q.
Proof.
  intros min_interval key name duration w Hearly. unfold throttle.
  destruct (Qlt_le_dec _ _) as [Hlt | Hge]; cbn in *.
  - set (last := default 0%Q (last_api_call_times w !! throttle_key key name)) in *.
    ring.
  - set (last := default 0%Q (last_api_call_times w !! throttle_key key name)) in *.
    exfalso. lra.
Qed.

Lemma throttle_waits_the_remainder_witness :
  let w := mk_gateway 1000 (<["reddit_comments" := 9995 # 10]> ∅) in
  (fst (throttle 2 (Some "reddit_comments") "get_recent_comments"
          (mk_latency 0 0 0 (1 # 2)) w)
   == default 0 (last_api_call_times w
                   !! throttle_key (Some "reddit_comments") "get_recent_comments")
      + 2)%Q.
Proof.
  exact (throttle_waits_the_remainder 2 (Some "reddit_comments")
           "get_recent_comments" (1 # 2)
           (mk_gateway 1000 (<["reddit_comments" := 9995 # 10]> ∅))
           eq_refl).
Defined.

(** X6.  The registry is shared by key, not by function.  In any sequence
    of decorated calls, of whatever functions and keys, the calls that
    resolve to one key and use one [min_interval] start at least
    [min_interval] apart.  Calls under other keys do not reset the key's
    entry: after the sequence it holds the start of the last call made
    under the key (what it held before, if there was none).  Nor do they
    delay a call under the key: a further call that arrives at least its
    [min_interval] after that start is not put to sleep, however recent
    the calls under other keys. *)
Theorem gateway_calls_spaced_per_key :
  forall (key : string) (gap : Q) (calls : list throttled_call) (w : gateway),
    Forall (fun c => nonnegative (tc_latency c)) calls ->
    Forall (fun c => throttle_key (tc_key c) (tc_name c) = key ->
                     tc_min_interval c = gap) calls ->
    let r := gateway_calls calls w in
    let last_start :=
      List.last (starts_under key (fst r))
                (default 0%Q (last_api_call_times w !! key)) in
    spaced gap (starts_under key (fst r))
    /\ default 0%Q (last_api_call_times (snd r) !! key) = last_start
    /\ forall next : throttled_call,
         throttle_key (tc_key next) (tc_name next) = key ->
         (tc_min_interval next
          <= clock (snd r) + before_check (tc_latency next) - last_start)%Q ->
         fst (throttle (tc_min_interval next) (tc_key next) (tc_name next)
                (tc_latency next) (snd r))
         = (clock (snd r) + before_check (tc_latency next)
            + before_record (tc_latency next))%Q.
Proof.
  intros key gap calls w Hlat Hgap r last_start. subst r last_start.
  split; [apply (gateway_calls_spaced key gap calls Hlat Hgap w)|].
  split; [apply gateway_calls_registry|].
  intros next Hkey Hlate. rewrite <- gateway_calls_registry in Hlate.
  unfold throttle. rewrite Hkey.
  destruct (Qlt_le_dec _ _) as [Hlt | Hge]; [|reflexivity].
  cbn in Hlt. exfalso. lra.
Qed.

Lemma gateway_calls_spaced_per_key_witness :
  let r := gateway_calls
             [mk_throttled_call 2 (Some "reddit_comments") "get_recent_comments" quick;
              mk_throttled_call 5 None "search_posts" quick;
              mk_throttled_call 2 (Some "reddit_comments") "get_comment_replies" quick;
              mk_throttled_call 5 (Some "") "search_posts" slow;
              mk_throttled_call 2 (Some "reddit_comments") "get_recent_comments" quick]
             (mk_gateway 1000 ∅) in
  let last_start :=
    List.last (starts_under "reddit_comments" (fst r))
              (default 0%Q (last_api_call_times (mk_gateway 1000 ∅)
                              !! "reddit_comments")) in
  spaced 2 (starts_under "reddit_comments" (fst r))
  /\ default 0%Q (last_api_call_times (snd r) !! "reddit_comments") = last_start
  /\ forall next : throttled_call,
       throttle_key (tc_key next) (tc_name next) = "reddit_comments" ->
       (tc_min_interval next
        <= clock (snd r) + before_check (tc_latency next) - last_start)%Q ->
       fst (throttle (tc_min_interval next) (tc_key next) (tc_name next)
              (tc_latency next) (snd r))
       = (clock (snd r) + before_check (tc_latency next)
          + before_record (tc_latency next))%Q.
Proof.
  apply (gateway_calls_spaced_per_key "reddit_comments" 2).
  - repeat constructor; cbn; unfold Qle; cbn; lia.
  - repeat constructor; cbn; try reflexivity; discriminate.
Defined.

(** The sequence of the witness: the two calls under other keys, made in
    between, move neither the entry of [reddit_comments] nor the starts
    under it, which are 2 apart. *)
Example gateway_calls_example :
  let r := gateway_calls
             [mk_throttled_call 2 (Some "reddit_comments") "get_recent_comments" quick;
              mk_throttled_call 5 None "search_posts" quick;
              mk_throttled_call 2 (Some "reddit_comments") "get_comment_replies" quick]
             (mk_gateway 1000 ∅) in
  map (fun e => (fst e, Qred (snd e))) (fst r)
  = [("reddit_comments", 1000%Q); ("search_posts", (2001 # 2)%Q);
     ("reddit_comments", 1002%Q)]
  /\ Qred <$> last_api_call_times (snd r) !! "reddit_comments" = Some 1002%Q
  /\ Qred <$> last_api_call_times (snd r) !! "search_posts" = Some (2001 # 2)%Q.
Proof. vm_compute. repeat split; reflexivity. Qed.

(** X7.  [backoff_retry] on a function that raises every time, when the
    pause after every failure goes through (the power of two within the
    range of floats, the delay one that [time.sleep] takes), invokes the
    function [max_retries] times (not once more), sleeps after every
    failure, the last one included, for [base_delay * 2 ** retry], and
    raises the last error; with [max_retries] zero or negative it invokes
    nothing and returns [None]. *)
Theorem backoff_retry_always_failing :
  forall (A : Type) (func : nat -> outcome A) (time_sleep : Q -> option exn)
         (errors : nat -> exn) (max_retries : Z) (base_delay : Q),
    (forall n, func n = Raise (errors n)) ->
    waits_go_through time_sleep base_delay (Z.to_nat max_retries) ->
    let run := backoff_retry func time_sleep base_delay max_retries in
    fst run = match Z.to_nat max_retries with
              | O => BackoffReturnsNone
              | S k => BackoffRaises (errors k)
              end
    /\ invocations (snd run) = Z.to_nat max_retries
    /\ waits (snd run)
       = map (fun i : nat => (base_delay * inject_Z (2 ^ Z.of_nat i))%Q)
             (seq 0 (Z.to_nat max_retries)).
Proof.
  intros A func time_sleep errors max_retries base_delay Hfail Hquiet.
  apply (backoff_loop_always_failing func time_sleep base_delay errors Hfail
           (Z.to_nat max_retries) 0%nat None 0%nat).
  exact Hquiet.
Qed.

Lemma backoff_retry_always_failing_witness :
  let run := backoff_retry (fun _ => @Raise nat rate_limited) sleep_checking_sign 1 3 in
  fst run = BackoffRaises rate_limited
  /\ invocations (snd run) = 3%nat
  /\ waits (snd run) = [1 * inject_Z 1; 1 * inject_Z 2; 1 * inject_Z 4]%Q.
Proof.
  apply (backoff_retry_always_failing nat (fun _ => Raise rate_limited)
           sleep_checking_sign (fun _ => rate_limited) 3 1).
  - reflexivity.
  - intros i Hi.
    destruct i as [|[|[|i]]]; [split; reflexivity .. | lia].
Defined.

(** With a negative [base_delay] the first pause does not go through:
    [time.sleep] raises after one invocation. *)
Example backoff_retry_negative_delay :
  backoff_retry (fun _ => @Raise nat rate_limited) sleep_checking_sign (-1) 3
  = (BackoffEscapes sleep_length_must_be_non_negative, [Invoked]).
Proof. reflexivity. Qed.

Module StorageFacts.
Import Text TextFacts CommentDb CommentDbFacts.

(** An UPDATE by internal id over existing columns: its row count tells
    whether the id is known, and it rewrites exactly the rows with that id. *)
Lemma UPDATE_by_id (sets : list (string * sqlval)) (comment_id : string) (db : table) :
  no_such_column (map fst sets ++ ["id"])%list = None ->
  (try! upd := UPDATE sets "id" (TEXT comment_id) db in
   Returned ((0 <? snd upd)%nat, fst upd))
  = Returned (has_id comment_id db,
              map (fun r => if sql_eq (col_id r) (TEXT comment_id)
                            then assign sets r else r) db).
Proof.
  intros H. unfold UPDATE. rewrite H. cbn [bind snd fst].
  change (fun r : row => match get_column "id" r with
                         | Some v => sql_eq v (TEXT comment_id)
                         | None => false
                         end)
    with (fun r : row => sql_eq (col_id r) (TEXT comment_id)).
  now rewrite rowcount_positive.
Qed.

Lemma map_unhit (p : row -> bool) (f : row -> row) (db : table) :
  existsb p db = false -> map (fun r => if p r then f r else r) db = db.
Proof.
  induction db as [|r db IH]; [reflexivity|].
  cbn. intros H. apply orb_false_iff in H. destruct H as [Hr H].
  rewrite Hr. now rewrite IH.
Qed.

Lemma filter_map_frame (p q : row -> bool) (f : row -> row) (db : table) :
  (forall r, p (f r) = p r) -> (forall r, p r = true -> q r = false) ->
  List.filter p (map (fun r => if q r then f r else r) db) = List.filter p db.
Proof.
  intros Hf Hq. induction db as [|r db IH]; [reflexivity|].
  cbn. destruct (q r) eqn:Eq.
  - rewrite Hf. destruct (p r) eqn:Ep.
    + rewrite (Hq _ Ep) in Eq. discriminate.
    + exact IH.
  - destruct (p r) eqn:Ep; [|exact IH].
    now rewrite IH.
Qed.

Lemma get_comment_filter (comment_id : string) (db : table) :
  get_comment comment_id db
  = Returned (fetchone (List.filter (fun r => sql_eq (col_id r) (TEXT comment_id)) db)).
Proof. reflexivity. Qed.

Lemma fetchone_find (p : row -> bool) (db : table) :
  fetchone (List.filter p db) = List.find p db.
Proof.
  induction db as [|r db IH]; [reflexivity|].
  cbn. destruct (p r); [reflexivity|exact IH].
Qed.

(** Reading back after an UPDATE by internal id. *)
Lemma read_back (sets : list (string * sqlval)) (comment_id : string)
    (db : table) (x : row) :
  (forall r, col_id (assign sets r) = col_id r) ->
  get_comment comment_id db = Returned (Some x) ->
  has_id comment_id db = true
  /\ get_comment comment_id
       (map (fun r => if sql_eq (col_id r) (TEXT comment_id)
                      then assign sets r else r) db)
     = Returned (Some (assign sets x)).
Proof.
  intros Hid H. rewrite get_comment_filter in H. injection H as H.
  split.
  - unfold has_id. rewrite <- fetchone_filter. now rewrite H.
  - rewrite get_comment_filter.
    rewrite (fetchone_filter_map (fun r => sql_eq (col_id r) (TEXT comment_id))).
    + rewrite <- fetchone_find, H. reflexivity.
    + intros r. now rewrite Hid.
Qed.

Lemma frame (sets : list (string * sqlval)) (comment_id other_id : string)
    (db : table) :
  (forall r, col_id (assign sets r) = col_id r) ->
  other_id <> comment_id ->
  get_comment other_id
    (map (fun r => if sql_eq (col_id r) (TEXT comment_id)
                   then assign sets r else r) db)
  = get_comment other_id db.
Proof.
  intros Hid Hne. rewrite !get_comment_filter. f_equal. f_equal.
  apply filter_map_frame.
  - intros r. now rewrite Hid.
  - intros r Hr. apply sql_eq_text in Hr. rewrite Hr. cbn.
    now apply String.eqb_neq.
Qed.

Ltac column_cases c Hc :=
  unfold get_column, column; cbn [List.find columns fst];
  repeat (destruct (String.eqb _ c) eqn:?E;
          [ try reflexivity;
            apply String.eqb_eq in E; subst c; exfalso; apply Hc; cbn; tauto
          | clear E ]);
  reflexivity.

Lemma assign_status_same (status : string) (x : row) :
  same_except ["status"] x (assign [("status", TEXT status)] x).
Proof. intros c Hc. column_cases c Hc. Qed.

Lemma assign_ai_response_same (ai_response : string) (x : row) :
  same_except ["ai_response"] x (assign [("ai_response", TEXT ai_response)] x).
Proof. intros c Hc. column_cases c Hc. Qed.

Lemma assign_email_same (recipient : string) (x : row) :
  same_except ["email_sent"; "email_recipient"] x
    (assign [("email_sent", INTEGER 1); ("email_recipient", TEXT recipient)] x).
Proof. intros c Hc. column_cases c Hc. Qed.

Lemma find_none_existsb (p : row -> bool) (db : table) :
  List.find p db = None <-> existsb p db = false.
Proof.
  induction db as [|r db IH]; [cbn; tauto|].
  cbn. destruct (p r); cbn; [split; discriminate|exact IH].
Qed.

Lemma find_append (p : row -> bool) (l1 l2 : list row) :
  List.find p (l1 ++ l2)%list
  = match List.find p l1 with Some x => Some x | None => List.find p l2 end.
Proof.
  induction l1 as [|x l1 IH]; [reflexivity|].
  cbn. destruct (p x); [reflexivity|exact IH].
Qed.

Lemma get_comment_by_reddit_id_finds (r : string) (db : table) :
  get_comment_by_reddit_id r db
  = Returned
      (match List.find (fun x => sql_eq (col_comment_id x) (TEXT r)) db with
       | Some row => Some row
       | None =>
           List.find (fun x => sql_eq (col_comment_id x) (TEXT (other_spelling r))) db
       end).
Proof.
  unfold get_comment_by_reddit_id, other_spelling.
  assert (S : forall s, SELECT_WHERE schema "comment_id" (TEXT s) db
          = Returned (List.filter (fun x => sql_eq (col_comment_id x) (TEXT s)) db))
    by reflexivity.
  destruct (startswith "t1_" r); rewrite !S; cbn [bind];
    rewrite !fetchone_find;
    destruct (List.find _ db); reflexivity.
Qed.

Lemma other_spelling_variant (r : string) : variant r (other_spelling r).
Proof.
  unfold other_spelling, variant.
  destruct (startswith "t1_" r) eqn:E.
  - right. left. now apply startswith_split in E.
  - right. right. reflexivity.
Qed.

(** ORDER BY and LIMIT *)

Lemma sql_compare_antisym (a b : sqlval) :
  sql_compare a b = CompOpp (sql_compare b a).
Proof.
  destruct a, b; cbn; try reflexivity.
  - apply String.compare_antisym.
  - symmetry. apply Qcompare_antisym.
  - symmetry. apply Qcompare_antisym.
  - symmetry. apply Qcompare_antisym.
  - apply Z.compare_antisym.
Qed.

Lemma inject_Z_compare (x y : Z) : (inject_Z x ?= inject_Z y)%Q = (x ?= y)%Z.
Proof. unfold Qcompare. cbn. now rewrite !Z.mul_1_r. Qed.

Lemma string_not_lt_trans (a b c : string) :
  String.compare a b <> Lt -> String.compare b c <> Lt -> String.compare a c <> Lt.
Proof.
  intros Hab Hbc Hac.
  destruct (String.compare a b) eqn:E.
  - apply String.compare_eq_iff in E. subst b. contradiction.
  - contradiction.
  - rewrite String.compare_antisym in E.
    destruct (String.compare b a) eqn:E'; try discriminate.
    apply Hbc. apply String_as_OT.cmp_lt.
    apply String_as_OT.lt_trans with a; now apply String_as_OT.cmp_lt.
Qed.

Lemma sql_compare_trans (a b c : sqlval) :
  sql_compare a b <> Lt -> sql_compare b c <> Lt -> sql_compare a c <> Lt.
Proof.
  destruct a, b, c; cbn; try congruence;
    rewrite <- ?inject_Z_compare, <- ?Qge_alt; try apply string_not_lt_trans;
    intros H1 H2; eapply Qle_trans; eassumption.
Qed.

Lemma insert_by_timestamp_perm (r : row) (l : list row) :
  Permutation (insert_by_timestamp r l) (r :: l).
Proof.
  induction l as [|y l IH]; [reflexivity|].
  cbn. destruct (sql_compare (col_timestamp r) (col_timestamp y)); try reflexivity.
  rewrite IH. apply perm_swap.
Qed.

Lemma insert_by_timestamp_sorted (r : row) (l : list row) :
  StronglySorted not_older l -> StronglySorted not_older (insert_by_timestamp r l).
Proof.
  induction 1 as [|y l Hs IH Hy]; [repeat constructor|].
  cbn [insert_by_timestamp].
  assert (Hfront : sql_compare (col_timestamp r) (col_timestamp y) <> Lt ->
                   StronglySorted not_older (r :: y :: l)).
  { intros Hry. constructor; [now constructor|]. constructor; [exact Hry|].
    eapply List.Forall_impl; [|exact Hy]. intros z Hz.
    unfold not_older in *. now apply sql_compare_trans with (col_timestamp y). }
  destruct (sql_compare (col_timestamp r) (col_timestamp y)) eqn:E.
  - apply Hfront. discriminate.
  - constructor; [exact IH|].
    eapply Permutation_Forall; [symmetry; apply insert_by_timestamp_perm|].
    constructor; [|exact Hy].
    unfold not_older. rewrite sql_compare_antisym, E. discriminate.
  - apply Hfront. discriminate.
Qed.

Lemma ORDER_BY_perm (l : list row) : Permutation (ORDER_BY_timestamp_DESC l) l.
Proof.
  unfold ORDER_BY_timestamp_DESC. induction l as [|y l IH]; [reflexivity|].
  cbn. rewrite insert_by_timestamp_perm. now constructor.
Qed.

Lemma ORDER_BY_sorted (l : list row) :
  StronglySorted not_older (ORDER_BY_timestamp_DESC l).
Proof.
  unfold ORDER_BY_timestamp_DESC. induction l as [|y l IH]; [constructor|].
  cbn. now apply insert_by_timestamp_sorted.
Qed.

(** What every listing query returns, for the rows [hit] its WHERE clause
    selects. *)
Lemma listing (hit : row -> bool) (limit : Z) (db : table) :
  sqlite_integer limit = true ->
  exists rows,
    LIMIT limit (ORDER_BY_timestamp_DESC (List.filter hit db)) = Returned rows
    /\ lists hit limit db rows.
Proof.
  intros Hfit. unfold LIMIT. rewrite Hfit. eexists. split; [reflexivity|].
  exists (ORDER_BY_timestamp_DESC (List.filter hit db)).
  split; [apply ORDER_BY_perm|]. split; [apply ORDER_BY_sorted|]. reflexivity.
Qed.

Lemma listing_overflow (limit : Z) (rows : list row) :
  sqlite_integer limit = false -> LIMIT limit rows = Raised OverflowError.
Proof. intros Hfit. unfold LIMIT. now rewrite Hfit. Qed.

Lemma filter_all (db : table) : List.filter (fun _ : row => true) db = db.
Proof. induction db as [|r db IH]; [reflexivity|]. cbn. now rewrite IH. Qed.

(** Consequences of [lists] for whoever reads the answer. *)
Lemma lists_sound (hit : row -> bool) (limit : Z) (db : table) (rows : list row) :
  lists hit limit db rows -> forall r, In r rows -> In r db /\ hit r = true.
Proof.
  intros [arranged [Hp [_ ->]]] r Hin.
  assert (In r arranged).
  { destruct (limit <? 0)%Z; [exact Hin|].
    rewrite <- (firstn_skipn (Z.to_nat limit) arranged). apply in_or_app. now left. }
  apply List.filter_In. eapply Permutation_in; eassumption.
Qed.

Lemma lists_length (hit : row -> bool) (limit : Z) (db : table) (rows : list row) :
  lists hit limit db rows ->
  List.length rows
  = if (limit <? 0)%Z then List.length (List.filter hit db)
    else Nat.min (Z.to_nat limit) (List.length (List.filter hit db)).
Proof.
  intros [arranged [Hp [_ ->]]]. rewrite <- (Permutation_length Hp).
  destruct (limit <? 0)%Z; [reflexivity|]. apply length_firstn.
Qed.

Lemma firstn_skipn_sorted (n : nat) (l : list row) (x y : row) :
  StronglySorted not_older l -> In x (firstn n l) -> In y (skipn n l) ->
  not_older x y.
Proof.
  intros Hs. revert n. induction Hs as [|z l Hs IH Hz]; intros n Hx Hy.
  - destruct n; destruct Hx.
  - destruct n as [|n]; [destruct Hx|].
    cbn in Hx, Hy. destruct Hx as [<- | Hx].
    + rewrite List.Forall_forall in Hz. apply Hz.
      rewrite <- (firstn_skipn n l). apply in_or_app. now right.
    + now apply IH with n.
Qed.

Lemma lists_keeps_newest (hit : row -> bool) (limit : Z) (db : table)
    (rows : list row) :
  lists hit limit db rows ->
  StronglySorted not_older rows
  /\ exists dropped,
       Permutation (rows ++ dropped) (List.filter hit db)
       /\ forall kept cut, In kept rows -> In cut dropped -> not_older kept cut.
Proof.
  intros [arranged [Hp [Hs ->]]].
  destruct (limit <? 0)%Z.
  - split; [exact Hs|]. exists []. rewrite app_nil_r. split; [exact Hp|].
    intros ? ? _ [].
  - split.
    + clear Hp. revert arranged Hs. induction (Z.to_nat limit) as [|n IH];
        intros arranged Hs; [constructor|].
      destruct Hs as [|z l Hs Hz]; [constructor|].
      cbn. constructor; [now apply IH|].
      rewrite List.Forall_forall in *. intros y Hy. apply Hz.
      rewrite <- (firstn_skipn n l). apply in_or_app. now left.
    + exists (skipn (Z.to_nat limit) arranged). rewrite firstn_skipn.
      split; [exact Hp|]. intros kept cut. now apply firstn_skipn_sorted.
Qed.

End StorageFacts.

Import Text TextFacts CommentDb CommentDbFacts StorageFacts Samples.

(** X8.  An update addressed to an internal id that no row carries reports
    [False] and leaves the table as it was; this holds for the status, the
    draft and the email flag alike. *)
Theorem update_of_unknown_id_changes_nothing :
  forall (comment_id status ai_response recipient : string) (db : table),
    has_id comment_id db = false ->
    update_comment_status comment_id status db = Returned (false, db)
    /\ update_ai_response comment_id ai_response db = Returned (false, db)
    /\ mark_email_sent comment_id recipient db = Returned (false, db).
Proof.
  intros comment_id status ai_response recipient db H.
  unfold update_comment_status, update_ai_response, mark_email_sent.
  rewrite !UPDATE_by_id by reflexivity. rewrite H.
  unfold has_id in H. now rewrite !(map_unhit _ _ db H).
Qed.

Lemma update_of_unknown_id_changes_nothing_witness :
  let db := [new_row (sample_add "uuid-1" "abc123" "pending_approval")] in
  update_comment_status "abc123" "approved" db = Returned (false, db)
  /\ update_ai_response "abc123" "Sorry." db = Returned (false, db)
  /\ mark_email_sent "abc123" "ops@example.com" db = Returned (false, db).
Proof.
  apply (update_of_unknown_id_changes_nothing "abc123" "approved" "Sorry."
           "ops@example.com"
           [new_row (sample_add "uuid-1" "abc123" "pending_approval")]).
  reflexivity.
Defined.

(** X9.  After [update_comment_status] on the internal id of a row, the
    call reports [True], a lookup of that id shows the row with the new
    status and every other column as before, and lookups of other ids show
    what they showed before. *)
Theorem update_comment_status_read_back :
  forall (comment_id status : string) (db : table) (x : row),
    get_comment comment_id db = Returned (Some x) ->
    exists db' x',
      update_comment_status comment_id status db = Returned (true, db')
      /\ get_comment comment_id db' = Returned (Some x')
      /\ col_status x' = TEXT status
      /\ same_except ["status"] x x'
      /\ forall other_id, other_id <> comment_id ->
           get_comment other_id db' = get_comment other_id db.
Proof.
  intros comment_id status db x H.
  destruct (read_back [("status", TEXT status)] comment_id db x) as [Hid Hget];
    [reflexivity | exact H |].
  do 2 eexists. unfold update_comment_status.
  rewrite UPDATE_by_id by reflexivity. rewrite Hid.
  split; [reflexivity|]. split; [exact Hget|]. split; [reflexivity|].
  split; [apply assign_status_same|].
  intros other_id Hne. now apply frame.
Qed.

Lemma update_comment_status_read_back_witness :
  exists db' x',
    update_comment_status "uuid-1" "approved"
      [new_row (sample_add "uuid-1" "abc123" "pending_approval");
       new_row (sample_add "uuid-2" "def456" "pending_approval")]
    = Returned (true, db')
    /\ get_comment "uuid-1" db' = Returned (Some x')
    /\ col_status x' = TEXT "approved"
    /\ same_except ["status"]
         (new_row (sample_add "uuid-1" "abc123" "pending_approval")) x'
    /\ forall other_id, other_id <> "uuid-1" ->
         get_comment other_id db'
         = get_comment other_id
             [new_row (sample_add "uuid-1" "abc123" "pending_approval");
              new_row (sample_add "uuid-2" "def456" "pending_approval")].
Proof.
  apply (update_comment_status_read_back "uuid-1" "approved"
           [new_row (sample_add "uuid-1" "abc123" "pending_approval");
            new_row (sample_add "uuid-2" "def456" "pending_approval")]
           (new_row (sample_add "uuid-1" "abc123" "pending_approval"))).
  reflexivity.
Defined.

(** X10.  After [update_ai_response] on the internal id of a row, the call
    reports [True], a lookup of that id shows the row with the new draft
    and every other column as before, and other ids read as before. *)
Theorem update_ai_response_read_back :
  forall (comment_id ai_response : string) (db : table) (x : row),
    get_comment comment_id db = Returned (Some x) ->
    exists db' x',
      update_ai_response comment_id ai_response db = Returned (true, db')
      /\ get_comment comment_id db' = Returned (Some x')
      /\ col_ai_response x' = TEXT ai_response
      /\ same_except ["ai_response"] x x'
      /\ forall other_id, other_id <> comment_id ->
           get_comment other_id db' = get_comment other_id db.
Proof.
  intros comment_id ai_response db x H.
  destruct (read_back [("ai_response", TEXT ai_response)] comment_id db x)
    as [Hid Hget]; [reflexivity | exact H |].
  do 2 eexists. unfold update_ai_response.
  rewrite UPDATE_by_id by reflexivity. rewrite Hid.
  split; [reflexivity|]. split; [exact Hget|]. split; [reflexivity|].
  split; [apply assign_ai_response_same|].
  intros other_id Hne. now apply frame.
Qed.

Lemma update_ai_response_read_back_witness :
  exists db' x',
    update_ai_response "uuid-1" "Thank you."
      [new_row (sample_add "uuid-1" "abc123" "pending_approval")]
    = Returned (true, db')
    /\ get_comment "uuid-1" db' = Returned (Some x')
    /\ col_ai_response x' = TEXT "Thank you."
    /\ same_except ["ai_response"]
         (new_row (sample_add "uuid-1" "abc123" "pending_approval")) x'
    /\ forall other_id, other_id <> "uuid-1" ->
         get_comment other_id db'
         = get_comment other_id
             [new_row (sample_add "uuid-1" "abc123" "pending_approval")].
Proof.
  apply (update_ai_response_read_back "uuid-1" "Thank you."
           [new_row (sample_add "uuid-1" "abc123" "pending_approval")]
           (new_row (sample_add "uuid-1" "abc123" "pending_approval"))).
  reflexivity.
Defined.

(** X11.  After [mark_email_sent] on the internal id of a row, the call
    reports [True], a lookup of that id shows the flag set to 1 and the
    recipient recorded, every other column as before, and other ids read as
    before. *)
Theorem mark_email_sent_read_back :
  forall (comment_id email_recipient : string) (db : table) (x : row),
    get_comment comment_id db = Returned (Some x) ->
    exists db' x',
      mark_email_sent comment_id email_recipient db = Returned (true, db')
      /\ get_comment comment_id db' = Returned (Some x')
      /\ col_email_sent x' = INTEGER 1
      /\ col_email_recipient x' = TEXT email_recipient
      /\ same_except ["email_sent"; "email_recipient"] x x'
      /\ forall other_id, other_id <> comment_id ->
           get_comment other_id db' = get_comment other_id db.
Proof.
  intros comment_id email_recipient db x H.
  destruct (read_back [("email_sent", INTEGER 1);
                       ("email_recipient", TEXT email_recipient)] comment_id db x)
    as [Hid Hget]; [reflexivity | exact H |].
  do 2 eexists. unfold mark_email_sent.
  rewrite UPDATE_by_id by reflexivity. rewrite Hid.
  split; [reflexivity|]. split; [exact Hget|]. split; [reflexivity|].
  split; [reflexivity|]. split; [apply assign_email_same|].
  intros other_id Hne. now apply frame.
Qed.

Lemma mark_email_sent_read_back_witness :
  exists db' x',
    mark_email_sent "uuid-1" "ops@example.com"
      [new_row (sample_add "uuid-1" "abc123" "pending_approval")]
    = Returned (true, db')
    /\ get_comment "uuid-1" db' = Returned (Some x')
    /\ col_email_sent x' = INTEGER 1
    /\ col_email_recipient x' = TEXT "ops@example.com"
    /\ same_except ["email_sent"; "email_recipient"]
         (new_row (sample_add "uuid-1" "abc123" "pending_approval")) x'
    /\ forall other_id, other_id <> "uuid-1" ->
         get_comment other_id db'
         = get_comment other_id
             [new_row (sample_add "uuid-1" "abc123" "pending_approval")].
Proof.
  apply (mark_email_sent_read_back "uuid-1" "ops@example.com"
           [new_row (sample_add "uuid-1" "abc123" "pending_approval")]
           (new_row (sample_add "uuid-1" "abc123" "pending_approval"))).
  reflexivity.
Defined.

(** X12.  Storing a comment whose natural id is not yet stored, under an
    unused uuid, appends its row and reports the uuid; the row is then what
    a lookup by the uuid and a lookup by the natural id return, the
    existence check answers true for a non-empty natural id, and lookups of
    other internal ids read as before. *)
Theorem add_comment_round_trip :
  forall (a : add_args) (db : table),
    has_id (a_uuid4 a) db = false ->
    stored (cd_id (a_comment a)) db = false ->
    exists db',
      add_comment a db = Returned (TEXT (a_uuid4 a), db')
      /\ db' = (db ++ [new_row a])%list
      /\ get_comment (a_uuid4 a) db' = Returned (Some (new_row a))
      /\ get_comment_by_reddit_id (cd_id (a_comment a)) db'
         = Returned (Some (new_row a))
      /\ (cd_id (a_comment a) <> "" ->
          comment_exists (cd_id (a_comment a)) db' = Returned true)
      /\ forall other_id, other_id <> a_uuid4 a ->
           get_comment other_id db' = get_comment other_id db.
Proof.
  intros a db Hid Hst. exists (db ++ [new_row a])%list.
  assert (Hc : existsb (conflicts (new_row a)) db = false).
  { unfold has_id, stored in *. clear - Hid Hst.
    induction db as [|r db IH]; [reflexivity|].
    cbn in *. apply orb_false_iff in Hid, Hst.
    destruct Hid as [H1 H2], Hst as [H3 H4].
    unfold conflicts at 1. cbn [new_row col_id col_comment_id].
    rewrite H1, H3. cbn. now apply IH. }
  split; [now apply add_comment_inserts|]. split; [reflexivity|].
  split; [|split; [|split]].
  - rewrite get_comment_filter, fetchone_find. f_equal.
    rewrite find_append.
    replace (List.find _ db) with (@None row)
      by (symmetry; now apply find_none_existsb).
    cbn. now rewrite String.eqb_refl.
  - rewrite get_comment_by_reddit_id_finds. f_equal.
    rewrite find_append.
    replace (List.find _ db) with (@None row)
      by (symmetry; now apply find_none_existsb).
    cbn. now rewrite String.eqb_refl.
  - intros Hne. apply comment_exists_variant with (cd_id (a_comment a)).
    + rewrite stored_app. cbn. rewrite String.eqb_refl. apply orb_true_r.
    + now left.
    + exact Hne.
  - intros other_id Hne. rewrite !get_comment_filter. f_equal. f_equal.
    rewrite List.filter_app. cbn.
    replace (String.eqb (a_uuid4 a) other_id) with false
      by (symmetry; apply String.eqb_neq; congruence).
    apply app_nil_r.
Qed.

Lemma add_comment_round_trip_witness :
  exists db',
    add_comment (sample_add "uuid-2" "def456" "pending_approval")
      [new_row (sample_add "uuid-1" "abc123" "pending_approval")]
    = Returned (TEXT "uuid-2", db')
    /\ db' = ([new_row (sample_add "uuid-1" "abc123" "pending_approval")]
              ++ [new_row (sample_add "uuid-2" "def456" "pending_approval")])%list
    /\ get_comment "uuid-2" db'
       = Returned (Some (new_row (sample_add "uuid-2" "def456" "pending_approval")))
    /\ get_comment_by_reddit_id "def456" db'
       = Returned (Some (new_row (sample_add "uuid-2" "def456" "pending_approval")))
    /\ ("def456" <> "" -> comment_exists "def456" db' = Returned true)
    /\ forall other_id, other_id <> "uuid-2" ->
         get_comment other_id db'
         = get_comment other_id
             [new_row (sample_add "uuid-1" "abc123" "pending_approval")].
Proof.
  apply (add_comment_round_trip (sample_add "uuid-2" "def456" "pending_approval")
           [new_row (sample_add "uuid-1" "abc123" "pending_approval")]).
  - reflexivity.
  - reflexivity.
Defined.

(** X13.  [get_comment_by_reddit_id] never raises.  It returns a row of the
    table whose natural id is the id asked for or its other spelling (the
    id without a leading [t1_], or with [t1_] put in front), and it
    returns nothing exactly when neither spelling is stored. *)
Theorem get_comment_by_reddit_id_spellings :
  forall (reddit_comment_id : string) (db : table),
    exists found_row,
      get_comment_by_reddit_id reddit_comment_id db = Returned found_row
      /\ (forall row, found_row = Some row ->
            In row db
            /\ (col_comment_id row = TEXT reddit_comment_id
                \/ (stored reddit_comment_id db = false
                    /\ col_comment_id row = TEXT (other_spelling reddit_comment_id))))
      /\ (found_row = None <->
          stored reddit_comment_id db = false
          /\ stored (other_spelling reddit_comment_id) db = false).
Proof.
  intros r db. rewrite get_comment_by_reddit_id_finds. eexists.
  split; [reflexivity|].
  unfold stored.
  destruct (List.find (fun x => sql_eq (col_comment_id x) (TEXT r)) db)
    as [row|] eqn:E1.
  - apply List.find_some in E1. destruct E1 as [Hin Hrow]. split.
    + intros ? [= <-]. split; [exact Hin|]. left. now apply sql_eq_text.
    + split; [discriminate|]. intros [H _].
      assert (existsb (fun r0 => sql_eq (col_comment_id r0) (TEXT r)) db = true)
        by (apply existsb_exists; eauto).
      congruence.
  - apply find_none_existsb in E1. rewrite E1.
    destruct (List.find (fun x => sql_eq (col_comment_id x) (TEXT (other_spelling r))) db)
      as [row|] eqn:E2.
    + apply List.find_some in E2. destruct E2 as [Hin Hrow]. split.
      * intros ? [= <-]. split; [exact Hin|]. right.
        split; [reflexivity|]. now apply sql_eq_text.
      * split; [discriminate|]. intros [_ H].
        assert (existsb (fun r0 => sql_eq (col_comment_id r0)
                                     (TEXT (other_spelling r))) db = true)
          by (apply existsb_exists; eauto).
        congruence.
    + apply find_none_existsb in E2. rewrite E2. split; [discriminate|].
      split; auto.
Qed.

(** X14.  Whatever [get_comment_by_reddit_id] finds under a non-empty id,
    [comment_exists] reports as present. *)
Theorem lookup_by_reddit_id_implies_exists :
  forall (reddit_comment_id : string) (db : table) (row : row),
    reddit_comment_id <> "" ->
    get_comment_by_reddit_id reddit_comment_id db = Returned (Some row) ->
    comment_exists reddit_comment_id db = Returned true.
Proof.
  intros r db row Hne H. rewrite get_comment_by_reddit_id_finds in H.
  injection H as H.
  destruct (List.find (fun x => sql_eq (col_comment_id x) (TEXT r)) db)
    as [row1|] eqn:E1.
  - apply List.find_some in E1. destruct E1 as [Hin Hrow].
    apply comment_exists_variant with r; [|now left|exact Hne].
    unfold stored. apply existsb_exists. eauto.
  - apply List.find_some in H. destruct H as [Hin Hrow].
    apply comment_exists_variant with (other_spelling r);
      [|apply other_spelling_variant|exact Hne].
    unfold stored. apply existsb_exists. eauto.
Qed.

Lemma lookup_by_reddit_id_implies_exists_witness :
  comment_exists "t1_abc123"
    [new_row (sample_add "uuid-1" "abc123" "pending_approval")]
  = Returned true.
Proof.
  apply (lookup_by_reddit_id_implies_exists "t1_abc123"
           [new_row (sample_add "uuid-1" "abc123" "pending_approval")]
           (new_row (sample_add "uuid-1" "abc123" "pending_approval"))).
  - discriminate.
  - reflexivity.
Defined.

(** X15.  The table's two constraints (no two rows with the same internal
    id, no two rows with the same natural id) survive every write of
    [CommentDatabase]: [add_comment], [update_comment_status],
    [update_ai_response] and [mark_email_sent]. *)
Theorem writes_keep_constraints :
  forall (db : table),
    constraints_hold db ->
    (forall a i db', add_comment a db = Returned (i, db') -> constraints_hold db')
    /\ (forall comment_id status b db',
          update_comment_status comment_id status db = Returned (b, db') ->
          constraints_hold db')
    /\ (forall comment_id ai_response b db',
          update_ai_response comment_id ai_response db = Returned (b, db') ->
          constraints_hold db')
    /\ (forall comment_id recipient b db',
          mark_email_sent comment_id recipient db = Returned (b, db') ->
          constraints_hold db').
Proof.
  intros db Hc. split; [|split; [|split]].
  - intros a i db' H. now apply (add_comment_constraints a db db' i).
  - intros comment_id status b db' H. unfold update_comment_status in H.
    rewrite UPDATE_by_id in H by reflexivity. injection H as _ <-.
    apply constraints_map; [|exact Hc].
    intros r. destruct (sql_eq (col_id r) (TEXT comment_id)); split; reflexivity.
  - intros comment_id ai_response b db' H. unfold update_ai_response in H.
    rewrite UPDATE_by_id in H by reflexivity. injection H as _ <-.
    apply constraints_map; [|exact Hc].
    intros r. destruct (sql_eq (col_id r) (TEXT comment_id)); split; reflexivity.
  - intros comment_id recipient b db' H. unfold mark_email_sent in H.
    rewrite UPDATE_by_id in H by reflexivity. injection H as _ <-.
    apply constraints_map; [|exact Hc].
    intros r. destruct (sql_eq (col_id r) (TEXT comment_id)); split; reflexivity.
Qed.

Lemma writes_keep_constraints_witness :
  (forall a i db',
     add_comment a [new_row (sample_add "uuid-1" "abc123" "pending_approval")]
     = Returned (i, db') -> constraints_hold db')
  /\ (forall comment_id status b db',
        update_comment_status comment_id status
          [new_row (sample_add "uuid-1" "abc123" "pending_approval")]
        = Returned (b, db') -> constraints_hold db')
  /\ (forall comment_id ai_response b db',
        update_ai_response comment_id ai_response
          [new_row (sample_add "uuid-1" "abc123" "pending_approval")]
        = Returned (b, db') -> constraints_hold db')
  /\ (forall comment_id recipient b db',
        mark_email_sent comment_id recipient
          [new_row (sample_add "uuid-1" "abc123" "pending_approval")]
        = Returned (b, db') -> constraints_hold db').
Proof.
  apply (writes_keep_constraints
           [new_row (sample_add "uuid-1" "abc123" "pending_approval")]).
  cbn. split; [intros ? []|exact I].
Defined.

(** X16.  The listing queries [get_all_comments],
    [get_comments_by_sentiment], [get_comments_by_status] and
    [get_comments_by_key_term], given a [limit] that fits a 64-bit signed
    integer, answer with the rows their filter selects (all rows; the rows
    with that sentiment, status or key term), arranged newest first and cut
    after [limit] rows, a negative [limit] meaning no cut.  Given any
    other [limit] they raise the [OverflowError] of the binding. *)
Theorem listing_queries_answer :
  forall (limit : Z) (db : table),
    (sqlite_integer limit = true ->
     (exists rows, get_all_comments limit db = Returned rows
                   /\ lists (fun _ => true) limit db rows)
     /\ (forall sentiment, exists rows,
           get_comments_by_sentiment sentiment limit db = Returned rows
           /\ lists (fun r => sql_eq (col_sentiment r) (TEXT sentiment)) limit db rows)
     /\ (forall status, exists rows,
           get_comments_by_status status limit db = Returned rows
           /\ lists (fun r => sql_eq (col_status r) (TEXT status)) limit db rows)
     /\ (forall key_term, exists rows,
           get_comments_by_key_term key_term limit db = Returned rows
           /\ lists (fun r => sql_eq (col_key_term r) (TEXT key_term)) limit db rows))
    /\ (sqlite_integer limit = false ->
        get_all_comments limit db = Raised OverflowError
        /\ (forall sentiment,
              get_comments_by_sentiment sentiment limit db = Raised OverflowError)
        /\ (forall status,
              get_comments_by_status status limit db = Raised OverflowError)
        /\ (forall key_term,
              get_comments_by_key_term key_term limit db = Raised OverflowError)).
Proof.
  intros limit db. split; intros Hfit.
  - split; [|split; [|split]].
    + pose proof (listing (fun _ => true) limit db Hfit) as H.
      now rewrite filter_all in H.
    + intros sentiment.
      exact (listing (fun r => sql_eq (col_sentiment r) (TEXT sentiment)) limit db Hfit).
    + intros status.
      exact (listing (fun r => sql_eq (col_status r) (TEXT status)) limit db Hfit).
    + intros key_term.
      exact (listing (fun r => sql_eq (col_key_term r) (TEXT key_term)) limit db Hfit).
  - repeat split; intros; now apply listing_overflow.
Qed.

(** X17.  [get_recent_comments], given an [hours] whose seconds fit a float
    and a [limit] that fits a 64-bit signed integer, answers with the rows
    whose timestamp is later than [hours] hours before now, arranged newest
    first and cut after [limit] rows; no returned row has a timestamp at
    or before the cutoff, and none has a NULL timestamp.  Given other
    numbers it raises [OverflowError]. *)
Theorem get_recent_comments_answer :
  forall (now : Q) (hours limit : Z) (db : table),
    let cutoff_time := (now - inject_Z (hours * 3600))%Q in
    (Floats.float_overflows (inject_Z (hours * 3600)) = false ->
     sqlite_integer limit = true ->
     exists rows,
       get_recent_comments now hours limit db = Returned rows
       /\ lists (fun r => sql_gt (col_timestamp r) (REAL cutoff_time)) limit db rows
       /\ forall r, In r rows ->
            match col_timestamp r with
            | REAL t => (cutoff_time < t)%Q
            | INTEGER z => (cutoff_time < inject_Z z)%Q
            | TEXT _ => True
            | NULL => False
            end)
    /\ (Floats.float_overflows (inject_Z (hours * 3600)) = true
        \/ sqlite_integer limit = false ->
        get_recent_comments now hours limit db = Raised OverflowError).
Proof.
  intros now hours limit db cutoff_time. unfold get_recent_comments. split.
  - intros Hfloat Hfit. rewrite Hfloat. cbv zeta. fold cutoff_time.
    destruct (listing (fun r => sql_gt (col_timestamp r) (REAL cutoff_time))
                limit db Hfit) as [rows [Hrows Hlists]].
    exists rows. split; [exact Hrows|]. split; [exact Hlists|].
    intros r Hin. destruct (lists_sound _ _ _ _ Hlists r Hin) as [_ Hr].
    unfold sql_gt in Hr.
    destruct (col_timestamp r) as [|s|t|z]; cbn in Hr; try discriminate; [exact I| |].
    + destruct (t ?= cutoff_time)%Q eqn:E; try discriminate. now apply Qgt_alt.
    + destruct (inject_Z z ?= cutoff_time)%Q eqn:E; try discriminate.
      now apply Qgt_alt.
  - intros [Hfloat | Hfit].
    + now rewrite Hfloat.
    + destruct (Floats.float_overflows _); [reflexivity|].
      now apply listing_overflow.
Qed.

(** X18.  The list of comments with a given status, as the approval tab
    reads it with a [limit] that fits a 64-bit signed integer: every row
    listed is a row of the table with that status; the list has as many
    rows as carry the status, up to the limit; it runs from newest to
    oldest; and no row that was cut off is newer than a row that was
    kept. *)
Theorem get_comments_by_status_keeps_the_newest :
  forall (status : string) (limit : Z) (db : table),
    sqlite_integer limit = true ->
    let with_status := List.filter (fun r => sql_eq (col_status r) (TEXT status)) db in
    exists rows,
      get_comments_by_status status limit db = Returned rows
      /\ (forall r, In r rows -> In r db /\ col_status r = TEXT status)
      /\ List.length rows
         = (if (limit <? 0)%Z then List.length with_status
            else Nat.min (Z.to_nat limit) (List.length with_status))
      /\ StronglySorted not_older rows
      /\ exists dropped,
           Permutation (rows ++ dropped) with_status
           /\ forall kept cut, In kept rows -> In cut dropped -> not_older kept cut.
Proof.
  intros status limit db Hfit with_status.
  destruct (listing (fun r => sql_eq (col_status r) (TEXT status)) limit db Hfit)
    as [rows [Hrows H]].
  exists rows. split; [exact Hrows|]. split; [|split].
  - intros r Hin. destruct (lists_sound _ _ _ _ H r Hin) as [Hdb Hr].
    split; [exact Hdb|]. now apply sql_eq_text.
  - exact (lists_length _ _ _ _ H).
  - exact (lists_keeps_newest _ _ _ _ H).
Qed.

Lemma get_comments_by_status_keeps_the_newest_witness :
  let db := [new_row (sample_add "uuid-1" "abc123" "pending_approval");
             new_row (mk_add "uuid-2" 20 21 (sample_comment "def456") "acme" "negative"
                        (9 # 10) None "pending_approval" false None);
             new_row (sample_add "uuid-3" "ghi789" "approved")] in
  let with_status :=
    List.filter (fun r => sql_eq (col_status r) (TEXT "pending_approval")) db in
  exists rows,
    get_comments_by_status "pending_approval" 1 db = Returned rows
    /\ (forall r, In r rows -> In r db /\ col_status r = TEXT "pending_approval")
    /\ List.length rows
       = (if (1 <? 0)%Z then List.length with_status
          else Nat.min (Z.to_nat 1) (List.length with_status))
    /\ StronglySorted not_older rows
    /\ exists dropped,
         Permutation (rows ++ dropped) with_status
         /\ forall kept cut, In kept rows -> In cut dropped -> not_older kept cut.
Proof.
  apply (get_comments_by_status_keeps_the_newest "pending_approval" 1
           [new_row (sample_add "uuid-1" "abc123" "pending_approval");
            new_row (mk_add "uuid-2" 20 21 (sample_comment "def456") "acme" "negative"
                       (9 # 10) None "pending_approval" false None);
            new_row (sample_add "uuid-3" "ghi789" "approved")]).
  reflexivity.
Defined.

(** Three rows, two of them pending: with a limit of 1 the newer pending
    row is listed, and a limit of [2 ** 63] is refused. *)
Example get_comments_by_status_example :
  let db := [new_row (sample_add "uuid-1" "abc123" "pending_approval");
             new_row (mk_add "uuid-2" 20 21 (sample_comment "def456") "acme" "negative"
                        (9 # 10) None "pending_approval" false None);
             new_row (sample_add "uuid-3" "ghi789" "approved")] in
  (map col_id <$> match get_comments_by_status "pending_approval" 1 db with
                  | Returned rows => Some rows
                  | Raised _ => None
                  end) = Some [TEXT "uuid-2"]
  /\ get_comments_by_status "pending_approval" (2 ^ 63) db = Raised OverflowError
  /\ get_comments_by_status "pending_approval" (2 ^ 63 - 1) db
     = get_comments_by_status "pending_approval" (-1) db.
Proof. repeat split. Qed.

Module MonitorFacts.
Import Text TextFacts CommentDb CommentDbFacts StorageFacts.
Import SentimentWorkflow Monitoring WorkflowFacts.

(** The result of the first run when a draft comes out of it: the comment
    was classified negative and the drafter gave a non-empty text, or
    raised, in which case the fixed text stands in. *)
Lemma process_comment_drafted (cl : classifier) (dr : drafter) (now later : Q)
    (comment : comment_data) (dir : gmap string CommentState)
    (analysis : SentimentResult) (d : string) :
  sentiment_result (analyze_sentiment cl now (initial_state comment)) = Some analysis ->
  sentiment analysis = "negative" ->
  (dr (analyze_sentiment cl now (initial_state comment)) = Ok (Some d)
   /\ Text.truthy d = true)
  \/ (exists error, dr (analyze_sentiment cl now (initial_state comment)) = Fails error
                    /\ d = boilerplate) ->
  SentimentWorkflow.process_comment cl dr now later comment dir
  = (mk_result (cd_id comment) (Some analysis) (Some d) None None
       (analyzed_at (analyze_sentiment cl now (initial_state comment))) None,
     save_state (cd_id comment) (initial_state comment) dir).
Proof.
  intros Ha Hneg Hd.
  destruct (analyze_sentiment_sets cl now (initial_state comment)) as [r0 Hset].
  unfold SentimentWorkflow.process_comment, ainvoke, generate_response.
  rewrite Ha, Hneg, String.eqb_refl. cbn [negb].
  assert (Htruthy : Text.truthy d = true).
  { destruct Hd as [[_ H] | [error [_ ->]]]; [exact H|reflexivity]. }
  assert (Hgen : match dr (analyze_sentiment cl now (initial_state comment)) with
                 | Ok response =>
                     Continue (set_response_draft response
                                 (analyze_sentiment cl now (initial_state comment)))
                 | Fails _ =>
                     Continue (set_response_draft (Some boilerplate)
                                 (analyze_sentiment cl now (initial_state comment)))
                 end
                 = Continue (set_response_draft (Some d)
                               (analyze_sentiment cl now (initial_state comment)))).
  { destruct Hd as [[-> _] | [error [-> ->]]]; reflexivity. }
  rewrite Hgen. unfold human_approval.
  cbn [response_draft set_response_draft Text.truthy_opt].
  rewrite Htruthy. cbn [negb]. unfold finalize_response.
  cbn [human_approved set_human_approved response_draft set_response_draft
       final_response sentiment_result analyzed_at comment_id Text.truthy_opt].
  rewrite Htruthy, Ha. rewrite Hset. reflexivity.
Qed.

(** The result of the first run when no draft comes out of it. *)
Lemma process_comment_undrafted (cl : classifier) (dr : drafter) (now later : Q)
    (comment : comment_data) (dir : gmap string CommentState) :
  sentiment <$> sentiment_result (analyze_sentiment cl now (initial_state comment))
    <> Some "negative"
  \/ dr (analyze_sentiment cl now (initial_state comment)) = Ok None
  \/ dr (analyze_sentiment cl now (initial_state comment)) = Ok (Some "") ->
  SentimentWorkflow.process_comment cl dr now later comment dir
  = (mk_result (cd_id comment)
       (Some (mk_sentiment "non-negative" 0
                (Some "Comment was determined to be non-negative")))
       None None None (Some later) None,
     dir).
Proof.
  intros [H | H]; [now apply process_comment_not_negative|].
  unfold SentimentWorkflow.process_comment, ainvoke, generate_response.
  destruct (sentiment_result (analyze_sentiment cl now (initial_state comment)))
    as [analysis|]; [|reflexivity].
  destruct (negb (String.eqb (sentiment analysis) "negative")); [reflexivity|].
  destruct H as [-> | ->]; reflexivity.
Qed.

(** Every first run is of one of the two kinds. *)
Lemma process_comment_cases (cl : classifier) (dr : drafter) (now later : Q)
    (comment : comment_data) (dir : gmap string CommentState) :
  (exists analysis d,
     sentiment_result (analyze_sentiment cl now (initial_state comment)) = Some analysis
     /\ sentiment analysis = "negative"
     /\ Text.truthy d = true
     /\ SentimentWorkflow.process_comment cl dr now later comment dir
        = (mk_result (cd_id comment) (Some analysis) (Some d) None None
             (analyzed_at (analyze_sentiment cl now (initial_state comment))) None,
           save_state (cd_id comment) (initial_state comment) dir))
  \/ SentimentWorkflow.process_comment cl dr now later comment dir
     = (mk_result (cd_id comment)
          (Some (mk_sentiment "non-negative" 0
                   (Some "Comment was determined to be non-negative")))
          None None None (Some later) None,
        dir).
Proof.
  destruct (sentiment_result (analyze_sentiment cl now (initial_state comment)))
    as [analysis|] eqn:Ha.
  - destruct (String.eqb (sentiment analysis) "negative") eqn:E.
    + apply String.eqb_eq in E.
      destruct (dr (analyze_sentiment cl now (initial_state comment)))
        as [[d|]|error] eqn:Hd.
      * destruct (Text.truthy d) eqn:Ht.
        -- left. exists analysis, d. repeat split; try assumption.
           apply process_comment_drafted; auto.
        -- right. apply process_comment_undrafted. right. right.
           destruct d; [exact Hd|discriminate].
      * right. apply process_comment_undrafted. auto.
      * left. exists analysis, boilerplate. repeat split; try assumption.
        apply process_comment_drafted; eauto.
    + right. apply process_comment_undrafted. left. rewrite Ha. cbn.
      apply String.eqb_neq in E. congruence.
  - right. apply process_comment_undrafted. left. rewrite Ha. discriminate.
Qed.

(** The monitor on a comment whose first run gave a draft. *)
Lemma monitor_drafted (sv : services) (self : RedditMonitor)
    (comment : comment_data) (w : world) (analysis : SentimentResult)
    (d : string) (t : option Q) (dir' : gmap string CommentState) :
  SentimentWorkflow.process_comment (the_classifier sv) (the_drafter sv)
    (time_analysis sv) (time_handler sv) comment (workflow_states w)
  = (mk_result (cd_id comment) (Some analysis) (Some d) None None t None, dir') ->
  sentiment analysis = "negative" ->
  Text.truthy d = true ->
  exists i db1,
    add_comment
      (mk_add (uuid4 sv) (time_insert sv) (time_update sv) comment (key_term self)
         (sentiment analysis) (confidence analysis) (Some d) "pending_approval"
         false None) (comments w) = Returned (i, db1)
    /\ process_comment sv self comment w
       = (Analysed (mk_result (cd_id comment) (Some analysis) (Some d) None None t None),
          mk_world
            (match send_alert sv (mk_alert (email self) comment analysis d) with
             | Ok true =>
                 map (fun r => if sql_eq (col_id r) (TEXT (cd_id comment))
                               then assign [("email_sent", INTEGER 1);
                                            ("email_recipient", TEXT (email self))] r
                               else r) db1
             | _ => db1
             end)
            dir' (alerts w ++ [mk_alert (email self) comment analysis d])%list
            (posts w)).
Proof.
  intros Hrun Hneg Ht.
  destruct (add_comment_returns
              (mk_add (uuid4 sv) (time_insert sv) (time_update sv) comment
                 (key_term self) (sentiment analysis) (confidence analysis) (Some d)
                 "pending_approval" false None) (comments w)) as [i [db1 Hadd]].
  exists i, db1. split; [exact Hadd|].
  unfold process_comment. rewrite Hrun.
  cbn [fst snd res_sentiment res_response_draft comments workflow_states alerts posts].
  rewrite Hadd. cbn [snd comments workflow_states alerts posts].
  rewrite Hneg, String.eqb_refl, Ht. cbn [andb].
  destruct (send_alert sv _) as [[|]|]; reflexivity.
Qed.

(** The monitor on a comment whose first run gave no draft. *)
Lemma monitor_undrafted (sv : services) (self : RedditMonitor)
    (comment : comment_data) (w : world) (analysis : SentimentResult)
    (t : option Q) (dir' : gmap string CommentState) :
  SentimentWorkflow.process_comment (the_classifier sv) (the_drafter sv)
    (time_analysis sv) (time_handler sv) comment (workflow_states w)
  = (mk_result (cd_id comment) (Some analysis) None None None t None, dir') ->
  exists i db1,
    add_comment
      (mk_add (uuid4 sv) (time_insert sv) (time_update sv) comment (key_term self)
         (sentiment analysis) (confidence analysis) None "pending_approval"
         false None) (comments w) = Returned (i, db1)
    /\ process_comment sv self comment w
       = (Analysed (mk_result (cd_id comment) (Some analysis) None None None t None),
          mk_world db1 dir' (alerts w) (posts w)).
Proof.
  intros Hrun.
  destruct (add_comment_returns
              (mk_add (uuid4 sv) (time_insert sv) (time_update sv) comment
                 (key_term self) (sentiment analysis) (confidence analysis) None
                 "pending_approval" false None) (comments w)) as [i [db1 Hadd]].
  exists i, db1. split; [exact Hadd|].
  unfold process_comment. rewrite Hrun.
  cbn [fst snd res_sentiment res_response_draft comments workflow_states alerts posts].
  rewrite Hadd. reflexivity.
Qed.

(** After [add_comment], the rows carrying the comment's natural id hold
    what was passed, and no internal id is new but the uuid. *)
Lemma add_comment_rows (a : add_args) (db : table) (i : sqlval) (db' : table) :
  add_comment a db = Returned (i, db') ->
  (forall row, In row db' -> col_comment_id row = TEXT (cd_id (a_comment a)) ->
     col_sentiment row = TEXT (a_sentiment a)
     /\ col_confidence row = REAL (a_confidence a)
     /\ col_ai_response row = opt_text (a_ai_response a)
     /\ col_status row = TEXT (a_status a)
     /\ col_email_sent row = INTEGER (if a_email_sent a then 1 else 0)
     /\ col_email_recipient row = opt_text (a_email_recipient a))
  /\ (forall k, has_id k db' = true -> has_id k db = true \/ k = a_uuid4 a)
  /\ exists extra, map col_comment_id db' = (map col_comment_id db ++ extra)%list.
Proof.
  intros H. destruct (existsb (conflicts (new_row a)) db) eqn:E.
  - rewrite (add_comment_updates a db E) in H. injection H as _ <-.
    split; [|split].
    + intros row Hin Hrow. apply in_map_iff in Hin. destruct Hin as [x [<- Hx]].
      unfold same_natural_id in *.
      destruct (sql_eq (col_comment_id x) (TEXT (cd_id (a_comment a)))) eqn:Ex.
      * cbn. repeat split.
      * apply sql_eq_text in Hrow. congruence.
    + intros k Hk. left. unfold has_id in *. rewrite existsb_exists in *.
      destruct Hk as [row [Hin Hrow]]. apply in_map_iff in Hin.
      destruct Hin as [x [<- Hx]]. exists x. split; [exact Hx|].
      now destruct (same_natural_id a x).
    + exists []. rewrite app_nil_r, map_map. apply map_ext.
      intros x. now destruct (same_natural_id a x).
  - rewrite (add_comment_inserts a db E) in H. injection H as _ <-.
    split; [|split].
    + intros row Hin Hrow. apply in_app_or in Hin. destruct Hin as [Hin | [<- | []]].
      * exfalso. rewrite <- Bool.not_true_iff_false in E. apply E.
        apply existsb_exists. exists row. split; [exact Hin|].
        unfold conflicts. cbn [new_row col_comment_id]. rewrite Hrow. cbn.
        rewrite String.eqb_refl. apply orb_true_r.
      * cbn. repeat split.
    + intros k Hk. unfold has_id in *. rewrite existsb_app in Hk.
      apply orb_true_iff in Hk. destruct Hk as [Hk | Hk]; [now left|].
      right. cbn in Hk. rewrite orb_false_r in Hk.
      apply String.eqb_eq in Hk. congruence.
    + exists [col_comment_id (new_row a)]. apply map_app.
Qed.

Lemma mark_rows_keep (comment_id : string) (sets : list (string * sqlval))
    (db : table) :
  (forall r, col_id (assign sets r) = col_id r
             /\ col_comment_id (assign sets r) = col_comment_id r) ->
  map col_id (map (fun r => if sql_eq (col_id r) (TEXT comment_id)
                            then assign sets r else r) db) = map col_id db
  /\ map col_comment_id (map (fun r => if sql_eq (col_id r) (TEXT comment_id)
                                       then assign sets r else r) db)
     = map col_comment_id db.
Proof.
  intros H. rewrite !map_map. split; apply map_ext; intros r;
    destruct (sql_eq (col_id r) (TEXT comment_id)); try reflexivity; apply H.
Qed.

Lemma has_id_map (k : string) (db : table) :
  has_id k db = existsb (fun v => sql_eq v (TEXT k)) (map col_id db).
Proof.
  unfold has_id. induction db as [|r db IH]; [reflexivity|]. cbn. now rewrite IH.
Qed.

Lemma existsb_ids (p : sqlval -> bool) (db : table) :
  existsb (fun x => p (col_comment_id x)) db = existsb p (map col_comment_id db).
Proof. induction db as [|r db IH]; [reflexivity|]. cbn. now rewrite IH. Qed.

Lemma stored_ids (s : string) (db : table) :
  stored s db = existsb (fun v => sql_eq v (TEXT s)) (map col_comment_id db).
Proof.
  unfold stored. induction db as [|r db IH]; [reflexivity|]. cbn. now rewrite IH.
Qed.

(** The existence check reads the natural ids only, and rows that come on
    top never turn a yes into a no. *)
Lemma comment_exists_more (db db' : table) (extra : list sqlval) (r : string) :
  map col_comment_id db' = (map col_comment_id db ++ extra)%list ->
  comment_exists r db = Returned true -> comment_exists r db' = Returned true.
Proof.
  intros Hids. rewrite !comment_exists_probes. intros [= H]. f_equal.
  assert (Hmore : forall p, existsb (fun x => p (col_comment_id x)) db = true ->
                            existsb (fun x => p (col_comment_id x)) db' = true).
  { intros p Hp. rewrite existsb_ids in *. rewrite Hids, existsb_app, Hp.
    reflexivity. }
  unfold stored in *.
  rewrite andb_true_iff, !orb_true_iff in *.
  destruct H as [Ht H]. split; [exact Ht|].
  destruct H as [[H | H] | H].
  - left; left. exact (Hmore (fun v => sql_eq v (TEXT r)) H).
  - left; right.
    destruct (startswith "t1_" r); rewrite andb_true_iff in *;
      destruct H as [Hn H]; (split; [exact Hn|]).
    + exact (Hmore (fun v => sql_eq v (TEXT (drop 3 r))) H).
    + exact (Hmore (fun v => sql_eq v (TEXT ("t1_" ++ r))) H).
  - right. exact (Hmore (fun v => sql_like v _) H).
Qed.

(** The table the monitor leaves: the one [add_comment] gave, with the
    same ids row by row, and the very same table unless some row's internal
    id is the comment's natural id. *)
Lemma monitor_table (sv : services) (self : RedditMonitor)
    (comment : comment_data) (w : world) :
  exists a i db1,
    add_comment a (comments w) = Returned (i, db1)
    /\ a_uuid4 a = uuid4 sv
    /\ a_comment a = comment
    /\ a_email_sent a = false
    /\ a_email_recipient a = None
    /\ res_sentiment
         (fst (SentimentWorkflow.process_comment (the_classifier sv) (the_drafter sv)
                 (time_analysis sv) (time_handler sv) comment (workflow_states w)))
       = Some (mk_sentiment (a_sentiment a) (a_confidence a)
                 (explanation
                    (default (mk_sentiment "" 0 None)
                       (res_sentiment
                          (fst (SentimentWorkflow.process_comment (the_classifier sv)
                                  (the_drafter sv) (time_analysis sv) (time_handler sv)
                                  comment (workflow_states w)))))))
    /\ a_ai_response a
       = res_response_draft
           (fst (SentimentWorkflow.process_comment (the_classifier sv) (the_drafter sv)
                   (time_analysis sv) (time_handler sv) comment (workflow_states w)))
    /\ map col_id (comments (snd (process_comment sv self comment w))) = map col_id db1
    /\ map col_comment_id (comments (snd (process_comment sv self comment w)))
       = map col_comment_id db1
    /\ (has_id (cd_id comment) db1 = false ->
        comments (snd (process_comment sv self comment w)) = db1).
Proof.
  destruct (process_comment_cases (the_classifier sv) (the_drafter sv)
              (time_analysis sv) (time_handler sv) comment (workflow_states w))
    as [[analysis [d [Ha [Hneg [Ht Hrun]]]]] | Hrun].
  - destruct (monitor_drafted sv self comment w analysis d _ _ Hrun Hneg Ht)
      as [i [db1 [Hadd Hp]]].
    eexists. exists i, db1. split; [exact Hadd|]. rewrite Hp, Hrun.
    cbn [fst snd comments a_uuid4 a_comment a_email_sent a_email_recipient
         res_sentiment res_response_draft a_sentiment a_confidence a_ai_response
         default explanation].
    repeat split.
    + now destruct analysis.
    + destruct (send_alert sv _) as [[|]|]; try reflexivity.
      now apply mark_rows_keep.
    + destruct (send_alert sv _) as [[|]|]; try reflexivity.
      now apply mark_rows_keep.
    + intros Hno. destruct (send_alert sv _) as [[|]|]; try reflexivity.
      now apply map_unhit.
  - destruct (monitor_undrafted sv self comment w _ _ _ Hrun) as [i [db1 [Hadd Hp]]].
    eexists. exists i, db1. split; [exact Hadd|]. rewrite Hp, Hrun.
    cbn [fst snd comments a_uuid4 a_comment a_email_sent a_email_recipient
         res_sentiment res_response_draft a_sentiment a_confidence a_ai_response
         default explanation sentiment confidence].
    repeat split.
Qed.

(** The approval handler posts nothing unless the decision is an approval,
    a state is on file under the id, and a row carries the id as its
    internal id. *)
Lemma handle_posts_unchanged (sv : services) (comment_id : string)
    (approved : bool) (w : world) :
  approved = false
  \/ has_id comment_id (comments w) = false
  \/ load_state comment_id (workflow_states w) = None ->
  posts (snd (handle_response_approval sv comment_id approved w)) = posts w.
Proof.
  intros H. unfold handle_response_approval.
  destruct (fst (resume_workflow_after_approval _ _ _ _ _)) as [final_state|] eqn:E;
    [|reflexivity].
  rewrite update_comment_approval_no_such_column. cbn [comments posts].
  destruct approved; [|reflexivity].
  destruct (res_final_response final_state) as [text|]; [|reflexivity].
  destruct (truthy text); [|reflexivity].
  destruct H as [H | [H | H]]; [discriminate| |].
  - rewrite get_comment_filter.
    unfold has_id in H. rewrite <- fetchone_filter in H.
    destruct (fetchone _); [discriminate|reflexivity].
  - unfold resume_workflow_after_approval in E. rewrite H in E. discriminate.
Qed.

(** When nothing is on file under the id, the handler reports failure and
    changes nothing. *)
Lemma handle_without_state (sv : services) (comment_id : string)
    (approved : bool) (w : world) :
  load_state comment_id (workflow_states w) = None ->
  handle_response_approval sv comment_id approved w = (false, w).
Proof.
  intros H. unfold handle_response_approval, resume_workflow_after_approval.
  now rewrite H.
Qed.

(** The loop skips what is already known. *)
Lemma process_batch_known (self : RedditMonitor)
    (collected : list (services * comment_data)) (acc : list processed) (w : world) :
  (forall item, In item collected ->
     comment_exists (cd_id (snd item)) (comments w) = Returned true) ->
  process_batch self collected acc w = (acc, w).
Proof.
  induction collected as [|[sv comment] rest IH]; intros H; [reflexivity|].
  cbn [process_batch].
  pose proof (H (sv, comment) (or_introl eq_refl)) as H0. cbn [snd] in H0.
  rewrite H0.
  apply IH. intros item Hin. apply H. now right.
Qed.

Lemma monitor_makes_known (sv : services) (self : RedditMonitor)
    (comment : comment_data) (w : world) :
  cd_id comment <> "" ->
  has_id (uuid4 sv) (comments w) = false ->
  comment_exists (cd_id comment) (comments (snd (process_comment sv self comment w)))
  = Returned true.
Proof.
  intros Hne Hfresh.
  destruct (monitor_table sv self comment w)
    as [a [i [db1 [Hadd [Hu [Hc [_ [_ [_ [_ [_ [Hids _]]]]]]]]]]]].
  destruct (add_comment_writes a (comments w)) as [i' [db' [row [Hadd' [Hin [Hrow _]]]]]].
  { intros x Hx. rewrite Hu. unfold has_id in Hfresh.
    destruct (sql_eq (col_id x) (TEXT (uuid4 sv))) eqn:E; [|reflexivity].
    rewrite <- Bool.not_true_iff_false in Hfresh. exfalso. apply Hfresh.
    apply existsb_exists. eauto. }
  rewrite Hadd in Hadd'. injection Hadd' as _ <-.
  apply comment_exists_variant with (cd_id comment); [|now left|exact Hne].
  rewrite stored_ids, Hids, <- stored_ids.
  unfold stored. apply existsb_exists. exists row. split; [exact Hin|].
  rewrite Hrow, Hc. cbn. apply String.eqb_refl.
Qed.

Lemma monitor_ids (sv : services) (self : RedditMonitor)
    (comment : comment_data) (w : world) :
  (forall k, has_id k (comments (snd (process_comment sv self comment w))) = true ->
             has_id k (comments w) = true \/ k = uuid4 sv)
  /\ exists extra,
       map col_comment_id (comments (snd (process_comment sv self comment w)))
       = (map col_comment_id (comments w) ++ extra)%list.
Proof.
  destruct (monitor_table sv self comment w)
    as [a [i [db1 [Hadd [Hu [Hc [_ [_ [_ [_ [Hid [Hids _]]]]]]]]]]]].
  destruct (add_comment_rows a (comments w) i db1 Hadd) as [_ [Hk Hextra]].
  split.
  - intros k H. rewrite has_id_map, Hid, <- has_id_map in H.
    rewrite <- Hu. now apply Hk.
  - destruct Hextra as [extra He]. exists extra. now rewrite Hids.
Qed.

(** One pass of the loop: what was known stays known, and every comment
    presented is known at the end. *)
Lemma process_batch_learns (self : RedditMonitor)
    (collected : list (services * comment_data)) :
  forall (acc : list processed) (w : world),
    (forall item, In item collected -> cd_id (snd item) <> "") ->
    List.NoDup (map (fun item => uuid4 (fst item)) collected) ->
    (forall item, In item collected ->
       has_id (uuid4 (fst item)) (comments w) = false) ->
    (exists extra,
       map col_comment_id (comments (snd (process_batch self collected acc w)))
       = (map col_comment_id (comments w) ++ extra)%list)
    /\ forall item, In item collected ->
         comment_exists (cd_id (snd item))
           (comments (snd (process_batch self collected acc w))) = Returned true.
Proof.
  induction collected as [|[sv comment] rest IH]; intros acc w Hne Hnd Hfresh.
  - split; [exists []; now rewrite app_nil_r | intros ? []].
  - cbn [process_batch].
    cbn [map fst] in Hnd. apply List.NoDup_cons_iff in Hnd. destruct Hnd as [Hnotin Hnd].
    destruct (comment_exists_returns (cd_id comment) (comments w)) as [b Hb].
    rewrite Hb. destruct b.
    + destruct (IH acc w) as [[extra He] Hall]; auto.
      { intros item Hin. apply Hne. now right. }
      { intros item Hin. apply Hfresh. now right. }
      split; [eauto|].
      intros item [<- | Hin]; [|now apply Hall].
      cbn [snd]. now apply comment_exists_more with (comments w) extra.
    + destruct (monitor_ids sv self comment w) as [Hk [extra1 He1]].
      destruct (IH (acc ++ [fst (process_comment sv self comment w)])%list
                   (snd (process_comment sv self comment w)))
        as [[extra He] Hall].
      { intros item Hin. apply Hne. now right. }
      { exact Hnd. }
      { intros item Hin.
        destruct (has_id (uuid4 (fst item))
                    (comments (snd (process_comment sv self comment w)))) eqn:E;
          [|reflexivity].
        apply Hk in E. destruct E as [E | E].
        - rewrite (Hfresh item (or_intror Hin)) in E. discriminate.
        - exfalso. apply Hnotin. apply in_map_iff. exists item. split; auto. }
      split.
      * exists (extra1 ++ extra)%list. rewrite He, He1. symmetry. apply app_assoc.
      * intros item [<- | Hin]; [|now apply Hall].
        cbn [snd].
        apply comment_exists_more
          with (comments (snd (process_comment sv self comment w))) extra;
          [exact He|].
        apply monitor_makes_known.
        -- apply (Hne (sv, comment)). now left.
        -- apply (Hfresh (sv, comment)). now left.
Qed.

End MonitorFacts.

Import Text TextFacts CommentDb CommentDbFacts StorageFacts.
Import SentimentWorkflow Monitoring WorkflowFacts MonitorFacts Samples.

(** X19.  The first run of the workflow never finalizes.  Whatever the
    classifier and the drafter do, the graph raising only when a node
    returns [END], the result carries the comment's id and a sentiment, no
    decision and no final response; a state is put on file under the
    comment's id exactly when the result carries a non-empty draft, which
    happens only for a comment classified negative; without a draft the
    reported sentiment is [non-negative] with confidence 0. *)
Theorem first_run_outcomes :
  forall (cl : classifier) (dr : drafter) (now later : Q) (comment : comment_data)
         (dir : gmap string CommentState),
    let r := SentimentWorkflow.process_comment cl dr now later comment dir in
    res_comment_id (fst r) = cd_id comment
    /\ res_human_approved (fst r) = None
    /\ res_final_response (fst r) = None
    /\ res_error (fst r) = None
    /\ snd r = (if Text.truthy_opt (res_response_draft (fst r))
                then save_state (cd_id comment) (initial_state comment) dir
                else dir)
    /\ (Text.truthy_opt (res_response_draft (fst r)) = true ->
        res_sentiment (fst r)
        = sentiment_result (analyze_sentiment cl now (initial_state comment))
        /\ sentiment <$> res_sentiment (fst r) = Some "negative")
    /\ (Text.truthy_opt (res_response_draft (fst r)) = false ->
        res_response_draft (fst r) = None
        /\ res_sentiment (fst r)
           = Some (mk_sentiment "non-negative" 0
                     (Some "Comment was determined to be non-negative"))).
Proof.
  intros cl dr now later comment dir r. subst r.
  destruct (process_comment_cases cl dr now later comment dir)
    as [[analysis [d [Ha [Hneg [Ht Hrun]]]]] | Hrun]; rewrite Hrun;
    cbn [fst snd res_comment_id res_human_approved res_final_response res_error
         res_response_draft res_sentiment Text.truthy_opt].
  - rewrite Ht. repeat split; try discriminate.
    + now rewrite Ha.
    + cbn. now rewrite Hneg.
  - repeat split; discriminate.
Qed.

(** X20.  A comment classified negative for which a draft comes out, the
    drafter's non-empty text or, when the drafter raises, the fixed text,
    makes the monitor issue exactly one alert, to the monitor's address
    and with that draft, put the state on file, post nothing, and leave the
    draft, the sentiment and the status [pending_approval] in every row
    that carries the comment's id; none of this depends on what the mailer
    answers. *)
Theorem negative_comment_alerts_once :
  forall (sv : services) (self : RedditMonitor) (comment : comment_data) (w : world)
         (analysis : SentimentResult) (d : string),
    sentiment_result
      (analyze_sentiment (the_classifier sv) (time_analysis sv) (initial_state comment))
    = Some analysis ->
    sentiment analysis = "negative" ->
    (the_drafter sv
       (analyze_sentiment (the_classifier sv) (time_analysis sv) (initial_state comment))
     = Ok (Some d) /\ Text.truthy d = true)
    \/ (exists error,
          the_drafter sv
            (analyze_sentiment (the_classifier sv) (time_analysis sv)
               (initial_state comment)) = Fails error
          /\ d = boilerplate) ->
    let r := process_comment sv self comment w in
    (exists result,
       fst r = Analysed result
       /\ res_sentiment result = Some analysis
       /\ res_response_draft result = Some d
       /\ res_human_approved result = None)
    /\ load_state (cd_id comment) (workflow_states (snd r)) = Some (initial_state comment)
    /\ alerts (snd r) = (alerts w ++ [mk_alert (email self) comment analysis d])%list
    /\ posts (snd r) = posts w
    /\ forall row, In row (comments (snd r)) ->
         col_comment_id row = TEXT (cd_id comment) ->
         col_ai_response row = TEXT d
         /\ col_sentiment row = TEXT "negative"
         /\ col_status row = TEXT "pending_approval".
Proof.
  intros sv self comment w analysis d Ha Hneg Hd r. subst r.
  pose proof (process_comment_drafted (the_classifier sv) (the_drafter sv)
                (time_analysis sv) (time_handler sv) comment (workflow_states w)
                analysis d Ha Hneg Hd) as Hrun.
  assert (Ht : Text.truthy d = true).
  { destruct Hd as [[_ H] | [error [_ ->]]]; [exact H|reflexivity]. }
  destruct (monitor_drafted sv self comment w analysis d _ _ Hrun Hneg Ht)
    as [i [db1 [Hadd Hp]]].
  rewrite Hp. cbn [fst snd workflow_states alerts posts comments].
  split; [eexists; repeat split|]. split.
  { unfold load_state, save_state. apply lookup_insert_eq. }
  split; [reflexivity|]. split; [reflexivity|].
  destruct (add_comment_rows _ _ _ _ Hadd) as [Hrows _].
  cbn [a_comment a_sentiment a_confidence a_ai_response a_status a_email_sent
       a_email_recipient opt_text] in Hrows.
  rewrite Hneg in Hrows.
  assert (Hdb1 : forall row, In row db1 -> col_comment_id row = TEXT (cd_id comment) ->
            col_ai_response row = TEXT d /\ col_sentiment row = TEXT "negative"
            /\ col_status row = TEXT "pending_approval").
  { intros row Hin Hrow. destruct (Hrows row Hin Hrow) as [H1 [_ [H3 [H4 _]]]]. auto. }
  intros row Hin Hrow.
  destruct (send_alert sv _) as [[|]|]; try (now apply Hdb1).
  apply in_map_iff in Hin. destruct Hin as [x [<- Hx]].
  destruct (sql_eq (col_id x) (TEXT (cd_id comment))); [|now apply Hdb1].
  cbn in *. now apply Hdb1.
Qed.

Lemma negative_comment_alerts_once_witness :
  let analysis := mk_sentiment "negative" (9 # 10) (Some "a complaint") in
  let r := process_comment unlucky_services acme scenario_a empty_world in
  (exists result,
     fst r = Analysed result
     /\ res_sentiment result = Some analysis
     /\ res_response_draft result = Some boilerplate
     /\ res_human_approved result = None)
  /\ load_state (cd_id scenario_a) (workflow_states (snd r))
     = Some (initial_state scenario_a)
  /\ alerts (snd r)
     = (alerts empty_world
        ++ [mk_alert (email acme) scenario_a analysis boilerplate])%list
  /\ posts (snd r) = posts empty_world
  /\ forall row, In row (comments (snd r)) ->
       col_comment_id row = TEXT (cd_id scenario_a) ->
       col_ai_response row = TEXT boilerplate
       /\ col_sentiment row = TEXT "negative"
       /\ col_status row = TEXT "pending_approval".
Proof.
  apply (negative_comment_alerts_once unlucky_services acme scenario_a empty_world
           (mk_sentiment "negative" (9 # 10) (Some "a complaint")) boilerplate).
  - reflexivity.
  - reflexivity.
  - right. exists "model unavailable". split; reflexivity.
Defined.

(** X21.  The monitor never sets the email flag of the record it writes.
    When no row's internal id is the comment's natural id, and the fresh
    uuid is not that id either, the table after the monitor handled the
    comment is the one [add_comment] returned, whatever the mailer answered,
    and every row carrying the comment's id has [email_sent] 0 and no
    recipient. *)
Theorem email_flag_is_never_set :
  forall (sv : services) (self : RedditMonitor) (comment : comment_data) (w : world),
    has_id (cd_id comment) (comments w) = false ->
    uuid4 sv <> cd_id comment ->
    let r := process_comment sv self comment w in
    (exists a i,
       add_comment a (comments w) = Returned (i, comments (snd r))
       /\ a_comment a = comment /\ a_uuid4 a = uuid4 sv)
    /\ forall row, In row (comments (snd r)) ->
         col_comment_id row = TEXT (cd_id comment) ->
         col_email_sent row = INTEGER 0 /\ col_email_recipient row = NULL.
Proof.
  intros sv self comment w Hno Hu r. subst r.
  destruct (monitor_table sv self comment w)
    as [a [i [db1 [Hadd [Ha [Hc [Hs [Hr [_ [_ [_ [_ Hsame]]]]]]]]]]]].
  destruct (add_comment_rows a (comments w) i db1 Hadd) as [Hrows [Hk _]].
  assert (Hno1 : has_id (cd_id comment) db1 = false).
  { destruct (has_id (cd_id comment) db1) eqn:E; [|reflexivity].
    apply Hk in E. destruct E as [E | E]; congruence. }
  rewrite (Hsame Hno1). split; [exists a, i; auto|].
  intros row Hin Hrow. rewrite <- Hc in Hrow.
  destruct (Hrows row Hin Hrow) as [_ [_ [_ [_ [H5 H6]]]]].
  now rewrite Hs in H5; rewrite Hr in H6.
Qed.

Lemma email_flag_is_never_set_witness :
  let r := process_comment sample_services acme scenario_a empty_world in
  (exists a i,
     add_comment a (comments empty_world) = Returned (i, comments (snd r))
     /\ a_comment a = scenario_a /\ a_uuid4 a = uuid4 sample_services)
  /\ forall row, In row (comments (snd r)) ->
       col_comment_id row = TEXT (cd_id scenario_a) ->
       col_email_sent row = INTEGER 0 /\ col_email_recipient row = NULL.
Proof.
  apply (email_flag_is_never_set sample_services acme scenario_a empty_world).
  - reflexivity.
  - discriminate.
Defined.

(** X22.  When no draft comes out of the first run, because the comment
    is not classified negative or because the drafter returns nothing or
    the empty text for a negative one, the monitor reports and records the
    sentiment [non-negative] with confidence 0, whatever the classifier
    said; it issues no alert, files no state and posts nothing. *)
Theorem undrafted_comment_is_recorded_non_negative :
  forall (sv : services) (self : RedditMonitor) (comment : comment_data) (w : world),
    classified sv comment <> Some "negative"
    \/ the_drafter sv
         (analyze_sentiment (the_classifier sv) (time_analysis sv)
            (initial_state comment)) = Ok None
    \/ the_drafter sv
         (analyze_sentiment (the_classifier sv) (time_analysis sv)
            (initial_state comment)) = Ok (Some "") ->
    let r := process_comment sv self comment w in
    fst r = Analysed
              (mk_result (cd_id comment)
                 (Some (mk_sentiment "non-negative" 0
                          (Some "Comment was determined to be non-negative")))
                 None None None (Some (time_handler sv)) None)
    /\ workflow_states (snd r) = workflow_states w
    /\ alerts (snd r) = alerts w
    /\ posts (snd r) = posts w
    /\ forall row, In row (comments (snd r)) ->
         col_comment_id row = TEXT (cd_id comment) ->
         col_sentiment row = TEXT "non-negative"
         /\ col_confidence row = REAL 0
         /\ col_ai_response row = NULL.
Proof.
  intros sv self comment w H r. subst r.
  pose proof (process_comment_undrafted (the_classifier sv) (the_drafter sv)
                (time_analysis sv) (time_handler sv) comment (workflow_states w) H)
    as Hrun.
  destruct (monitor_undrafted sv self comment w _ _ _ Hrun) as [i [db1 [Hadd Hp]]].
  rewrite Hp. cbn [fst snd workflow_states alerts posts comments].
  do 4 (split; [reflexivity|]).
  intros row Hin Hrow.
  destruct (add_comment_rows _ _ _ _ Hadd) as [Hrows _].
  destruct (Hrows row Hin Hrow) as [H2 [H3 [H4 _]]]. auto.
Qed.

Lemma undrafted_comment_is_recorded_non_negative_witness :
  let r := process_comment silent_services acme scenario_a empty_world in
  fst r = Analysed
            (mk_result (cd_id scenario_a)
               (Some (mk_sentiment "non-negative" 0
                        (Some "Comment was determined to be non-negative")))
               None None None (Some (time_handler silent_services)) None)
  /\ workflow_states (snd r) = workflow_states empty_world
  /\ alerts (snd r) = alerts empty_world
  /\ posts (snd r) = posts empty_world
  /\ forall row, In row (comments (snd r)) ->
       col_comment_id row = TEXT (cd_id scenario_a) ->
       col_sentiment row = TEXT "non-negative"
       /\ col_confidence row = REAL 0
       /\ col_ai_response row = NULL.
Proof.
  apply (undrafted_comment_is_recorded_non_negative silent_services acme scenario_a
           empty_world).
  right. left. reflexivity.
Defined.

(** X23.  The approval handler reports success exactly when a state is on
    file under the id it is given, whether or not the resumed run, the
    database update or the posting went well; when nothing is on file it
    changes nothing at all. *)
Theorem handle_response_approval_reports :
  forall (sv : services) (comment_id : string) (approved : bool) (w : world),
    let r := handle_response_approval sv comment_id approved w in
    (fst r = true <-> is_Some (load_state comment_id (workflow_states w)))
    /\ (load_state comment_id (workflow_states w) = None -> snd r = w).
Proof.
  intros sv comment_id approved w r. subst r. split.
  - unfold handle_response_approval, resume_workflow_after_approval.
    destruct (load_state comment_id (workflow_states w)) as [state|].
    + split; [eauto|]. intros _.
      destruct (resume_invoke sv _) as [final_state|error]; cbn [fst snd];
        rewrite update_comment_approval_no_such_column; cbn [comments];
        rewrite get_comment_filter;
        destruct approved; try reflexivity.
      * destruct (res_final_response _) as [text|]; [|reflexivity].
        destruct (Text.truthy text); [|reflexivity].
        destruct (fetchone _); reflexivity.
      * destruct (res_final_response _) as [text|]; [|reflexivity].
        destruct (Text.truthy text); [|reflexivity].
        destruct (fetchone _); reflexivity.
    + cbn. split; [discriminate|]. intros [? H]. discriminate.
  - intros H. now rewrite handle_without_state.
Qed.

(** X24.  The approval handler posts at most one reply, and what it posts
    is fixed by the resumed run.  On an approval for which
    [resume_workflow_after_approval] returns a result with a non-empty
    final response, and with a row whose internal id is the id the handler
    was given, it posts that final response to the natural id of that row.
    In every other case, a rejection, no state on file, no final response
    or an empty one, no such row, it posts nothing. *)
Theorem handle_response_approval_posts :
  forall (sv : services) (comment_id : string) (approved : bool) (w : world),
    let resumed :=
      fst (resume_workflow_after_approval (resume_invoke sv) (time_handler sv)
             comment_id approved (workflow_states w)) in
    let r := handle_response_approval sv comment_id approved w in
    (forall final_state text row,
       approved = true ->
       resumed = Some final_state ->
       res_final_response final_state = Some text ->
       text <> "" ->
       get_comment comment_id (comments w) = Returned (Some row) ->
       posts (snd r) = (posts w ++ [mk_post (col_comment_id row) text])%list)
    /\ (approved = false
        \/ has_id comment_id (comments w) = false
        \/ load_state comment_id (workflow_states w) = None
        \/ (exists final_state,
              resumed = Some final_state
              /\ Text.truthy_opt (res_final_response final_state) = false) ->
        posts (snd r) = posts w)
    /\ (posts (snd r) = posts w
        \/ exists final_state text row,
             approved = true
             /\ resumed = Some final_state
             /\ res_final_response final_state = Some text
             /\ text <> ""
             /\ get_comment comment_id (comments w) = Returned (Some row)
             /\ col_id row = TEXT comment_id
             /\ posts (snd r) = (posts w ++ [mk_post (col_comment_id row) text])%list).
Proof.
  intros sv comment_id approved w resumed r. subst resumed r.
  unfold handle_response_approval.
  destruct (fst (resume_workflow_after_approval (resume_invoke sv) (time_handler sv)
                   comment_id approved (workflow_states w)))
    as [final_state|] eqn:Eres.
  - rewrite update_comment_approval_no_such_column. cbn [comments posts].
    split; [|split].
    + intros fs text row -> [= <-] Hfinal Hne Hrow.
      rewrite Hfinal. apply truthy_nonempty in Hne. rewrite Hne, Hrow. reflexivity.
    + intros [-> | [Hno | [Hnone | [fs [[= <-] Hempty]]]]].
      * reflexivity.
      * destruct approved; [|reflexivity].
        destruct (res_final_response final_state) as [text|]; [|reflexivity].
        destruct (Text.truthy text); [|reflexivity].
        rewrite get_comment_filter.
        unfold has_id in Hno. rewrite <- fetchone_filter in Hno.
        destruct (fetchone _); [discriminate|reflexivity].
      * unfold resume_workflow_after_approval in Eres. rewrite Hnone in Eres.
        discriminate.
      * destruct approved; [|reflexivity].
        destruct (res_final_response final_state) as [text|]; [|reflexivity].
        cbn in Hempty. now rewrite Hempty.
    + destruct approved; [|now left].
      destruct (res_final_response final_state) as [text|] eqn:Hfinal; [|now left].
      destruct (Text.truthy text) eqn:Ht; [|now left].
      destruct (get_comment comment_id (comments w)) as [[row|]|] eqn:Hrow;
        try (now left).
      right. exists final_state, text, row.
      split; [reflexivity|]. split; [reflexivity|]. split; [exact Hfinal|].
      split; [now apply truthy_nonempty|]. split; [reflexivity|].
      split; [|reflexivity].
      rewrite get_comment_filter in Hrow. injection Hrow as Hrow.
      rewrite fetchone_find in Hrow. apply List.find_some in Hrow.
      now apply sql_eq_text.
  - split; [|split].
    + intros fs text row _ [=].
    + reflexivity.
    + now left.
Qed.

Lemma handle_response_approval_posts_witness :
  posts (snd (handle_response_approval later_services "abc123" true posting_world))
  = (posts posting_world ++ [mk_post (TEXT "t1_abc123") draft_text])%list.
Proof.
  apply (proj1 (handle_response_approval_posts later_services "abc123" true
                  posting_world)
           (mk_result "abc123" None (Some draft_text) (Some true) (Some draft_text)
              (Some 201%Q) (Some unexpected_keyword))
           draft_text
           (new_row (sample_add "abc123" "t1_abc123" "pending_approval"))).
  - reflexivity.
  - reflexivity.
  - reflexivity.
  - discriminate.
  - reflexivity.
Defined.

(** X25.  A reply is never posted for a comment the monitor has just
    handled, under either of its two ids.  If no row's internal id is the
    comment's natural id and the fresh uuid differs from it, then a
    decision given under the natural id resumes the workflow but posts
    nothing, and a decision given under the uuid finds no state, reports
    failure and changes nothing. *)
Theorem approval_after_processing_never_posts :
  forall (sv sv' : services) (self : RedditMonitor) (comment : comment_data)
         (w : world) (approved : bool),
    has_id (cd_id comment) (comments w) = false ->
    uuid4 sv <> cd_id comment ->
    load_state (uuid4 sv) (workflow_states w) = None ->
    let w1 := snd (process_comment sv self comment w) in
    posts (snd (handle_response_approval sv' (cd_id comment) approved w1)) = posts w
    /\ handle_response_approval sv' (uuid4 sv) approved w1 = (false, w1).
Proof.
  intros sv sv' self comment w approved Hno Hu Hstate w1. subst w1. split.
  - rewrite handle_posts_unchanged.
    + unfold process_comment.
      destruct (res_sentiment _) as [analysis|]; [|reflexivity].
      destruct (add_comment _ _) as [[i db']|e]; cbn [posts];
        (destruct (res_response_draft _) as [draft|]; [|reflexivity]);
        (destruct (_ && _); [|reflexivity]);
        (destruct (send_alert sv _) as [[|]|]; [|reflexivity|reflexivity]);
        cbn [comments posts];
        destruct (mark_email_sent _ _ _); reflexivity.
    + right. left.
      destruct (monitor_ids sv self comment w) as [Hk _].
      destruct (has_id (cd_id comment)
                  (comments (snd (process_comment sv self comment w)))) eqn:E;
        [|reflexivity].
      apply Hk in E. destruct E as [E | E]; congruence.
  - apply handle_without_state. rewrite process_comment_states.
    destruct (process_comment_cases (the_classifier sv) (the_drafter sv)
                (time_analysis sv) (time_handler sv) comment (workflow_states w))
      as [[analysis [d [_ [_ [_ Hrun]]]]] | Hrun]; rewrite Hrun; cbn [snd].
    + unfold load_state, save_state in *. rewrite lookup_insert_ne; auto.
    + exact Hstate.
Qed.

Lemma approval_after_processing_never_posts_witness :
  let w1 := snd (process_comment sample_services acme scenario_a empty_world) in
  posts (snd (handle_response_approval later_services (cd_id scenario_a) true w1))
  = posts empty_world
  /\ handle_response_approval later_services (uuid4 sample_services) true w1
     = (false, w1).
Proof.
  apply (approval_after_processing_never_posts sample_services later_services acme
           scenario_a empty_world true).
  - reflexivity.
  - discriminate.
  - reflexivity.
Defined.

(** X26.  One pass of [check_for_new_comments] over comments with
    non-empty ids, handled under distinct unused uuids, leaves every one of
    them known to the existence check; a later pass that brings back
    comments with those ids, with or without connectivity and whatever the
    collaborators do, processes none of them and leaves the table, the
    states, the alerts and the posts as they are.  Without connectivity a
    pass does nothing. *)
Theorem second_poll_changes_nothing :
  forall (self : RedditMonitor) (collected again : list (services * comment_data))
         (w : world) (connectivity : bool),
    (forall item, In item collected -> cd_id (snd item) <> "") ->
    List.NoDup (map (fun item => uuid4 (fst item)) collected) ->
    (forall item, In item collected ->
       has_id (uuid4 (fst item)) (comments w) = false) ->
    (forall item, In item again ->
       exists item', In item' collected /\ cd_id (snd item) = cd_id (snd item')) ->
    let first := check_for_new_comments self true collected w in
    (forall item, In item collected ->
       comment_exists (cd_id (snd item)) (comments (snd first)) = Returned true)
    /\ check_for_new_comments self connectivity again (snd first) = ([], snd first)
    /\ check_for_new_comments self false collected w = ([], w).
Proof.
  intros self collected again w connectivity Hne Hnd Hfresh Hagain first.
  assert (Hknown : forall item, In item collected ->
            comment_exists (cd_id (snd item)) (comments (snd first)) = Returned true).
  { subst first. unfold check_for_new_comments. cbn [negb].
    destruct collected as [|c rest] eqn:E; [intros ? []|]. rewrite <- E in *.
    apply (process_batch_learns self collected [] w Hne Hnd Hfresh). }
  split; [exact Hknown|]. split; [|reflexivity].
  unfold check_for_new_comments. destruct (negb connectivity); [reflexivity|].
  destruct again as [|a rest] eqn:E; [reflexivity|]. rewrite <- E in *.
  apply process_batch_known. intros item Hin.
  destruct (Hagain item Hin) as [item' [Hin' ->]]. now apply Hknown.
Qed.

Lemma second_poll_changes_nothing_witness :
  let collected := [(sample_services, scenario_a); (later_services, scenario_b)] in
  let first := check_for_new_comments acme true collected empty_world in
  (forall item, In item collected ->
     comment_exists (cd_id (snd item)) (comments (snd first)) = Returned true)
  /\ check_for_new_comments acme true
       [(later_services, scenario_b); (later_services, scenario_a)] (snd first)
     = ([], snd first)
  /\ check_for_new_comments acme false collected empty_world = ([], empty_world).
Proof.
  apply (second_poll_changes_nothing acme
           [(sample_services, scenario_a); (later_services, scenario_b)]
           [(later_services, scenario_b); (later_services, scenario_a)]
           empty_world true).
  - intros item [<- | [<- | []]]; discriminate.
  - repeat constructor; cbn; intuition discriminate.
  - intros item [<- | [<- | []]]; reflexivity.
  - intros item [<- | [<- | []]].
    + exists (later_services, scenario_b). split; [right; now left|reflexivity].
    + exists (sample_services, scenario_a). split; [now left|reflexivity].
Defined.

Module CollectorFacts.
Import Text CommentDb SentimentWorkflow Collector.

Lemma insert_newest_perm (c : comment_data) (l : list comment_data) :
  Permutation (insert_newest c l) (c :: l).
Proof.
  induction l as [|x l IH]; [reflexivity|].
  cbn. destruct (Qlt_le_dec (cd_created_utc c) (cd_created_utc x)); [|reflexivity].
  rewrite IH. apply perm_swap.
Qed.

Lemma insert_newest_sorted (c : comment_data) (l : list comment_data) :
  StronglySorted no_earlier l -> StronglySorted no_earlier (insert_newest c l).
Proof.
  induction 1 as [|x l Hs IH Hx]; [repeat constructor|].
  cbn [insert_newest].
  destruct (Qlt_le_dec (cd_created_utc c) (cd_created_utc x)) as [Hlt | Hle].
  - constructor; [exact IH|].
    eapply Permutation_Forall; [symmetry; apply insert_newest_perm|].
    constructor; [|exact Hx]. unfold no_earlier. now apply Qlt_le_weak.
  - constructor; [now constructor|]. constructor; [exact Hle|].
    eapply List.Forall_impl; [|exact Hx]. intros y Hy.
    unfold no_earlier in *. now apply Qle_trans with (cd_created_utc x).
Qed.

Lemma sort_newest_first_perm (l : list comment_data) :
  Permutation (sort_newest_first l) l.
Proof.
  unfold sort_newest_first. induction l as [|x l IH]; [reflexivity|].
  cbn. rewrite insert_newest_perm. now constructor.
Qed.

Lemma sort_newest_first_sorted (l : list comment_data) :
  StronglySorted no_earlier (sort_newest_first l).
Proof.
  unfold sort_newest_first. induction l as [|x l IH]; [constructor|].
  cbn. now apply insert_newest_sorted.
Qed.

End CollectorFacts.

Module GuiFacts.
Import Gui.

Lemma duration_parts_shape (total_seconds : Z) :
  (60 <= total_seconds)%Z ->
  (1 <= List.length (duration_parts total_seconds) <= 2)%nat
  /\ (seconds_shown (duration_parts total_seconds) <= total_seconds)%Z
  /\ (total_seconds - seconds_shown (duration_parts total_seconds) < 3600)%Z
  /\ ((total_seconds < 86400)%Z ->
      (total_seconds - seconds_shown (duration_parts total_seconds) < 60)%Z)
  /\ Forall (fun p => (0 < fst p)%Z) (duration_parts total_seconds).
Proof.
  intros H. unfold duration_parts.
  pose proof (Z.div_mod total_seconds 86400 ltac:(lia)) as E1.
  pose proof (Z.mod_pos_bound total_seconds 86400 ltac:(lia)) as B1.
  pose proof (Z.div_mod (total_seconds mod 86400) 3600 ltac:(lia)) as E2.
  pose proof (Z.mod_pos_bound (total_seconds mod 86400) 3600 ltac:(lia)) as B2.
  pose proof (Z.div_mod ((total_seconds mod 86400) mod 3600) 60 ltac:(lia)) as E3.
  pose proof (Z.mod_pos_bound ((total_seconds mod 86400) mod 3600) 60 ltac:(lia)) as B3.
  assert (D0 : (0 <= total_seconds / 86400)%Z) by (apply Z.div_pos; lia).
  assert (H0 : (0 <= (total_seconds mod 86400) / 3600)%Z) by (apply Z.div_pos; lia).
  assert (M0 : (0 <= ((total_seconds mod 86400) mod 3600) / 60)%Z)
    by (apply Z.div_pos; lia).
  set (days := (total_seconds / 86400)%Z) in *.
  set (r1 := (total_seconds mod 86400)%Z) in *.
  set (hours := (r1 / 3600)%Z) in *.
  set (r2 := (r1 mod 3600)%Z) in *.
  set (minutes := (r2 / 60)%Z) in *.
  set (r3 := (r2 mod 60)%Z) in *.
  destruct (Z.ltb_spec 0 days); destruct (Z.ltb_spec 0 hours);
    destruct (Z.ltb_spec 0 minutes); destruct (Z.eqb_spec days 0);
    destruct (Z.eqb_spec hours 0);
    cbn [andb app List.length seconds_shown fold_right fst snd seconds_in];
    try lia;
    (split; [lia|]); (split; [lia|]); (split; [lia|]); (split; [lia|]);
    repeat constructor; cbn [fst]; lia.
Qed.

End GuiFacts.

Import Collector CollectorFacts Gui GuiFacts.

(** X27.  [get_new_comments] returns exactly the comments, fetched from a
    subreddit that could be read, whose body, put in lower case by
    [str.lower], contains the key term put in lower case, each as often as
    it was fetched, arranged from newest to oldest; a subreddit whose fetch
    raises contributes nothing and stops nothing; and two key terms with
    the same lower case give the same answer. *)
Theorem get_new_comments_answer :
  forall (fetch : string -> call (list comment_data)) (lower : string -> string)
         (key_term : string) (subreddits : list string),
    let result := get_new_comments fetch lower key_term subreddits in
    (forall c, In c result <->
       exists subreddit comments,
         In subreddit subreddits /\ fetch subreddit = Ok comments
         /\ In c comments
         /\ Text.contains (lower key_term) (lower (cd_body c)) = true)
    /\ Permutation result
         (flat_map (fun subreddit =>
                      List.filter (mentions lower key_term)
                        (match fetch subreddit with
                         | Ok comments => comments
                         | Fails _ => []
                         end)) subreddits)
    /\ StronglySorted no_earlier result
    /\ forall key_term', lower key_term' = lower key_term ->
         get_new_comments fetch lower key_term' subreddits = result.
Proof.
  intros fetch lower key_term subreddits result. subst result.
  unfold get_new_comments. split; [|split; [|split]].
  - intros c. split.
    + intros Hin. apply (Permutation_in _ (sort_newest_first_perm _)) in Hin.
      apply in_flat_map in Hin. destruct Hin as [subreddit [Hs Hin]].
      apply List.filter_In in Hin. destruct Hin as [Hin Hm].
      unfold get_subreddit_comments in Hin.
      destruct (fetch subreddit) as [comments|error] eqn:E; [|destruct Hin].
      exists subreddit, comments. auto.
    + intros [subreddit [comments [Hs [Hf [Hin Hm]]]]].
      apply (Permutation_in _ (Permutation_sym (sort_newest_first_perm _))).
      apply in_flat_map. exists subreddit. split; [exact Hs|].
      apply List.filter_In. unfold get_subreddit_comments. rewrite Hf. auto.
  - apply sort_newest_first_perm.
  - apply sort_newest_first_sorted.
  - intros key_term' Hk. f_equal. apply flat_map_ext. intros subreddit.
    apply List.filter_ext. intros c. unfold mentions. now rewrite Hk.
Qed.

(** Two subreddits, one of which cannot be read: the two comments that
    mention the term come back, the newer one first. *)
Example get_new_comments_example :
  map cd_id (get_new_comments sample_fetch lower_sample "Acme"
               ["private"; "smallbusiness"])
  = ["c3"; "c1"].
Proof. vm_compute. reflexivity. Qed.

(** X28.  For a session of a minute or more, [format_duration] shows one
    or two entries, each with a positive count; what it shows never
    exceeds the duration, falls short of it by less than an hour, and by
    less than a minute when the session is shorter than a day.  The label
    is the entries joined by commas. *)
Theorem format_duration_shows :
  forall (total_seconds : Z),
    (60 <= total_seconds)%Z ->
    let parts := duration_parts total_seconds in
    format_duration total_seconds = String.concat ", " (map render parts)
    /\ (1 <= List.length parts <= 2)%nat
    /\ Forall (fun p => (0 < fst p)%Z) parts
    /\ (seconds_shown parts <= total_seconds)%Z
    /\ (total_seconds - seconds_shown parts < 3600)%Z
    /\ ((total_seconds < 86400)%Z -> (total_seconds - seconds_shown parts < 60)%Z).
Proof.
  intros total_seconds H parts. subst parts.
  destruct (duration_parts_shape total_seconds H) as [Hlen [Hle [Hhour [Hmin Hpos]]]].
  split; [|auto 6].
  unfold format_duration.
  replace (total_seconds <? 60)%Z with false by (symmetry; apply Z.ltb_ge; lia).
  destruct (duration_parts total_seconds); [cbn in Hlen; lia|reflexivity].
Qed.

Lemma format_duration_shows_witness :
  let parts := duration_parts 93784 in
  format_duration 93784 = String.concat ", " (map render parts)
  /\ (1 <= List.length parts <= 2)%nat
  /\ Forall (fun p => (0 < fst p)%Z) parts
  /\ (seconds_shown parts <= 93784)%Z
  /\ (93784 - seconds_shown parts < 3600)%Z
  /\ ((93784 < 86400)%Z -> (93784 - seconds_shown parts < 60)%Z).
Proof.
  apply (format_duration_shows 93784). lia.
Defined.

(** The docstring's examples, and a day, two hours and three minutes, of
    which the minutes are not shown. *)
Example format_duration_examples :
  format_duration 59 = "Just started"
  /\ format_duration 60 = "1 minute"
  /\ format_duration 300 = "5 minutes"
  /\ format_duration 3900 = "1 hour, 5 minutes"
  /\ format_duration 7200 = "2 hours"
  /\ format_duration 97200 = "1 day, 3 hours"
  /\ format_duration 93784 = "1 day, 2 hours"
  /\ format_duration 86580 = "1 day, 3 minutes".
Proof. repeat split; vm_compute; reflexivity. Qed.
